(** * syllAbuIld: the course-generation pipeline, embedded and verified

    The development follows the two source files that hold the pipeline:

    - [frontend/src/App.jsx]: [parseJSONLoosely], [shuffleArray],
      [shuffleQuestionOptions], [normalizeCourseJSON];
    - the backend server: [extractText], [openaiResponses], [safeParseJson],
      the prompt builders and the four [/api/ai/...] request handlers.

    JavaScript values are an inductive type, exceptions are an explicit
    result type, [Math.random] and [fetch] are threaded as explicit state.
    Both files are ES modules (they use [import]), hence strict-mode code. *)

From Stdlib Require Import List String Ascii ZArith NArith Lia Bool Permutation.
From Stdlib Require Import DecimalString DecimalNat DecimalFacts.
Import ListNotations.
Local Open Scope string_scope.

Set Implicit Arguments.
Set Warnings "-register-all,-abstract-large-number".

(** ** JavaScript values *)

Module JS.

(** A JavaScript number.  Doubles are represented by their exact value:
    an integral value, negative zero, a decimal fraction [m * 10^-k] in lowest
    form (10 does not divide [m]), NaN or an infinity.  Rounding of literals
    to 53 bits is not modelled; the programs below only test numbers for
    truthiness, integrality and the range 0..3. *)
Inductive number :=
| NInt (z : Z)
| NNegZero
| NDec (m : Z) (k : positive)
| NNaN
| NInf (negative : bool).

(** A value.  Objects keep their own properties in insertion order (the
    engine's rule that integer-like keys are enumerated first is not modelled;
    nothing below depends on enumeration order).  An array carries, next to
    its elements, the named properties that were assigned to it. *)
Inductive value :=
| VUndef
| VNull
| VBool (b : bool)
| VNum (n : number)
| VStr (s : string)
| VArr (elems : list value) (named : list (string * value))
| VObj (props : list (string * value)).

Definition props := list (string * value).

(** Exceptions.  [Error m] is [new Error(m)]; [TypeError] and [SyntaxError]
    are raised by the engine with engine-worded messages. *)
Inductive exn :=
| Error (message : value)
| TypeError
| SyntaxError.

Inductive result (A : Type) :=
| Ok (a : A)
| Throw (e : exn).
Arguments Ok {A} a.
Arguments Throw {A} e.

Definition bind {A B} (r : result A) (k : A -> result B) : result B :=
  match r with
  | Ok a => k a
  | Throw e => Throw e
  end.

Definition num (n : nat) : value := VNum (NInt (Z.of_nat n)).
Definition arr (l : list value) : value := VArr l [].

(** ToBoolean. *)
Definition truthy (v : value) : bool :=
  match v with
  | VUndef | VNull => false
  | VBool b => b
  | VNum (NInt z) => negb (z =? 0)%Z
  | VNum NNegZero | VNum NNaN => false
  | VNum (NDec m _) => negb (m =? 0)%Z
  | VNum (NInf _) => true
  | VStr s => negb (s =? "")
  | VArr _ _ | VObj _ => true
  end.

(** [a || b] and [a ?? b]. *)
Definition or_else (a b : value) : value := if truthy a then a else b.

Definition nullish (v : value) : bool :=
  match v with
  | VUndef | VNull => true
  | _ => false
  end.

Definition coalesce (a b : value) : value := if nullish a then b else a.

Fixpoint lookup (k : string) (ps : props) : option value :=
  match ps with
  | [] => None
  | (k', v) :: ps' => if k' =? k then Some v else lookup k ps'
  end.

(** Assignment of an own property: an existing key keeps its place. *)
Fixpoint assign (k : string) (v : value) (ps : props) : props :=
  match ps with
  | [] => [(k, v)]
  | (k', v') :: ps' => if k' =? k then (k, v) :: ps' else (k', v') :: assign k v ps'
  end.

Definition has_own (k : string) (ps : props) : bool :=
  match lookup k ps with
  | Some _ => true
  | None => false
  end.

(** ToString returns on [v], as a template literal, [join] and [new Error]
    apply it.  It never throws on a primitive.  On an object the engine calls
    the method [toString] and then [valueOf]: values hold no functions here,
    so an own [toString] hides the inherited one and leaves only [valueOf],
    own and not callable or inherited and returning the object itself: a
    TypeError.  An array without an own [toString] is joined, which converts
    every element but [undefined] and [null]; an own [join] hides the
    inherited one and the array prints as a plain object does. *)
Fixpoint printable (v : value) : bool :=
  match v with
  | VObj ps => negb (has_own "toString" ps)
  | VArr es ps =>
      negb (has_own "toString" ps)
      && (has_own "join" ps || forallb (fun e => nullish e || printable e) es)
  | _ => true
  end.

(** [v?.k] for a property name [k] that is neither [length], nor an index,
    nor a member of a built-in prototype: every name read by the program
    ([id], [title], [units], [finalTest], [questions], [output_text], ...)
    is of that kind, so primitives answer [undefined]. *)
Definition get_opt (v : value) (k : string) : value :=
  match v with
  | VObj ps | VArr _ ps =>
      match lookup k ps with
      | Some x => x
      | None => VUndef
      end
  | _ => VUndef
  end.

(** [v.k]: reading a property of [undefined] or [null] raises. *)
Definition get (v : value) (k : string) : result value :=
  if nullish v then Throw TypeError else Ok (get_opt v k).

(** [target.k = v] in strict mode: creating a property on a primitive
    raises a TypeError, as does any assignment on [undefined] or [null].
    The updated target is returned, so that every reference to the mutated
    object can be replaced by it. *)
Definition put (target : value) (k : string) (v : value) : result value :=
  match target with
  | VObj ps => Ok (VObj (assign k v ps))
  | VArr es ps => Ok (VArr es (assign k v ps))
  | _ => Throw TypeError
  end.

Definition nat_to_string (n : nat) : string :=
  NilEmpty.string_of_uint (Nat.to_uint n).

Fixpoint indexed_from (i : nat) (l : list value) : props :=
  match l with
  | [] => []
  | x :: l' => (nat_to_string i, x) :: indexed_from (S i) l'
  end.

Fixpoint chars (s : string) : list value :=
  match s with
  | EmptyString => []
  | String c s' => VStr (String c EmptyString) :: chars s'
  end.

(** [{ ...v }]: the own enumerable properties of [v], copied into a fresh
    object.  Strings are sequences of bytes here (the UTF-8 encoding of the
    text), so the spread of a string has one property per byte: per
    character for ASCII text. *)
Definition spread (v : value) : props :=
  match v with
  | VObj ps => ps
  | VArr es ps => (indexed_from 0 es ++ ps)%list
  | VStr s => indexed_from 0 (chars s)
  | _ => []
  end.

Definition isArray (v : value) : bool :=
  match v with
  | VArr _ _ => true
  | _ => false
  end.

Definition elems_of (v : value) : list value :=
  match v with
  | VArr es _ => es
  | _ => []
  end.

Definition isString (v : value) : bool :=
  match v with
  | VStr _ => true
  | _ => false
  end.

(** [Number.isInteger]. *)
Definition Number_isInteger (v : value) : bool :=
  match v with
  | VNum (NInt _) | VNum NNegZero => true
  | _ => false
  end.

(** Comparison of a number with an integer constant; [None] for NaN. *)
Definition compare_int (n : number) (c : Z) : option comparison :=
  match n with
  | NInt z => Some (z ?= c)%Z
  | NNegZero => Some (0 ?= c)%Z
  | NDec m k => Some (m ?= c * 10 ^ Z.pos k)%Z
  | NNaN => None
  | NInf true => Some Lt
  | NInf false => Some Gt
  end.

(** [v >= c] and [v <= c] for a number [v]; other operands are not compared
    by the program (the tests sit behind [Number.isInteger]). *)
Definition ge_int (v : value) (c : Z) : bool :=
  match v with
  | VNum n => match compare_int n c with Some Lt | None => false | _ => true end
  | _ => false
  end.

Definition le_int (v : value) (c : Z) : bool :=
  match v with
  | VNum n => match compare_int n c with Some Gt | None => false | _ => true end
  | _ => false
  end.

(** [idx === v] for an array index [idx]. *)
Definition index_strict_eq (idx : nat) (v : value) : bool :=
  match v with
  | VNum (NInt z) => (Z.of_nat idx =? z)%Z
  | VNum NNegZero => Nat.eqb idx 0
  | _ => false
  end.

(** [l.map((x, i) => f(x, i))]. *)
Fixpoint mapi_from {A B} (i : nat) (f : A -> nat -> B) (l : list A) : list B :=
  match l with
  | [] => []
  | x :: l' => f x i :: mapi_from (S i) f l'
  end.

Definition mapi {A B} (f : A -> nat -> B) (l : list A) : list B := mapi_from 0 f l.

End JS.

(** ** [JSON.parse] *)

(** [JSON.parse] is a built-in of the engine.  It is modelled by a
    recursive-descent parser of the JSON grammar: white space, the literals
    [null], [true] and [false], numbers, strings with their escapes, arrays
    and objects (a repeated key keeps its first place and takes the last
    value).  Texts are sequences of bytes, the UTF-8 encoding of the
    text. *)

Module Json.
Import JS.

Definition is_ws (c : ascii) : bool :=
  match nat_of_ascii c with
  | 32 | 9 | 10 | 13 => true
  | _ => false
  end.

Fixpoint skip_ws (s : string) : string :=
  match s with
  | String c s' => if is_ws c then skip_ws s' else s
  | EmptyString => s
  end.

Definition digit_of (c : ascii) : option Z :=
  let n := nat_of_ascii c in
  if (48 <=? n)%nat && (n <=? 57)%nat then Some (Z.of_nat (n - 48)) else None.

Definition hex_of (c : ascii) : option nat :=
  let n := nat_of_ascii c in
  if (48 <=? n)%nat && (n <=? 57)%nat then Some (n - 48)
  else if (65 <=? n)%nat && (n <=? 70)%nat then Some (n - 55)
  else if (97 <=? n)%nat && (n <=? 102)%nat then Some (n - 87)
  else None.

(** Reads a maximal run of digits: its value (on top of [acc]), its length,
    and the rest. *)
Fixpoint digits (acc : Z) (len : nat) (s : string) : Z * nat * string :=
  match s with
  | String c s' =>
      match digit_of c with
      | Some d => digits (acc * 10 + d) (S len) s'
      | None => (acc, len, s)
      end
  | EmptyString => (acc, len, s)
  end.

(** The number [m * 10^-k] in lowest form. *)
Fixpoint decimal (m : Z) (k : nat) : number :=
  match k with
  | O => NInt m
  | S k' => if (m mod 10 =? 0)%Z then decimal (m / 10) k' else NDec m (Pos.of_nat k)
  end.

(** The value of sign, mantissa [m] and decimal exponent [e]. *)
Definition number_of (negative : bool) (m e : Z) : number :=
  if (m =? 0)%Z then (if negative then NNegZero else NInt 0)
  else
    let sm := if negative then (- m)%Z else m in
    if (0 <=? e)%Z then NInt (sm * 10 ^ e) else decimal sm (Z.to_nat (- e)).

(** A JSON number: an optional minus sign, an integer part without leading
    zero, an optional fraction, an optional exponent. *)
Definition parse_number (s : string) : option (number * string) :=
  let '(negative, s1) :=
    match s with
    | String "-" r => (true, r)
    | _ => (false, s)
    end in
  let '(ip, ilen, s2) := digits 0 0 s1 in
  let leading_zero :=
    match s1 with
    | String "0" _ => true
    | _ => false
    end in
  if Nat.eqb ilen 0 || (leading_zero && negb (Nat.eqb ilen 1)) then None
  else
    let frac :=
      match s2 with
      | String "." r =>
          let '(m, flen, s3) := digits ip 0 r in
          if Nat.eqb flen 0 then None else Some (m, flen, s3)
      | _ => Some (ip, 0%nat, s2)
      end in
    match frac with
    | None => None
    | Some (m, flen, s3) =>
        let expo :=
          match s3 with
          | String c r =>
              if (c =? "e")%char || (c =? "E")%char then
                let '(eneg, r1) :=
                  match r with
                  | String "-" r' => (true, r')
                  | String "+" r' => (false, r')
                  | _ => (false, r)
                  end in
                let '(ev, elen, s4) := digits 0 0 r1 in
                if Nat.eqb elen 0 then None
                else Some ((if eneg then - ev else ev)%Z, s4)
              else Some (0%Z, s3)
          | EmptyString => Some (0%Z, s3)
          end in
        match expo with
        | None => None
        | Some (ev, s4) => Some (number_of negative m (ev - Z.of_nat flen), s4)
        end
    end.

(** UTF-8 bytes of a code unit given by [\uXXXX]. *)
Definition utf8 (n : nat) : string :=
  if (n <? 128)%nat then String (ascii_of_nat n) EmptyString
  else if (n <? 2048)%nat then
    String (ascii_of_nat (192 + n / 64))
      (String (ascii_of_nat (128 + n mod 64)) EmptyString)
  else
    String (ascii_of_nat (224 + n / 4096))
      (String (ascii_of_nat (128 + (n / 64) mod 64))
         (String (ascii_of_nat (128 + n mod 64)) EmptyString)).

(** The characters of a string literal after its opening quote. *)
Fixpoint parse_chars (fuel : nat) (s : string) : option (string * string) :=
  match fuel with
  | O => None
  | S fuel' =>
      match s with
      | EmptyString => None
      | String c r =>
          if (c =? "034")%char then Some (EmptyString, r)
          else if (c =? "\")%char then
            match r with
            | String e r' =>
                let simple (x : ascii) :=
                  match parse_chars fuel' r' with
                  | Some (t, rest) => Some (String x t, rest)
                  | None => None
                  end in
                match nat_of_ascii e with
                | 34 => simple e
                | 92 => simple e
                | 47 => simple e
                | 98 => simple (ascii_of_nat 8)
                | 102 => simple (ascii_of_nat 12)
                | 110 => simple (ascii_of_nat 10)
                | 114 => simple (ascii_of_nat 13)
                | 116 => simple (ascii_of_nat 9)
                | 117 =>
                    match r' with
                    | String h1 (String h2 (String h3 (String h4 r''))) =>
                        match hex_of h1, hex_of h2, hex_of h3, hex_of h4 with
                        | Some a, Some b, Some c', Some d =>
                            match parse_chars fuel' r'' with
                            | Some (t, rest) =>
                                Some (utf8 (((a * 16 + b) * 16 + c') * 16 + d) ++ t, rest)
                            | None => None
                            end
                        | _, _, _, _ => None
                        end
                    | _ => None
                    end
                | _ => None
                end
            | EmptyString => None
            end
          else if (nat_of_ascii c <? 32)%nat then None
          else
            match parse_chars fuel' r with
            | Some (t, rest) => Some (String c t, rest)
            | None => None
            end
      end
  end.

Definition parse_string (s : string) : option (string * string) :=
  parse_chars (S (String.length s)) s.

Definition expect (lit : string) (v : value) (s : string) : option (value * string) :=
  if String.prefix lit s
  then Some (v, String.substring (String.length lit) (String.length s - String.length lit) s)
  else None.

(** Recursive descent; every call spends one unit of fuel, and at most two
    calls are made per character read. *)
Fixpoint parse_value (fuel : nat) (s : string) : option (value * string) :=
  match fuel with
  | O => None
  | S fuel' =>
      let elements :=
        fix elements (n : nat) (acc : list value) (s : string) {struct n}
          : option (value * string) :=
          match n with
          | O => None
          | S n' =>
              match parse_value fuel' s with
              | None => None
              | Some (v, r) =>
                  match skip_ws r with
                  | String "," r' => elements n' (v :: acc) r'
                  | String "]" r' => Some (arr (rev (v :: acc)), r')
                  | _ => None
                  end
              end
          end in
      let members :=
        fix members (n : nat) (acc : props) (s : string) {struct n}
          : option (value * string) :=
          match n with
          | O => None
          | S n' =>
              match skip_ws s with
              | String "034" r =>
                  match parse_string r with
                  | None => None
                  | Some (k, r1) =>
                      match skip_ws r1 with
                      | String ":" r2 =>
                          match parse_value fuel' r2 with
                          | None => None
                          | Some (v, r3) =>
                              match skip_ws r3 with
                              | String "," r4 => members n' (assign k v acc) r4
                              | String "}" r4 => Some (VObj (assign k v acc), r4)
                              | _ => None
                              end
                          end
                      | _ => None
                      end
                  end
              | _ => None
              end
          end in
      match skip_ws s with
      | String "{" r =>
          match skip_ws r with
          | String "}" r' => Some (VObj [], r')
          | _ => members (String.length r) [] r
          end
      | String "[" r =>
          match skip_ws r with
          | String "]" r' => Some (arr [], r')
          | _ => elements (String.length r) [] r
          end
      | String "034" r =>
          match parse_string r with
          | Some (t, r') => Some (VStr t, r')
          | None => None
          end
      | String "t" _ => expect "true" (VBool true) (skip_ws s)
      | String "f" _ => expect "false" (VBool false) (skip_ws s)
      | String "n" _ => expect "null" VNull (skip_ws s)
      | s0 =>
          match parse_number s0 with
          | Some (n, r) => Some (VNum n, r)
          | None => None
          end
      end
  end.

(** [JSON.parse(s)]: [None] stands for the SyntaxError it raises.  The nesting
    depth of a text is below its length, so the fuel never runs out. *)
Definition JSON_parse (s : string) : option value :=
  match parse_value (S (String.length s)) s with
  | Some (v, r) =>
      match skip_ws r with
      | EmptyString => Some v
      | _ => None
      end
  | None => None
  end.

End Json.

(** ** The match of the regular expression used by both extractors *)

Module Regex.

(** The suffix of [s] that starts at its first opening brace. *)
Fixpoint from_open_brace (s : string) : option string :=
  match s with
  | EmptyString => None
  | String c r => if (c =? "{")%char then Some s else from_open_brace r
  end.

(** The longest prefix of [s] that ends with a closing brace. *)
Fixpoint through_last_close_brace (s : string) : option string :=
  match s with
  | EmptyString => None
  | String c r =>
      match through_last_close_brace r with
      | Some t => Some (String c t)
      | None => if (c =? "}")%char then Some (String c EmptyString) else None
      end
  end.

(** [s.match(/\{[\s\S]*\}/)]: the leftmost opening brace, then greedily
    everything up to the last closing brace after it; [None] is [null]. *)
Definition match_braces (s : string) : option string :=
  match from_open_brace s with
  | Some (String c r) =>
      match through_last_close_brace r with
      | Some t => Some (String c t)
      | None => None
      end
  | _ => None
  end.

End Regex.

(** ** frontend/src/App.jsx *)

Module Frontend.
Import JS.

(** [parseJSONLoosely(raw)] *)
Definition parseJSONLoosely (raw : value) : result value :=
  match raw with
  | VStr s =>
      if negb (truthy raw) then Throw (Error (VStr "Empty AI response"))
      else
        match Json.JSON_parse s with
        | Some v => Ok v
        | None =>
            match Regex.match_braces s with
            | None => Throw (Error (VStr "AI response did not contain valid JSON."))
            | Some m0 =>
                match Json.JSON_parse m0 with
                | Some v => Ok v
                | None => Throw SyntaxError
                end
            end
        end
  | _ => Throw (Error (VStr "Empty AI response"))
  end.

(** The state of [Math.random]: the sequence of draws still to come.  A draw
    [k] stands for the double [k / 2^53] in [0, 1). *)
Definition Rng := nat -> N.

Definition Math_random (g : Rng) : N * Rng :=
  ((g O mod 2 ^ 53)%N, fun n => g (S n)).

(** [Math.floor(r * n)] for the draw [r = k / 2^53]. *)
Definition floor_times (k : N) (n : nat) : nat :=
  N.to_nat (k * N.of_nat n / 2 ^ 53).

Fixpoint set_nth {A} (l : list A) (i : nat) (x : A) : list A :=
  match l, i with
  | [], _ => []
  | _ :: l', O => x :: l'
  | y :: l', S i' => y :: set_nth l' i' x
  end.

(** [[a[i], a[j]] = [a[j], a[i]]] for indices inside the array (the loop of
    [shuffleArray] never leaves it). *)
Definition swap {A} (a : list A) (i j : nat) : list A :=
  match nth_error a i, nth_error a j with
  | Some x, Some y => set_nth (set_nth a i y) j x
  | _, _ => a
  end.

(** The loop of [shuffleArray], entered with [i] = its counter. *)
Fixpoint shuffle_loop {A} (i : nat) (a : list A) (g : Rng) : list A * Rng :=
  match i with
  | O => (a, g)
  | S i' =>
      let (r, g') := Math_random g in
      let j := floor_times r (i + 1) in
      shuffle_loop i' (swap a i j) g'
  end.

(** [shuffleArray(arr)] *)
Definition shuffleArray {A} (arr : list A) (g : Rng) : list A * Rng :=
  shuffle_loop (List.length arr - 1) arr g.

(** The entries [{ text, correct }] built by [shuffleQuestionOptions]. *)
Record marked := { text : value; correct : bool }.

(** [a.findIndex((x) => x.correct)] *)
Fixpoint findIndex_from (i : nat) (a : list marked) : Z :=
  match a with
  | [] => (-1)%Z
  | x :: a' => if correct x then Z.of_nat i else findIndex_from (S i) a'
  end.

Definition findIndex (a : list marked) : Z := findIndex_from 0 a.

(** [shuffleQuestionOptions(q)].  [q.options || []] has to be an array for
    [.slice(0, 4).map(...)] to be callable. *)
Definition shuffleQuestionOptions (q : value) (g : Rng) : result value * Rng :=
  match get q "options" with
  | Throw e => (Throw e, g)
  | Ok o =>
      match or_else o (arr []) with
      | VArr es _ =>
          let opts :=
            mapi (fun opt idx =>
                    {| text := opt;
                       correct := index_strict_eq idx (get_opt q "correctAnswer") |})
                 (firstn 4 es) in
          let (shuffled, g') := shuffleArray opts g in
          (Ok (VObj (assign "correctAnswer" (VNum (NInt (findIndex shuffled)))
                       (assign "options" (arr (map text shuffled)) (spread q)))),
           g')
      | _ => (Throw TypeError, g)
      end
  end.

(** [qs.map(shuffleQuestionOptions)], the draws consumed from left to right. *)
Fixpoint map_shuffle (qs : list value) (g : Rng) : result (list value) * Rng :=
  match qs with
  | [] => (Ok [], g)
  | q :: qs' =>
      match shuffleQuestionOptions q g with
      | (Throw e, g') => (Throw e, g')
      | (Ok q', g') =>
          match map_shuffle qs' g' with
          | (Throw e, g'') => (Throw e, g'')
          | (Ok l, g'') => (Ok (q' :: l), g'')
          end
      end
  end.

(** The callback of [u.lessons.map] inside the unit of index [ui]. *)
Definition normalizeLesson (ui : nat) (l : value) (li : nat) : value :=
  VObj
    [ ("id", or_else (get_opt l "id")
               (VStr ("u" ++ nat_to_string (ui + 1) ++ "l" ++ nat_to_string (li + 1))));
      ("title", or_else (get_opt l "title") (VStr ("Lesson " ++ nat_to_string (li + 1))));
      ("content", if isString (get_opt l "content") then get_opt l "content" else VStr "");
      ("keyPoints",
        if isArray (get_opt l "keyPoints")
        then arr (firstn 10 (filter truthy (elems_of (get_opt l "keyPoints"))))
        else arr []) ].

(** The callback of [out.units.map]. *)
Definition normalizeUnit (u : value) (ui : nat) : value :=
  VObj
    [ ("id", or_else (get_opt u "id") (VStr ("u" ++ nat_to_string (ui + 1))));
      ("title", or_else (get_opt u "title") (VStr ("Unit " ++ nat_to_string (ui + 1))));
      ("description", or_else (get_opt u "description") (VStr ""));
      ("lessons",
        if isArray (get_opt u "lessons")
        then arr (mapi (normalizeLesson ui) (elems_of (get_opt u "lessons")))
        else arr []) ].

Definition placeholders : list value :=
  [VStr "Option A"; VStr "Option B"; VStr "Option C"; VStr "Option D"].

(** The first callback of [out.finalTest.questions.map]. *)
Definition normalizeQuestion (q : value) (i : nat) : value :=
  VObj
    [ ("id", or_else (get_opt q "id") (VStr ("q" ++ nat_to_string (i + 1))));
      ("question", or_else (get_opt q "question")
                     (VStr ("Question " ++ nat_to_string (i + 1))));
      ("options",
        if isArray (get_opt q "options")
           && (4 <=? List.length (elems_of (get_opt q "options")))%nat
        then arr (firstn 4 (elems_of (get_opt q "options")))
        else arr placeholders);
      ("correctAnswer",
        if Number_isInteger (get_opt q "correctAnswer")
           && ge_int (get_opt q "correctAnswer") 0
           && le_int (get_opt q "correctAnswer") 3
        then get_opt q "correctAnswer"
        else num 0);
      ("explanation", or_else (get_opt q "explanation") (VStr "")) ].

(** [normalizeCourseJSON(parsed)].  [out.finalTest] is one object, reached
    both through [out] and through the assignment target
    [out.finalTest.questions]: the object updated by [put] is stored back
    under [finalTest]. *)
Definition normalizeCourseJSON (parsed : value) (g : Rng) : result value * Rng :=
  let out := spread parsed in
  let out := assign "courseTitle"
               (or_else (get_opt (VObj out) "courseTitle") (VStr "Untitled Course")) out in
  let out := assign "courseDescription"
               (or_else (get_opt (VObj out) "courseDescription")
                  (VStr "AI-generated course from the uploaded syllabus.")) out in
  let out := assign "units"
               (if isArray (get_opt (VObj out) "units")
                then get_opt (VObj out) "units" else arr []) out in
  let out := assign "units"
               (arr (mapi normalizeUnit (elems_of (get_opt (VObj out) "units")))) out in
  let out := assign "finalTest" (or_else (get_opt (VObj out) "finalTest") (VObj [])) out in
  let finalTest := get_opt (VObj out) "finalTest" in
  let (questions, g') :=
    if isArray (get_opt finalTest "questions")
    then map_shuffle (mapi normalizeQuestion (elems_of (get_opt finalTest "questions"))) g
    else (Ok [], g) in
  match questions with
  | Throw e => (Throw e, g')
  | Ok qs =>
      match put finalTest "questions" (arr qs) with
      | Throw e => (Throw e, g')
      | Ok finalTest' => (Ok (VObj (assign "finalTest" finalTest' out)), g')
      end
  end.

(** *** Vocabulary of the properties *)

(** [course.finalTest.questions], as a list. *)
Definition questions_of (course : value) : list value :=
  elems_of (get_opt (get_opt course "finalTest") "questions").

Definition options_of (q : value) : list value := elems_of (get_opt q "options").

(** A question of the input has at least four options. *)
Definition has_four_options (q : value) : bool :=
  isArray (get_opt q "options") && (4 <=? List.length (options_of q))%nat.

(** The question between the two [map]s of [normalizeCourseJSON]: its options
    and its answer before the shuffle. *)
Definition pre_options (q : value) : list value := options_of (normalizeQuestion q 0).
Definition pre_answer (q : value) : value := get_opt (normalizeQuestion q 0) "correctAnswer".

(** The array index designated by an answer. *)
Definition answer_index (v : value) : option nat :=
  match v with
  | VNum (NInt z) => if (0 <=? z)%Z then Some (Z.to_nat z) else None
  | VNum NNegZero => Some 0%nat
  | _ => None
  end.

(** [options[correctAnswer]] *)
Definition answer_option (options : list value) (answer : value) : option value :=
  match answer_index answer with
  | Some i => nth_error options i
  | None => None
  end.

(** Exactly one position of [options] holds [t]. *)
Definition exactly_one (t : value) (options : list value) : Prop :=
  exists j, nth_error options j = Some t /\
            forall j', nth_error options j' = Some t -> j' = j.

(** The literal reading of "padded or truncated to four entries": the
    source entries stay, the free positions take the placeholder of their
    position. *)
Definition padded_or_truncated (source : list value) : list value :=
  firstn 4 (source ++ skipn (List.length source) placeholders).

(** [normalizeCourseJSON(normalizeCourseJSON(x))] *)
Definition twice (x : value) (g : Rng) : result value * Rng :=
  match normalizeCourseJSON x g with
  | (Ok y, g') => normalizeCourseJSON y g'
  | (Throw e, g') => (Throw e, g')
  end.

(** Two questions that differ at most in the order of their options, the
    answer designating the same option. *)
Definition same_up_to_option_order (q q' : value) : Prop :=
  get_opt q' "id" = get_opt q "id" /\
  get_opt q' "question" = get_opt q "question" /\
  get_opt q' "explanation" = get_opt q "explanation" /\
  Permutation (options_of q) (options_of q') /\
  answer_option (options_of q') (get_opt q' "correctAnswer")
  = answer_option (options_of q) (get_opt q "correctAnswer").

(** [course] with [qs] stored as [course.finalTest.questions]. *)
Definition with_questions (course : value) (qs : list value) : value :=
  match course, put (get_opt course "finalTest") "questions" (arr qs) with
  | VObj ps, Ok ft => VObj (assign "finalTest" ft ps)
  | _, _ => course
  end.

(** The entry built for the option [opt] at index [idx] when the answer of
    the question is [ans]. *)
Definition mark (ans : value) (opt : value) (idx : nat) : marked :=
  {| text := opt; correct := index_strict_eq idx ans |}.

(** The object literal returned by the callbacks on questions. *)
Definition question_record (id question : value) (options : list value) (answer : Z)
    (explanation : value) : value :=
  VObj [ ("id", id); ("question", question); ("options", arr options);
         ("correctAnswer", VNum (NInt answer)); ("explanation", explanation) ].

(** [q'] is a possible outcome of [shuffleQuestionOptions(q)]. *)
Definition shuffled (q q' : value) : Prop :=
  exists g, fst (shuffleQuestionOptions q g) = Ok q'.

(** [out] when [normalizeCourseJSON] reaches the questions. *)
Definition course_head (parsed : value) : props :=
  let out := spread parsed in
  let out := assign "courseTitle"
               (or_else (get_opt (VObj out) "courseTitle") (VStr "Untitled Course")) out in
  let out := assign "courseDescription"
               (or_else (get_opt (VObj out) "courseDescription")
                  (VStr "AI-generated course from the uploaded syllabus.")) out in
  let out := assign "units"
               (if isArray (get_opt (VObj out) "units")
                then get_opt (VObj out) "units" else arr []) out in
  let out := assign "units"
               (arr (mapi normalizeUnit (elems_of (get_opt (VObj out) "units")))) out in
  assign "finalTest" (or_else (get_opt (VObj out) "finalTest") (VObj [])) out.

(** *** Sample inputs *)

(** [Math.random] returning 0 at every call. *)
Definition always_zero : Rng := fun _ => 0%N.

Definition question_abcd : value :=
  VObj [ ("id", VStr "q1"); ("question", VStr "Which one?");
         ("options", arr [VStr "a"; VStr "b"; VStr "c"; VStr "d"]);
         ("correctAnswer", num 0); ("explanation", VStr "because") ].

Definition course_abcd : value :=
  VObj [ ("courseTitle", VStr "T"); ("courseDescription", VStr "D");
         ("units", arr []);
         ("finalTest", VObj [("questions", arr [question_abcd])]) ].

(** A question whose first two options carry the same text. *)
Definition question_aabc : value :=
  VObj [ ("options", arr [VStr "a"; VStr "a"; VStr "b"; VStr "c"]);
         ("correctAnswer", num 0) ].

Definition course_aabc : value :=
  VObj [ ("finalTest", VObj [("questions", arr [question_aabc])]) ].

(** A question with three options. *)
Definition question_xyz : value :=
  VObj [ ("options", arr [VStr "x"; VStr "y"; VStr "z"]); ("correctAnswer", num 1) ].

Definition course_xyz : value :=
  VObj [ ("finalTest", VObj [("questions", arr [question_xyz])]) ].

(** A course whose [finalTest] is a truthy primitive. *)
Definition course_primitive_finalTest : value := VObj [("finalTest", VBool true)].

(** What [normalizeCourseJSON] returns on the samples when every draw is 0:
    the shuffle then rotates the four options one place to the left. *)
Definition normalized_abcd : value :=
  VObj [ ("courseTitle", VStr "T"); ("courseDescription", VStr "D");
         ("units", arr []);
         ("finalTest",
           VObj [("questions",
                  arr [question_record (VStr "q1") (VStr "Which one?")
                         [VStr "b"; VStr "c"; VStr "d"; VStr "a"] 3 (VStr "because")])]) ].

Definition shuffled_aabc : value :=
  question_record (VStr "q1") (VStr "Question 1")
    [VStr "a"; VStr "b"; VStr "c"; VStr "a"] 3 (VStr "").

Definition shuffled_xyz : value :=
  question_record (VStr "q1") (VStr "Question 1")
    [VStr "Option B"; VStr "Option C"; VStr "Option D"; VStr "Option A"] 0 (VStr "").

Definition normalized_with (q : value) : value :=
  VObj [ ("finalTest", VObj [("questions", arr [q])]);
         ("courseTitle", VStr "Untitled Course");
         ("courseDescription", VStr "AI-generated course from the uploaded syllabus.");
         ("units", arr []) ].

(** A test of 21 questions. *)
(** A course with two units, the first with two lessons. *)
Definition course_with_lessons : value :=
  VObj [("units",
          arr [ VObj [ ("title", VStr "Sets");
                       ("lessons",
                         arr [ VObj [ ("id", VStr "intro"); ("content", num 5);
                                      ("keyPoints",
                                        arr [VStr "a"; VStr ""; VNull; VStr "b"]) ];
                               VNull ]) ];
                VNull ])].

Definition course_21 : value :=
  VObj [ ("finalTest", VObj [("questions", arr (repeat question_abcd 21))]) ].

End Frontend.

(** ** The backend server *)

Module Backend.
Import JS.

(** The environment-supplied configuration.  The two model names are never
    empty: the source defaults them. *)
Record Config := {
  OPENAI_API_KEY : string;
  OPENAI_MODEL : string;
  OPENAI_VISION_MODEL : string
}.

(** The [input] of a request.  An instruction text is a fixed template
    filled with arguments; it is kept as the template's name and the
    arguments it embeds.  Whether the template can be filled, that is whether
    the values it prints convert to strings, is decided by the builders
    below. *)
Inductive Input :=
| OcrInput (instruction imageDataUrl : value)
| CourseOnlyPrompt (syllabusText : string) (settings : value)
| QuizOnlyPrompt (courseOutline settings : value)
| AnalysisPrompt (courseTitle score wrong : value)
| FocusedPrompt (originalCourse wrongAnswers priorAnalysis sourceExcerpt settings : value).

(** What [openaiResponses] posts to the remote endpoint. *)
Record Request := {
  bearer : string;
  model : value;
  input : Input;
  max_output_tokens : nat;
  json_object : bool
}.

(** What [fetch] resolves to: the status and the outcome of [r.json()]
    ([None] when the body is not JSON). *)
Record Response := {
  status : nat;
  json : option value
}.

Definition ok (r : Response) : bool :=
  (200 <=? status r)%nat && (status r <=? 299)%nat.

Inductive FetchOutcome :=
| Rejected
| Resolved (r : Response).

(** The network: how the remote end answers the [n]-th call, and the calls
    made so far. *)
Record Net := {
  remote : nat -> Request -> FetchOutcome;
  sent : list Request
}.

Definition fetch (rq : Request) (net : Net) : FetchOutcome * Net :=
  (remote net (List.length (sent net)) rq,
   {| remote := remote net; sent := (sent net ++ [rq])%list |}).

(** Computations that may throw and may use the network. *)
Definition M (A : Type) := Net -> result A * Net.

Definition ret {A} (a : A) : M A := fun net => (Ok a, net).
Definition throw {A} (e : exn) : M A := fun net => (Throw e, net).
Definition lift {A} (r : result A) : M A := fun net => (r, net).

Definition mbind {A B} (m : M A) (k : A -> M B) : M B :=
  fun net =>
    match m net with
    | (Ok a, net') => k a net'
    | (Throw e, net') => (Throw e, net')
    end.

Notation "x <- m ;; k" := (mbind m (fun x => k))
  (at level 61, m at next level, right associativity).

Definition missing_key_message : string :=
  "Missing OPENAI_API_KEY. Set it in backend/.env (or hosting env vars).".

(** [msg] in [openaiResponses]: what the remote end says of its failure. *)
Definition error_message (r : Response) : value :=
  let d := match json r with Some v => v | None => VObj [] end in
  or_else (get_opt (get_opt d "error") "message")
    (or_else (get_opt d "message")
       (VStr ("OpenAI error (" ++ nat_to_string (status r) ++ ")"))).

(** [openaiResponses({ model, input, max_output_tokens, json_object })].
    [new Error(msg)] converts [msg] to a string. *)
Definition openaiResponses (cfg : Config) (mdl : value) (inp : Input)
    (max_tokens : nat) (json_obj : bool) : M value :=
  fun net =>
    if OPENAI_API_KEY cfg =? "" then (Throw (Error (VStr missing_key_message)), net)
    else
      let (o, net') :=
        fetch {| bearer := OPENAI_API_KEY cfg; model := mdl; input := inp;
                 max_output_tokens := max_tokens; json_object := json_obj |} net in
      match o with
      | Rejected => (Throw TypeError, net')
      | Resolved r =>
          let d := match json r with Some v => v | None => VObj [] end in
          if negb (ok r) then
            (if printable (error_message r) then Throw (Error (error_message r))
             else Throw TypeError,
             net')
          else (Ok d, net')
      end.

Definition is_str (v : value) (s : string) : bool :=
  match v with
  | VStr t => t =? s
  | _ => false
  end.

Definition str_of (v : value) : string :=
  match v with
  | VStr t => t
  | _ => ""
  end.

(** Strings are sequences of bytes: the UTF-8 encoding of the text, as
    [Json.utf8] writes it.  The white space and the line terminators removed
    by [trim] are the one-byte characters 9 to 13 and 32, the two-byte
    U+00A0, and the three-byte U+1680, U+2000 to U+200A, U+2028, U+2029,
    U+202F, U+205F, U+3000 and U+FEFF. *)
Definition is_space (c : ascii) : bool :=
  match nat_of_ascii c with
  | 9 | 10 | 11 | 12 | 13 | 32 => true
  | _ => false
  end.

Definition is_space2 (c d : ascii) : bool :=
  (nat_of_ascii c =? 194)%nat && (nat_of_ascii d =? 160)%nat.

Definition is_space3 (c d e : ascii) : bool :=
  let a := nat_of_ascii c in
  let b := nat_of_ascii d in
  let x := nat_of_ascii e in
  ((a =? 225) && (b =? 154) && (x =? 128)
   || (a =? 226) && (b =? 128)
      && ((128 <=? x) && (x <=? 138) || (x =? 168) || (x =? 169) || (x =? 175))
   || (a =? 226) && (b =? 129) && (x =? 159)
   || (a =? 227) && (b =? 128) && (x =? 128)
   || (a =? 239) && (b =? 187) && (x =? 191))%nat.

(** [s.trim()] is not empty: some character of [s] is not white. *)
Fixpoint trim_nonempty (s : string) : bool :=
  match s with
  | EmptyString => false
  | String c r =>
      if is_space c then trim_nonempty r
      else
        match r with
        | String d r1 =>
            if is_space2 c d then trim_nonempty r1
            else
              match r1 with
              | String e r2 => if is_space3 c d e then trim_nonempty r2 else true
              | EmptyString => true
              end
        | EmptyString => true
        end
  end.

(** The UTF-16 code units of the character led by the byte [c] (two for a
    four-byte sequence, which is a surrogate pair for the engine), and the
    number of bytes that follow [c] in its sequence. *)
Definition lead_units (c : ascii) : nat :=
  if (240 <=? nat_of_ascii c)%nat then 2 else 1.

Definition trail_bytes (c : ascii) : nat :=
  let b := nat_of_ascii c in
  if (b <? 192)%nat then 0
  else if (b <? 224)%nat then 1
  else if (b <? 240)%nat then 2
  else 3.

(** [s.length], [k] bytes of [s] still belonging to a character already
    counted. *)
Fixpoint units_from (k : nat) (s : string) : nat :=
  match s with
  | EmptyString => 0
  | String c r =>
      match k with
      | S k' => units_from k' r
      | O => lead_units c + units_from (trail_bytes c) r
      end
  end.

Definition utf16_length (s : string) : nat := units_from 0 s.

(** The first half of the surrogate pair of the four-byte sequence that
    starts with [c] and goes on with [r], written as [Json.utf8] writes a
    lone surrogate. *)
Definition high_surrogate (c : ascii) (r : string) : string :=
  match r with
  | String d (String e _) =>
      Json.utf8 (55296 + ((nat_of_ascii c mod 8) * 256 + (nat_of_ascii d mod 64) * 4
                          + (nat_of_ascii e mod 64) / 16 - 64))
  | _ => EmptyString
  end.

(** [s.slice(0, n)]: the first [n] UTF-16 code units of [s]; a cut in the
    middle of a surrogate pair keeps its first half. *)
Fixpoint slice_from (n k : nat) (s : string) : string :=
  match s with
  | EmptyString => EmptyString
  | String c r =>
      match k with
      | S k' => String c (slice_from n k' r)
      | O =>
          if (lead_units c <=? n)%nat
          then String c (slice_from (n - lead_units c) (trail_bytes c) r)
          else if (n =? 1)%nat then high_surrogate c r
          else EmptyString
      end
  end.

Definition slice_units (n : nat) (s : string) : string := slice_from n 0 s.

(** A substitution [${v}] of a template literal: ToString of [v]. *)
Definition interpolate (v : value) : result unit :=
  if printable v then Ok tt else Throw TypeError.

(** The text blocks contributed by one entry of [data.output]. *)
Definition item_texts (item : value) : list string :=
  if is_str (get_opt item "type") "message" && isArray (get_opt item "content") then
    flat_map (fun c =>
                if is_str (get_opt c "type") "output_text" && isString (get_opt c "text")
                then [str_of (get_opt c "text")] else [])
             (elems_of (get_opt item "content"))
  else if is_str (get_opt item "type") "output_text" && isString (get_opt item "text")
  then [str_of (get_opt item "text")]
  else [].

(** [extractText(data)].  [for ... of] needs an iterable: an array, or a
    string (whose characters contribute nothing). *)
Definition extractText (data : value) : result string :=
  if isString (get_opt data "output_text")
     && trim_nonempty (str_of (get_opt data "output_text"))
  then Ok (str_of (get_opt data "output_text"))
  else
    match or_else (get_opt data "output") (arr []) with
    | VArr es _ => Ok (String.concat "" (flat_map item_texts es))
    | VStr _ => Ok ""
    | _ => Throw TypeError
    end.

(** [safeParseJson(raw)], for the string [raw] returned by [extractText]. *)
Definition safeParseJson (raw : string) : result value :=
  match Json.JSON_parse raw with
  | Some v => Ok v
  | None =>
      match Regex.match_braces raw with
      | None => Throw (Error (VStr "Model output was not valid JSON."))
      | Some m0 =>
          match Json.JSON_parse m0 with
          | Some v => Ok v
          | None => Throw SyntaxError
          end
      end
  end.

(** [(v || []).map(f)] for a callback [f] that may throw. *)
Fixpoint map_result (f : value -> result value) (l : list value) : result (list value) :=
  match l with
  | [] => Ok []
  | x :: l' =>
      bind (f x) (fun y => bind (map_result f l') (fun ys => Ok (y :: ys)))
  end.

Definition map_or_empty (v : value) (f : value -> result value) : result value :=
  match or_else v (arr []) with
  | VArr es _ => bind (map_result f es) (fun l => Ok (arr l))
  | _ => Throw TypeError
  end.

Definition outlineLesson (l : value) : result value :=
  bind (get l "id") (fun id =>
  bind (get l "title") (fun title =>
  Ok (VObj [("id", id); ("title", title)]))).

Definition outlineUnit (u : value) : result value :=
  bind (get u "id") (fun id =>
  bind (get u "title") (fun title =>
  bind (get u "lessons") (fun lessons =>
  bind (map_or_empty lessons outlineLesson) (fun ls =>
  Ok (VObj [("id", id); ("title", title); ("lessons", ls)]))))).

(** [outlineForQuiz] in the generate-course handler. *)
Definition outlineForQuiz (courseObj : value) : result value :=
  bind (get courseObj "courseTitle") (fun title =>
  bind (get courseObj "units") (fun units =>
  bind (map_or_empty units outlineUnit) (fun us =>
  Ok (VObj [("courseTitle", title); ("units", us)])))).

(** The body of a reply. *)
Inductive Body :=
| BError (message : string)             (* [{ error: "..." }] *)
| BCaught (e : exn) (fallback : string) (* [{ error: e.message || fallback }] *)
| BText (text : string)                 (* [{ text: ... }] *)
| BJsonText (jsonText : string)         (* [{ jsonText: ... }] *)
| BJsonTextOf (v : value).              (* [{ jsonText: JSON.stringify(v) }] *)

Record Reply := {
  code : nat;
  body : Body
}.

(** [try { ... } catch (e) { res.status(500).json(...) }] *)
Definition handler (m : M Reply) (fallback : string) (net : Net) : Reply * Net :=
  match m net with
  | (Ok r, net') => (r, net')
  | (Throw e, net') => ({| code := 500; body := BCaught e fallback |}, net')
  end.

Definition field (reqBody : value) (k : string) : value :=
  get_opt (or_else reqBody (VObj [])) k.

Definition ocr_default_instruction : string :=
  "OCR this image and extract ALL visible text verbatim. Return only raw text.".

(** [POST /api/ai/ocr-image] *)
Definition ocr_image (cfg : Config) (reqBody : value) : Net -> Reply * Net :=
  handler
    (if negb (truthy (field reqBody "imageDataUrl"))
     then ret {| code := 400; body := BError "imageDataUrl is required" |}
     else
       d <- openaiResponses cfg
              (or_else (field reqBody "model") (VStr (OPENAI_VISION_MODEL cfg)))
              (OcrInput (or_else (field reqBody "instruction") (VStr ocr_default_instruction))
                 (field reqBody "imageDataUrl"))
              4000 false ;;
       t <- lift (extractText d) ;;
       ret {| code := 200; body := BText t |})
    "OCR failed".

(** [buildCourseOnlyPrompt({ syllabusText, settings })]: the template prints
    [minWords]. *)
Definition buildCourseOnlyPrompt (syllabusText : string) (settings : value)
    : result Input :=
  let minWords := coalesce (get_opt settings "minimumLessonWords") (num 300) in
  bind (interpolate minWords) (fun _ =>
  Ok (CourseOnlyPrompt syllabusText settings)).

(** [buildQuizOnlyPrompt({ courseOutline, settings })]: the template prints
    [quizCount] and the serialized outline ([JSON.stringify] returns on every
    value built from parsed JSON). *)
Definition buildQuizOnlyPrompt (courseOutline settings : value) : result Input :=
  let quizCount := coalesce (get_opt settings "quizCountTarget") (num 20) in
  bind (interpolate quizCount) (fun _ =>
  Ok (QuizOnlyPrompt courseOutline settings)).

(** [POST /api/ai/generate-course] *)
Definition generate_course (cfg : Config) (reqBody : value) : Net -> Reply * Net :=
  handler
    (if negb (truthy (field reqBody "syllabusText"))
        || negb (isString (field reqBody "syllabusText"))
     then ret {| code := 400; body := BError "syllabusText (string) is required" |}
     else
       let usedModel := or_else (field reqBody "model") (VStr (OPENAI_MODEL cfg)) in
       let trimmed := slice_units 24000 (str_of (field reqBody "syllabusText")) in
       coursePrompt <- lift (buildCourseOnlyPrompt trimmed (field reqBody "settings")) ;;
       d1 <- openaiResponses cfg usedModel coursePrompt 12000 true ;;
       t1 <- lift (extractText d1) ;;
       courseObj <- lift (safeParseJson t1) ;;
       outline <- lift (outlineForQuiz courseObj) ;;
       quizPrompt <- lift (buildQuizOnlyPrompt outline (field reqBody "settings")) ;;
       d2 <- openaiResponses cfg usedModel quizPrompt 5000 true ;;
       t2 <- lift (extractText d2) ;;
       quizObj <- lift (safeParseJson t2) ;;
       finalTest <- lift (get quizObj "finalTest") ;;
       merged <- lift (put courseObj "finalTest" finalTest) ;;
       ret {| code := 200; body := BJsonTextOf merged |})
    "Course generation failed".

(** The [prompt] of the analyze-test handler: the template prints the
    course title, the three numbers of the score and the serialized wrong
    answers. *)
Definition analysisPrompt (courseTitle score wrong : value) : result Input :=
  bind (interpolate (or_else courseTitle (VStr "a course"))) (fun _ =>
  bind (interpolate (coalesce (get_opt score "pct") (VStr "?"))) (fun _ =>
  bind (interpolate (coalesce (get_opt score "correct") (VStr "?"))) (fun _ =>
  bind (interpolate (coalesce (get_opt score "total") (VStr "?"))) (fun _ =>
  Ok (AnalysisPrompt courseTitle score wrong))))).

(** [POST /api/ai/analyze-test] *)
Definition analyze_test (cfg : Config) (reqBody : value) : Net -> Reply * Net :=
  handler
    (if negb (isArray (field reqBody "wrong"))
     then ret {| code := 400; body := BError "wrong must be an array" |}
     else
       prompt <- lift (analysisPrompt (field reqBody "courseTitle") (field reqBody "score")
                         (field reqBody "wrong")) ;;
       d <- openaiResponses cfg
              (or_else (field reqBody "model") (VStr (OPENAI_MODEL cfg)))
              prompt 900 false ;;
       t <- lift (extractText d) ;;
       ret {| code := 200; body := BText t |})
    "Analysis failed".

(** [(sourceText || "").slice(0, 24000)] in [buildFocusedPrompt]: strings and
    arrays have a [slice], nothing else does. *)
Definition sourceExcerpt (sourceText : value) : result value :=
  match or_else sourceText (VStr "") with
  | VStr s => Ok (VStr (slice_units 24000 s))
  | VArr es _ => Ok (arr (firstn 24000 es))
  | _ => Throw TypeError
  end.

(** [buildFocusedPrompt({ originalCourse, wrongAnswers, priorAnalysis,
    sourceText, settings })]: the template prints, in this order, [minWords],
    the serialized course and wrong answers, the prior analysis, [minWords]
    again, [quizCount] and the excerpt of the source text. *)
Definition buildFocusedPrompt
    (originalCourse wrongAnswers priorAnalysis sourceText settings : value)
    : result Input :=
  let minWords := coalesce (get_opt settings "minimumLessonWords") (num 300) in
  let quizCount := coalesce (get_opt settings "quizCountTarget") (num 18) in
  bind (interpolate minWords) (fun _ =>
  bind (interpolate (or_else priorAnalysis (VStr "(none)"))) (fun _ =>
  bind (interpolate quizCount) (fun _ =>
  bind (sourceExcerpt sourceText) (fun excerpt =>
  bind (interpolate excerpt) (fun _ =>
  Ok (FocusedPrompt originalCourse wrongAnswers priorAnalysis excerpt settings)))))).

(** [POST /api/ai/focused-course] *)
Definition focused_course (cfg : Config) (reqBody : value) : Net -> Reply * Net :=
  handler
    (if negb (truthy (field reqBody "originalCourse"))
     then ret {| code := 400; body := BError "originalCourse is required" |}
     else if negb (isArray (field reqBody "wrongAnswers"))
             || Nat.eqb (List.length (elems_of (field reqBody "wrongAnswers"))) 0
     then ret {| code := 400; body := BError "wrongAnswers must be a non-empty array" |}
     else
       prompt <- lift (buildFocusedPrompt (field reqBody "originalCourse")
                         (field reqBody "wrongAnswers") (field reqBody "priorAnalysis")
                         (field reqBody "sourceText") (field reqBody "settings")) ;;
       d <- openaiResponses cfg
              (or_else (field reqBody "model") (VStr (OPENAI_MODEL cfg)))
              prompt 15000 true ;;
       t <- lift (extractText d) ;;
       ret {| code := 200; body := BJsonText t |})
    "Focused course generation failed".

(** *** Vocabulary of the properties *)

(** The error raised by [safeParseJson] when the text holds no braces. *)
Definition malformed_output_error : exn := Error (VStr "Model output was not valid JSON.").

(** The error raised by [openaiResponses] without a credential. *)
Definition config_error : exn := Error (VStr missing_key_message).

(** The extractor as the specification words it: a strict parse, then a
    parse of the text between the first opening and the last closing brace,
    and the malformed-output error when that fails as well. *)
Definition lenient_parse_as_specified (raw : string) : result value :=
  match Json.JSON_parse raw with
  | Some v => Ok v
  | None =>
      match Regex.match_braces raw with
      | Some m0 =>
          match Json.JSON_parse m0 with
          | Some v => Ok v
          | None => Throw malformed_output_error
          end
      | None => Throw malformed_output_error
      end
  end.

(** The character [c] occurs in [s]. *)
Fixpoint occurs (c : ascii) (s : string) : bool :=
  match s with
  | EmptyString => false
  | String c' r => (c' =? c)%char || occurs c r
  end.

(** [v] is an array with at least one element. *)
Definition nonempty_array (v : value) : bool :=
  isArray v && negb (Nat.eqb (List.length (elems_of v)) 0).

Definition absent_or_array (v : value) : bool := negb (truthy v) || isArray v.

Definition lesson_shaped (l : value) : bool := negb (nullish l).

Definition unit_shaped (u : value) : bool :=
  negb (nullish u)
  && absent_or_array (get_opt u "lessons")
  && forallb lesson_shaped (elems_of (get_opt u "lessons")).

(** A course object whose units, if any, form an array of units whose
    lessons, if any, form an array of lessons: what the outline needs. *)
Definition course_shaped (course : value) : bool :=
  negb (nullish course)
  && absent_or_array (get_opt course "units")
  && forallb unit_shaped (elems_of (get_opt course "units")).

(** *** Sample inputs *)

Definition line_feed : string := String (ascii_of_nat 10) EmptyString.

(** Sample texts are written with apostrophes where JSON has double
    quotes. *)
Fixpoint quoted (s : string) : string :=
  match s with
  | EmptyString => EmptyString
  | String c r => String (if (c =? "'")%char then "034"%char else c) (quoted r)
  end.

Definition object_text : string := quoted "{'a':1}".

Definition wrapped_in_prose : string :=
  "Here is your JSON:" ++ line_feed ++ object_text ++ line_feed ++ "Thanks!".

(** A response envelope that carries [text] in the convenience field. *)
Definition envelope (text : string) : value := VObj [("output_text", VStr text)].

(** A remote end that answers the [n]-th call with the [n]-th envelope. *)
Definition mocked (replies : list value) : Net :=
  {| remote := fun n _ =>
       match nth_error replies n with
       | Some d => Resolved {| status := 200; json := Some d |}
       | None => Rejected
       end;
     sent := [] |}.

Definition with_key : Config :=
  {| OPENAI_API_KEY := "sk-test"; OPENAI_MODEL := "gpt-4.1";
     OPENAI_VISION_MODEL := "gpt-4.1-mini" |}.

Definition without_key : Config :=
  {| OPENAI_API_KEY := ""; OPENAI_MODEL := "gpt-4.1";
     OPENAI_VISION_MODEL := "gpt-4.1-mini" |}.

(** A request for a test of 20 questions. *)
Definition syllabus_request : value :=
  VObj [ ("syllabusText", VStr "Week 1: sets");
         ("settings", VObj [("quizCountTarget", num 20)]) ].

Definition pass1_text : string :=
  quoted "{'courseTitle':'Sets','units':[{'id':'u1','title':'Unit 1','lessons':[{'id':'u1l1','title':'Basics'}]}]}".

Definition pass2_text : string :=
  quoted "{'finalTest':{'questions':[{'id':'q1','question':'Q?','options':['a','b','c','d'],'correctAnswer':1,'explanation':'e'}]}}".

Definition pass1_course : props :=
  [ ("courseTitle", VStr "Sets");
    ("units",
      arr [VObj [ ("id", VStr "u1"); ("title", VStr "Unit 1");
                  ("lessons", arr [VObj [("id", VStr "u1l1"); ("title", VStr "Basics")]]) ]]) ].

Definition pass2_questions : list value :=
  [VObj [ ("id", VStr "q1"); ("question", VStr "Q?");
          ("options", arr [VStr "a"; VStr "b"; VStr "c"; VStr "d"]);
          ("correctAnswer", num 1); ("explanation", VStr "e") ]].

Definition pass2_quiz : props :=
  [("finalTest", VObj [("questions", arr pass2_questions)])].

Definition focused_request (wrongAnswers : value) : value :=
  VObj [("originalCourse", VObj [("courseTitle", VStr "Sets")]);
        ("wrongAnswers", wrongAnswers)].

(** *** Further vocabulary *)

(** [data.output_text] is a string with something else than white space. *)
Definition has_output_text (data : value) : bool :=
  isString (get_opt data "output_text")
  && trim_nonempty (str_of (get_opt data "output_text")).

(** What [for ... of] accepts. *)
Definition iterable (v : value) : bool :=
  match v with
  | VArr _ _ | VStr _ => true
  | _ => false
  end.

(** An entry of [data.output] of a type that [extractText] reads. *)
Definition contributes (item : value) : bool :=
  is_str (get_opt item "type") "message" || is_str (get_opt item "type") "output_text".

(** A response that carries the entries [es] as its [output]. *)
Definition output_of (es : list value) : value := VObj [("output", arr es)].

(** The requests sent between two states of the network. *)
Definition new_requests (before after : Net) : list Request :=
  skipn (List.length (sent before)) (sent after).

(** The own keys of an object, in order. *)
Definition keys_of (v : value) : list string :=
  match v with
  | VObj ps => map fst ps
  | _ => []
  end.

(** The text embedded by a request, when it is the course prompt. *)
Definition syllabus_of (rq : Request) : option string :=
  match input rq with
  | CourseOnlyPrompt t _ => Some t
  | _ => None
  end.

(** A string with at least one character. *)
Definition nonempty_string (v : value) : bool :=
  match v with
  | VStr t => negb (t =? "")
  | _ => false
  end.

(** What [openaiResponses] posts for the given arguments. *)
Definition request_for (cfg : Config) (mdl : value) (inp : Input) (max_tokens : nat)
    (json_obj : bool) : Request :=
  {| bearer := OPENAI_API_KEY cfg; model := mdl; input := inp;
     max_output_tokens := max_tokens; json_object := json_obj |}.

(** The computation [m] only adds requests to the network: between [lo]
    (when it returns) and [hi] of them, all satisfying [P]. *)
Definition sends {A} (P : Request -> Prop) (lo hi : nat) (m : M A) : Prop :=
  forall net, exists new,
    sent (snd (m net)) = (sent net ++ new)%list
    /\ remote (snd (m net)) = remote net
    /\ Forall P new
    /\ (List.length new <= hi)%nat
    /\ (forall a, fst (m net) = Ok a -> (lo <= List.length new)%nat).

(** Whenever [m] returns a reply, its status is 200. *)
Definition returns_200 (m : M Reply) : Prop :=
  forall net r, fst (m net) = Ok r -> code r = 200%nat.

(** An object or an array: what a property can be assigned on. *)
Definition is_object (v : value) : bool :=
  match v with
  | VObj _ | VArr _ _ => true
  | _ => false
  end.

(** The values printed by the prompts of a request convert to strings: the
    prompt can be built.  Numbers, strings, booleans, [null] and absent
    fields always do. *)
Definition course_prompt_prints (reqBody : value) : bool :=
  printable (coalesce (get_opt (field reqBody "settings") "minimumLessonWords") (num 300)).

Definition quiz_prompt_prints (reqBody : value) : bool :=
  printable (coalesce (get_opt (field reqBody "settings") "quizCountTarget") (num 20)).

Definition analysis_prompt_prints (reqBody : value) : bool :=
  printable (or_else (field reqBody "courseTitle") (VStr "a course"))
  && printable (coalesce (get_opt (field reqBody "score") "pct") (VStr "?"))
  && printable (coalesce (get_opt (field reqBody "score") "correct") (VStr "?"))
  && printable (coalesce (get_opt (field reqBody "score") "total") (VStr "?")).

Definition focused_prompt_prints (reqBody : value) : bool :=
  printable (coalesce (get_opt (field reqBody "settings") "minimumLessonWords") (num 300))
  && printable (or_else (field reqBody "priorAnalysis") (VStr "(none)"))
  && printable (coalesce (get_opt (field reqBody "settings") "quizCountTarget") (num 18))
  && match sourceExcerpt (field reqBody "sourceText") with
     | Ok excerpt => printable excerpt
     | Throw _ => false
     end.

(** No character of [s] lies outside the Basic Multilingual Plane: no byte
    leads a four-byte sequence. *)
Fixpoint astral_free (s : string) : bool :=
  match s with
  | EmptyString => true
  | String c r => (nat_of_ascii c <? 240)%nat && astral_free r
  end.

(** The entries of [output] that carry text: a text block of its own, or a
    message with its text blocks. *)
Inductive entry :=
| Block (t : string)
| Message (ts : list string).

Definition text_block (t : string) : value :=
  VObj [("type", VStr "output_text"); ("text", VStr t)].

Definition encode (e : entry) : value :=
  match e with
  | Block t => text_block t
  | Message ts => VObj [("type", VStr "message"); ("content", arr (map text_block ts))]
  end.

Definition texts_of (e : entry) : list string :=
  match e with
  | Block t => [t]
  | Message ts => ts
  end.

(** *** Further sample inputs *)

(** A value that does not convert to a string. *)
Definition unprintable : value := VObj [("toString", num 1)].

Definition unprintable_request : value :=
  VObj [ ("syllabusText", VStr "Week 1: sets");
         ("settings", VObj [("minimumLessonWords", unprintable)]) ].

Fixpoint copies (n : nat) (s : string) : string :=
  match n with
  | O => EmptyString
  | S n' => s ++ copies n' s
  end.

(** The two bytes of U+00E9, and a syllabus of 24001 of them. *)
Definition e_acute : string :=
  String (ascii_of_nat 195) (String (ascii_of_nat 169) EmptyString).

Definition long_syllabus : string := copies (S 24000) e_acute.

Definition long_request : value := VObj [("syllabusText", VStr long_syllabus)].

End Backend.

(** ** Text helpers of frontend/src/App.jsx *)

(** [validatePassword] measures its argument with [length] and
    [normalizeText] trims white space that lies outside ASCII, so texts are
    here what they are for the engine: sequences of UTF-16 code units. *)

Module Text.

Definition text := list N.

Definition in_range (lo hi c : N) : bool := (lo <=? c)%N && (c <=? hi)%N.

(** [/[A-Z]/], [/[a-z]/] and [/\d/] *)
Definition upper (c : N) : bool := in_range 65 90 c.
Definition lower (c : N) : bool := in_range 97 122 c.
Definition digit (c : N) : bool := in_range 48 57 c.

(** The code units of the 32 characters of the last class of
    [validatePassword], in the order of the source (from the exclamation mark
    to the tilde). *)
Definition special_chars : list N :=
  [33; 64; 35; 36; 37; 94; 38; 42; 40; 41; 95; 45; 43; 61; 91; 93; 123; 125;
   59; 58; 39; 34; 44; 46; 60; 62; 47; 63; 92; 124; 96; 126]%N.

Definition special (c : N) : bool := existsb (N.eqb c) special_chars.

(** [/[class]/.test(s)] *)
Definition test (class : N -> bool) (s : text) : bool := existsb class s.

Record verdict := { ok : bool; message : string }.

(** The array [errors] of [validatePassword]. *)
Definition password_errors (pw : text) : list string :=
  ((if (List.length pw <? 8)%nat then ["at least 8 characters"] else [])
   ++ (if negb (test upper pw) then ["1 uppercase letter"] else [])
   ++ (if negb (test lower pw) then ["1 lowercase letter"] else [])
   ++ (if negb (test digit pw) then ["1 number"] else [])
   ++ (if negb (test special pw) then ["1 special character"] else []))%list.

(** [validatePassword(pw)] *)
Definition validatePassword (pw : text) : verdict :=
  let errors := password_errors pw in
  {| ok := Nat.eqb (List.length errors) 0;
     message :=
       if negb (Nat.eqb (List.length errors) 0)
       then "Password must include " ++ String.concat ", " errors ++ "."
       else "" |}.

(** [s.replace(/\u0000/g, "")] *)
Definition remove_nul (s : text) : text := filter (fun c => negb (c =? 0)%N) s.

(** [s.replace(/\r\n/g, "\n")] *)
Fixpoint crlf_to_lf (s : text) : text :=
  match s with
  | [] => []
  | c :: r =>
      match r with
      | d :: r' =>
          if (c =? 13)%N && (d =? 10)%N then 10%N :: crlf_to_lf r'
          else c :: crlf_to_lf r
      | [] => [c]
      end
  end.

(** [s.replace(/\n{3,}/g, "\n\n")]: of every maximal run of line feeds the
    first two are kept; [run] counts the line feeds just passed. *)
Fixpoint collapse_newlines (run : nat) (s : text) : text :=
  match s with
  | [] => []
  | c :: r =>
      if (c =? 10)%N
      then (if (run <? 2)%nat then c :: collapse_newlines (S run) r
            else collapse_newlines (S run) r)
      else c :: collapse_newlines 0 r
  end.

Definition blank (c : N) : bool := (c =? 32)%N || (c =? 9)%N.

(** [s.replace(/[ \t]{2,}/g, " ")]: a maximal run of two or more spaces and
    tabs becomes one space, a single one stays; [in_run] tells that such a
    run is being skipped. *)
Fixpoint collapse_blanks (in_run : bool) (s : text) : text :=
  match s with
  | [] => []
  | c :: r =>
      if blank c then
        if in_run then collapse_blanks true r
        else
          match r with
          | d :: _ => if blank d then 32%N :: collapse_blanks true r
                      else c :: collapse_blanks false r
          | [] => [c]
          end
      else c :: collapse_blanks false r
  end.

(** White space and line terminators, as [trim] knows them. *)
Definition is_white (c : N) : bool :=
  existsb (N.eqb c)
    [9; 10; 11; 12; 13; 32; 160; 5760; 8232; 8233; 8239; 8287; 12288; 65279]%N
  || in_range 8192 8202 c.

Fixpoint trim_start (s : text) : text :=
  match s with
  | [] => []
  | c :: r => if is_white c then trim_start r else s
  end.

Fixpoint trim_end (s : text) : text :=
  match s with
  | [] => []
  | c :: r =>
      match trim_end r with
      | [] => if is_white c then [] else [c]
      | r' => c :: r'
      end
  end.

(** [s.trim()] *)
Definition trim (s : text) : text := trim_end (trim_start s).

(** [normalizeText(s)] *)
Definition normalizeText (s : text) : text :=
  trim (collapse_blanks false (collapse_newlines 0 (crlf_to_lf (remove_nul s)))).

(** *** Vocabulary of the properties *)

(** Some character of [s] belongs to [class]. *)
Definition has (class : N -> bool) (s : text) : Prop :=
  exists c, In c s /\ class c = true.

(** ASCII punctuation. *)
Definition punctuation (c : N) : bool :=
  in_range 33 47 c || in_range 58 64 c || in_range 91 96 c || in_range 123 126 c.

(** [t] occurs in [s] as a run of consecutive characters. *)
Definition occurs_in (t s : text) : Prop := exists a b, s = (a ++ t ++ b)%list.

(** No run of line feeds of [s] reaches three, [k] line feeds coming just
    before [s]. *)
Fixpoint lf_runs_ok (k : nat) (s : text) : bool :=
  match s with
  | [] => true
  | c :: r => if (c =? 10)%N then (S k <? 3)%nat && lf_runs_ok (S k) r else lf_runs_ok 0 r
  end.

(** No two blanks of [s] are neighbours, [prev] telling whether a blank
    comes just before [s]. *)
Fixpoint blanks_ok (prev : bool) (s : text) : bool :=
  match s with
  | [] => true
  | c :: r => negb (prev && blank c) && blanks_ok (blank c) r
  end.

(** Sample texts: "Passw0rd!", and "a", two spaces, "b", a line feed. *)
Definition good_password : text := [80; 97; 115; 115; 119; 48; 114; 100; 33]%N.
Definition spaced_text : text := [97; 32; 32; 98; 10]%N.

End Text.

(** * Properties *)

(** ** Objects and coercions *)

Section Objects.
Import JS.

Lemma lookup_assign_same (k : string) (v : value) (ps : props) :
  lookup k (assign k v ps) = Some v.
Proof.
  induction ps as [|[k' v'] ps IH]; simpl.
  - now rewrite String.eqb_refl.
  - destruct (k' =? k) eqn:E; simpl.
    + now rewrite String.eqb_refl.
    + now rewrite E.
Qed.

Lemma lookup_assign_other (k k' : string) (v : value) (ps : props) :
  k <> k' -> lookup k' (assign k v ps) = lookup k' ps.
Proof.
  intros Hne. induction ps as [|[k0 v0] ps IH]; simpl.
  - apply String.eqb_neq in Hne. now rewrite Hne.
  - destruct (k0 =? k) eqn:E; simpl.
    + apply String.eqb_eq in E. subst k0.
      apply String.eqb_neq in Hne. now rewrite Hne.
    + now rewrite IH.
Qed.

Lemma assign_lookup_id (k : string) (v : value) (ps : props) :
  lookup k ps = Some v -> assign k v ps = ps.
Proof.
  induction ps as [|[k0 v0] ps IH]; simpl; [discriminate|].
  destruct (k0 =? k) eqn:E.
  - apply String.eqb_eq in E. intros [= ->]. now subst.
  - intros H. now rewrite IH.
Qed.

Lemma or_else_idem (a d : value) : or_else (or_else a d) d = or_else a d.
Proof.
  unfold or_else. destruct (truthy a) eqn:Ha.
  - now rewrite Ha.
  - now destruct (truthy d).
Qed.

Lemma or_else_truthy (a d : value) : truthy d = true -> truthy (or_else a d) = true.
Proof. unfold or_else. now destruct (truthy a) eqn:Ha. Qed.

Lemma or_else_of_truthy (a d : value) : truthy a = true -> or_else a d = a.
Proof. unfold or_else. now intros ->. Qed.

(** A printed index starts with a decimal digit. *)
Lemma nat_to_string_digit (n : nat) :
  exists c r, nat_to_string n = String c r /\ Json.digit_of c <> None.
Proof.
  unfold nat_to_string.
  assert (Hnn : Nat.to_uint n <> Decimal.Nil).
  { rewrite <- (DecimalNat.Unsigned.of_to n) at 1.
    rewrite DecimalNat.Unsigned.to_of. apply DecimalFacts.unorm_nonnil. }
  destruct (Nat.to_uint n); [congruence| ..]; simpl;
    eexists; eexists; (split; [reflexivity | discriminate]).
Qed.

(** The index keys added by a spread do not hide a property whose name
    starts with a letter. *)
Lemma lookup_indexed (k : string) (c : ascii) (r : string) (es : list value)
    (i : nat) (ps : props) :
  k = String c r -> Json.digit_of c = None ->
  lookup k (indexed_from i es ++ ps)%list = lookup k ps.
Proof.
  intros -> Hc. revert i. induction es as [|e es IH]; intros i; simpl; [reflexivity|].
  destruct (nat_to_string_digit i) as (c' & r' & -> & Hd).
  simpl. destruct (Ascii.eqb c' c) eqn:E.
  - apply Ascii.eqb_eq in E. subst. congruence.
  - apply IH.
Qed.

Lemma spread_get_opt (v : value) (k : string) (c : ascii) (r : string) :
  k = String c r -> Json.digit_of c = None ->
  get_opt (VObj (spread v)) k = get_opt v k.
Proof.
  intros Hk Hc. destruct v; simpl; try reflexivity.
  - rewrite <- (List.app_nil_r (indexed_from 0 (chars s))).
    now rewrite (lookup_indexed _ _ _ Hk Hc).
  - now rewrite (lookup_indexed _ _ _ Hk Hc).
Qed.

Lemma mapi_from_length {A B} (f : A -> nat -> B) (l : list A) (i : nat) :
  List.length (mapi_from i f l) = List.length l.
Proof. revert i. induction l; intros; simpl; auto. Qed.

Lemma mapi_from_nth_error {A B} (f : A -> nat -> B) (l : list A) (i n : nat) (x : A) :
  nth_error l n = Some x -> nth_error (mapi_from i f l) n = Some (f x (i + n)).
Proof.
  revert i n. induction l as [|y l IH]; intros i [|n]; simpl; try discriminate.
  - intros [= ->]. now rewrite Nat.add_0_r.
  - intros H. rewrite (IH (S i) n H). f_equal. f_equal. lia.
Qed.

Lemma mapi_from_compose {A B C} (f : B -> nat -> C) (h : A -> nat -> B)
    (l : list A) (i : nat) :
  mapi_from i f (mapi_from i h l) = mapi_from i (fun x j => f (h x j) j) l.
Proof. revert i. induction l; intros; simpl; [reflexivity|]. now rewrite IHl. Qed.

Lemma mapi_from_ext {A B} (f h : A -> nat -> B) (l : list A) (i : nat) :
  (forall x j, f x j = h x j) -> mapi_from i f l = mapi_from i h l.
Proof.
  intros H. revert i. induction l; intros; simpl; [reflexivity|].
  now rewrite H, IHl.
Qed.

End Objects.

(** ** The shuffle *)

Section Shuffle.
Import JS Frontend.

Lemma floor_times_le (k : N) (i : nat) :
  (k < 2 ^ 53)%N -> (floor_times k (i + 1) <= i)%nat.
Proof.
  intros Hk. unfold floor_times.
  assert (H : (k * N.of_nat (i + 1) / 2 ^ 53 < N.of_nat (i + 1))%N).
  { apply N.Div0.div_lt_upper_bound. nia. }
  lia.
Qed.

Lemma Math_random_range (g : Rng) : (fst (Math_random g) < 2 ^ 53)%N.
Proof. unfold Math_random. simpl fst. apply N.mod_lt. discriminate. Qed.

Lemma set_nth_length {A} (l : list A) (i : nat) (x : A) :
  List.length (set_nth l i x) = List.length l.
Proof. revert i. induction l; intros [|i]; simpl; auto. Qed.

Lemma nth_error_set_nth_same {A} (l : list A) (i : nat) (x y : A) :
  nth_error l i = Some y -> nth_error (set_nth l i x) i = Some x.
Proof. revert i. induction l; intros [|i]; simpl; try discriminate; auto. Qed.

Lemma nth_error_set_nth_other {A} (l : list A) (i j : nat) (x : A) :
  i <> j -> nth_error (set_nth l i x) j = nth_error l j.
Proof.
  revert i j. induction l; intros [|i] [|j] H; simpl; auto; try congruence.
Qed.

(** Overwriting position [i] trades the old entry for the new one. *)
Lemma set_nth_Permutation {A} (l : list A) (i : nat) (x y : A) :
  nth_error l i = Some x -> Permutation (y :: l) (x :: set_nth l i y).
Proof.
  revert i. induction l as [|a l IH]; intros [|i]; simpl; try discriminate.
  - intros [= ->]. apply perm_swap.
  - intros H. specialize (IH i H).
    transitivity (a :: y :: l); [apply perm_swap|].
    transitivity (a :: x :: set_nth l i y); [now apply perm_skip | apply perm_swap].
Qed.

Lemma swap_Permutation {A} (a : list A) (i j : nat) : Permutation a (swap a i j).
Proof.
  unfold swap.
  destruct (nth_error a i) as [x|] eqn:Hi; [|reflexivity].
  destruct (nth_error a j) as [y|] eqn:Hj; [|reflexivity].
  apply Permutation_cons_inv with (a := y).
  transitivity (x :: set_nth a i y); [now apply set_nth_Permutation|].
  apply set_nth_Permutation.
  destruct (Nat.eq_dec i j) as [->|Hne].
  - assert (x = y) by congruence. subst.
    now apply nth_error_set_nth_same with (y := y).
  - now rewrite nth_error_set_nth_other.
Qed.

(** Inside the loop of [shuffleArray] both indices are inside the array, so
    [swap] does exchange two entries. *)
Lemma swap_in_range {A} (a : list A) (i : nat) (r : N) :
  (i < List.length a)%nat -> (r < 2 ^ 53)%N ->
  exists x y, nth_error a i = Some x /\ nth_error a (floor_times r (i + 1)) = Some y
              /\ swap a i (floor_times r (i + 1))
                 = set_nth (set_nth a i y) (floor_times r (i + 1)) x.
Proof.
  intros Hi Hr. pose proof (floor_times_le i Hr) as Hj.
  destruct (nth_error a i) as [x|] eqn:Hx; [|apply nth_error_None in Hx; lia].
  destruct (nth_error a (floor_times r (i + 1))) as [y|] eqn:Hy;
    [|apply nth_error_None in Hy; lia].
  exists x, y. unfold swap. now rewrite Hx, Hy.
Qed.

Lemma swap_length {A} (a : list A) (i j : nat) : List.length (swap a i j) = List.length a.
Proof.
  unfold swap. destruct (nth_error a i); [|reflexivity].
  destruct (nth_error a j); [|reflexivity]. now rewrite !set_nth_length.
Qed.

Lemma shuffle_loop_Permutation {A} (i : nat) (a : list A) (g : Rng) :
  Permutation a (fst (shuffle_loop i a g)).
Proof.
  revert a g. induction i as [|i IH]; intros a g; simpl; [reflexivity|].
  etransitivity; [apply (swap_Permutation a (S i) (floor_times (g 0%nat mod 2 ^ 53) (i + 1 + 1)))|].
  replace (i + 1 + 1)%nat with (S i + 1)%nat by lia.
  apply IH.
Qed.

Lemma shuffleArray_Permutation {A} (a : list A) (g : Rng) :
  Permutation a (fst (shuffleArray a g)).
Proof. apply shuffle_loop_Permutation. Qed.

Lemma findIndex_from_found (a : list marked) (i : nat) :
  (exists x, In x a /\ correct x = true) ->
  exists n y, findIndex_from i a = Z.of_nat (i + n)
              /\ nth_error a n = Some y /\ correct y = true.
Proof.
  revert i. induction a as [|x a IH]; intros i (y & Hin & Hy); [destruct Hin|].
  simpl. destruct (correct x) eqn:Hx.
  - exists 0%nat, x. rewrite Nat.add_0_r. auto.
  - destruct Hin as [->|Hin]; [congruence|].
    destruct (IH (S i) (ex_intro _ y (conj Hin Hy))) as (n & z & Hf & Hn & Hz).
    exists (S n), z. rewrite Hf. repeat split; auto; f_equal; lia.
Qed.

(** The entries built from the options [opts] for the answer [ans]. *)
Lemma marked_in (opts : list value) (ans : value) (i0 : nat) (y : marked) :
  In y (mapi_from i0 (fun opt idx => {| text := opt; correct := index_strict_eq idx ans |}) opts) ->
  exists n, nth_error opts n = Some (text y) /\ correct y = index_strict_eq (i0 + n) ans.
Proof.
  revert i0. induction opts as [|o opts IH]; intros i0; simpl; [tauto|].
  intros [<-|Hin].
  - exists 0%nat. simpl. now rewrite Nat.add_0_r.
  - destruct (IH (S i0) Hin) as (n & Hn & Hc).
    exists (S n). simpl. split; auto. rewrite Hc. f_equal. lia.
Qed.

Lemma index_strict_eq_answer (n a : nat) (ans : value) :
  answer_index ans = Some a -> index_strict_eq n ans = true -> n = a.
Proof.
  destruct ans as [| | |[z| | | |]| | |]; simpl; try discriminate.
  - destruct (0 <=? z)%Z eqn:Hz; [|discriminate].
    intros [= <-] H. apply Z.eqb_eq in H. lia.
  - intros [= <-] H. now apply Nat.eqb_eq in H.
Qed.

Lemma index_strict_eq_refl (a : nat) (ans : value) :
  answer_index ans = Some a -> index_strict_eq a ans = true.
Proof.
  destruct ans as [| | |[z| | | |]| | |]; simpl; try discriminate.
  - destruct (0 <=? z)%Z eqn:Hz; [|discriminate].
    intros [= <-]. apply Z.eqb_eq. apply Z.leb_le in Hz. lia.
  - now intros [= <-].
Qed.

Lemma map_text_marked (opts : list value) (ans : value) (i0 : nat) :
  map text (mapi_from i0 (fun opt idx => {| text := opt; correct := index_strict_eq idx ans |})
              opts) = opts.
Proof. revert i0. induction opts; intros; simpl; [reflexivity|]. now rewrite IHopts. Qed.

(** After the shuffle, [findIndex] lands on the option that was the answer. *)
Lemma shuffled_answer (opts : list value) (ans : value) (a : nat) (t : value) (g : Rng) :
  answer_index ans = Some a -> nth_error opts a = Some t ->
  let sh := fst (shuffleArray
                   (mapi (fun opt idx => {| text := opt; correct := index_strict_eq idx ans |})
                      opts) g) in
  Permutation opts (map text sh) /\
  exists n, findIndex sh = Z.of_nat n /\ nth_error (map text sh) n = Some t.
Proof.
  intros Ha Ht sh.
  set (m := mapi (fun opt idx => {| text := opt; correct := index_strict_eq idx ans |}) opts).
  assert (Hperm : Permutation m sh) by apply shuffleArray_Permutation.
  split.
  - transitivity (map text m); [|now apply Permutation_map].
    unfold m, mapi. now rewrite map_text_marked.
  - assert (Hex : exists x, In x sh /\ correct x = true).
    { exists {| text := t; correct := index_strict_eq a ans |}. split.
      - apply (Permutation_in _ Hperm). unfold m, mapi.
        apply nth_error_In with (n := a).
        now erewrite mapi_from_nth_error by exact Ht.
      - simpl. now apply index_strict_eq_refl. }
    destruct (findIndex_from_found sh 0 Hex) as (n & y & Hf & Hn & Hy).
    exists n. split; [exact Hf|].
    rewrite nth_error_map, Hn. simpl. f_equal.
    assert (Hin : In y m).
    { apply (Permutation_in _ (Permutation_sym Hperm)). now apply nth_error_In with (n := n). }
    destruct (marked_in _ _ _ _ Hin) as (k & Hk & Hc).
    rewrite Hy in Hc. symmetry in Hc.
    apply (index_strict_eq_answer _ _ Ha) in Hc. simpl in Hc. subst k. congruence.
Qed.

End Shuffle.

(** ** Questions *)

Section Questions.
Import JS Frontend.

Lemma pre_options_cases (q : value) :
  (has_four_options q = true /\ pre_options q = firstn 4 (options_of q)) \/
  (has_four_options q = false /\ pre_options q = placeholders).
Proof.
  unfold pre_options, has_four_options, options_of, normalizeQuestion. cbn.
  destruct (isArray (get_opt q "options") && _); auto.
Qed.

Lemma pre_options_length (q : value) : List.length (pre_options q) = 4%nat.
Proof.
  destruct (pre_options_cases q) as [[H ->]|[_ ->]]; [|reflexivity].
  unfold has_four_options in H. apply andb_prop in H as [_ H].
  apply Nat.leb_le in H. rewrite length_firstn. lia.
Qed.

Lemma pre_answer_cases (q : value) :
  (exists z, pre_answer q = VNum (NInt z) /\ (0 <= z <= 3)%Z) \/ pre_answer q = VNum NNegZero.
Proof.
  unfold pre_answer, normalizeQuestion. cbn.
  destruct (get_opt q "correctAnswer") as [| | |[z| | | |]| | |]; cbn;
    try (left; exists 0%Z; split; [reflexivity | lia]); auto.
  destruct (Z.compare_spec z 0); destruct (Z.compare_spec z 3); cbn;
    left; (exists z; split; [reflexivity | lia]) || (exists 0%Z; split; [reflexivity | lia]).
Qed.

Lemma pre_answer_valid (q : value) :
  exists a, answer_index (pre_answer q) = Some a /\ (a < 4)%nat.
Proof.
  destruct (pre_answer_cases q) as [(z & -> & Hz)| ->]; simpl.
  - destruct (Z.leb_spec 0 z); [|lia]. exists (Z.to_nat z). split; [reflexivity | lia].
  - exists 0%nat. split; [reflexivity | lia].
Qed.

Lemma normalized_options (q : value) (i : nat) :
  get_opt (normalizeQuestion q i) "options" = arr (pre_options q).
Proof.
  unfold pre_options, options_of, normalizeQuestion. cbn.
  now destruct (isArray (get_opt q "options") && _).
Qed.

(** [shuffleQuestionOptions] on the output of the first callback. *)
Lemma shuffleQuestionOptions_normalized (q : value) (i : nat) (g : Rng) :
  shuffleQuestionOptions (normalizeQuestion q i) g =
  let (sh, g') := shuffleArray (mapi (mark (pre_answer q)) (pre_options q)) g in
  (Ok (question_record
         (or_else (get_opt q "id") (VStr ("q" ++ nat_to_string (i + 1))))
         (or_else (get_opt q "question") (VStr ("Question " ++ nat_to_string (i + 1))))
         (map text sh) (findIndex sh)
         (or_else (get_opt q "explanation") (VStr ""))),
   g').
Proof.
  unfold shuffleQuestionOptions, get.
  change (nullish (normalizeQuestion q i)) with false. cbv iota.
  rewrite normalized_options.
  change (get_opt (normalizeQuestion q i) "correctAnswer") with (pre_answer q).
  cbn [or_else truthy arr].
  rewrite firstn_all2 by (rewrite pre_options_length; lia).
  fold (mark (pre_answer q)).
  destruct (shuffleArray _ g) as [sh g'].
  reflexivity.
Qed.

(** What every shuffled question looks like. *)
Lemma shuffled_normalized (q : value) (i : nat) (q' : value) :
  shuffled (normalizeQuestion q i) q' ->
  exists opts' n,
    q' = question_record
           (or_else (get_opt q "id") (VStr ("q" ++ nat_to_string (i + 1))))
           (or_else (get_opt q "question") (VStr ("Question " ++ nat_to_string (i + 1))))
           opts' (Z.of_nat n)
           (or_else (get_opt q "explanation") (VStr ""))
    /\ Permutation (pre_options q) opts'
    /\ (n < 4)%nat
    /\ nth_error opts' n = answer_option (pre_options q) (pre_answer q).
Proof.
  intros [g Hg]. rewrite shuffleQuestionOptions_normalized in Hg.
  destruct (pre_answer_valid q) as (a & Ha & Ha4).
  assert (Hlen := pre_options_length q).
  destruct (nth_error (pre_options q) a) as [t|] eqn:Ht;
    [|apply nth_error_None in Ht; lia].
  destruct (shuffled_answer (pre_options q) (pre_answer q) g Ha Ht) as (Hperm & n & Hf & Hn).
  unfold mark in Hg.
  destruct (shuffleArray _ g) as [sh g'] eqn:Hsh. simpl in Hg, Hperm, Hf, Hn.
  injection Hg as <-.
  exists (map text sh), n. rewrite Hf. repeat split; auto.
  - assert (n < List.length (map text sh))%nat by (apply nth_error_Some; congruence).
    rewrite <- (Permutation_length Hperm) in H. lia.
  - unfold answer_option. rewrite Ha. congruence.
Qed.

(** The shuffle never fails on the output of the first callback. *)
Lemma shuffle_normalized_ok (q : value) (i : nat) (g : Rng) :
  exists q' g', shuffleQuestionOptions (normalizeQuestion q i) g = (Ok q', g').
Proof.
  rewrite shuffleQuestionOptions_normalized.
  destruct (shuffleArray _ g) as [sh g']. eauto.
Qed.

Lemma map_shuffle_ok (l : list value) (g : Rng) :
  Forall (fun nq => forall g0, exists q' g', shuffleQuestionOptions nq g0 = (Ok q', g')) l ->
  exists qs' g', map_shuffle l g = (Ok qs', g') /\ Forall2 shuffled l qs'.
Proof.
  intros H. revert g. induction H as [|nq l Hnq _ IH]; intros g; simpl.
  - exists [], g. split; [reflexivity | constructor].
  - destruct (Hnq g) as (q' & g1 & Hq). rewrite Hq.
    destruct (IH g1) as (qs' & g2 & Hqs & HF). rewrite Hqs.
    exists (q' :: qs'), g2. split; [reflexivity|].
    constructor; [|exact HF]. exists g. now rewrite Hq.
Qed.

Lemma map_shuffle_normalized (qs : list value) (i : nat) (g : Rng) :
  exists qs' g',
    map_shuffle (mapi_from i normalizeQuestion qs) g = (Ok qs', g')
    /\ Forall2 shuffled (mapi_from i normalizeQuestion qs) qs'.
Proof.
  apply map_shuffle_ok. revert i.
  induction qs as [|q qs IH]; intros i; simpl; constructor; [|apply IH].
  intros g0. apply shuffle_normalized_ok.
Qed.

Lemma Forall2_nth_error_l {A B} (R : A -> B -> Prop) (l : list A) (l' : list B)
    (n : nat) (x : A) :
  Forall2 R l l' -> nth_error l n = Some x ->
  exists y, nth_error l' n = Some y /\ R x y.
Proof.
  intros H. revert n. induction H as [|a b l l' Hab _ IH]; intros [|n]; simpl;
    try discriminate.
  - intros [= ->]. eauto.
  - apply IH.
Qed.

(** A shuffled question is left alone by the first callback. *)
Lemma normalizeQuestion_record (id question : value) (opts : list value) (n : nat)
    (explanation : value) (i : nat) :
  truthy id = true -> truthy question = true ->
  List.length opts = 4%nat -> (n < 4)%nat ->
  or_else explanation (VStr "") = explanation ->
  normalizeQuestion (question_record id question opts (Z.of_nat n) explanation) i
  = question_record id question opts (Z.of_nat n) explanation.
Proof.
  intros Hid Hq Hlen Hn He.
  destruct opts as [|o1 [|o2 [|o3 [|o4 [|]]]]]; try discriminate.
  unfold normalizeQuestion, question_record. cbn.
  rewrite !or_else_of_truthy by assumption. rewrite He.
  destruct (Z.compare_spec (Z.of_nat n) 0); destruct (Z.compare_spec (Z.of_nat n) 3);
    cbn; try reflexivity; lia.
Qed.

End Questions.

(** ** The normalizer as a whole *)

Section Normalizer.
Import JS Frontend.

Ltac lookups :=
  cbn [get_opt];
  repeat first
    [ rewrite lookup_assign_same
    | rewrite lookup_assign_other by discriminate ].

Lemma spread_field (v : value) (k : string) :
  In k ["courseTitle"; "courseDescription"; "units"; "finalTest"] ->
  get_opt (VObj (spread v)) k = get_opt v k.
Proof.
  intros [<-|[<-|[<-|[<-|[]]]]];
    eapply spread_get_opt; reflexivity.
Qed.

Lemma head_finalTest (parsed : value) :
  get_opt (VObj (course_head parsed)) "finalTest"
  = or_else (get_opt parsed "finalTest") (VObj []).
Proof.
  unfold course_head. lookups.
  change (match lookup "finalTest" (spread parsed) with Some x => x | None => VUndef end)
    with (get_opt (VObj (spread parsed)) "finalTest").
  rewrite spread_field by (simpl; tauto). reflexivity.
Qed.

Lemma head_courseTitle (parsed : value) :
  get_opt (VObj (course_head parsed)) "courseTitle"
  = or_else (get_opt parsed "courseTitle") (VStr "Untitled Course").
Proof.
  unfold course_head. lookups.
  change (match lookup "courseTitle" (spread parsed) with Some x => x | None => VUndef end)
    with (get_opt (VObj (spread parsed)) "courseTitle").
  rewrite spread_field by (simpl; tauto). reflexivity.
Qed.

Lemma head_courseDescription (parsed : value) :
  get_opt (VObj (course_head parsed)) "courseDescription"
  = or_else (get_opt parsed "courseDescription")
      (VStr "AI-generated course from the uploaded syllabus.").
Proof.
  unfold course_head. lookups.
  change (match lookup "courseDescription" (spread parsed) with Some x => x | None => VUndef end)
    with (get_opt (VObj (spread parsed)) "courseDescription").
  rewrite spread_field by (simpl; tauto). reflexivity.
Qed.

Lemma head_units (parsed : value) :
  get_opt (VObj (course_head parsed)) "units"
  = arr (mapi normalizeUnit (elems_of (get_opt parsed "units"))).
Proof.
  unfold course_head. lookups.
  change (match lookup "units" (spread parsed) with Some x => x | None => VUndef end)
    with (get_opt (VObj (spread parsed)) "units").
  rewrite spread_field by (simpl; tauto).
  now destruct (get_opt parsed "units").
Qed.

Lemma finalTest_questions (parsed : value) :
  get_opt (or_else (get_opt parsed "finalTest") (VObj [])) "questions"
  = get_opt (get_opt parsed "finalTest") "questions".
Proof.
  unfold or_else. destruct (truthy (get_opt parsed "finalTest")) eqn:E; [reflexivity|].
  now destruct (get_opt parsed "finalTest").
Qed.

(** [normalizeCourseJSON], with the reads of [out] resolved. *)
Lemma normalize_unfold (parsed : value) (g : Rng) :
  normalizeCourseJSON parsed g =
  match map_shuffle (mapi normalizeQuestion (questions_of parsed)) g with
  | (Throw e, g') => (Throw e, g')
  | (Ok qs, g') =>
      match put (or_else (get_opt parsed "finalTest") (VObj [])) "questions" (arr qs) with
      | Throw e => (Throw e, g')
      | Ok ft' => (Ok (VObj (assign "finalTest" ft' (course_head parsed))), g')
      end
  end.
Proof.
  unfold normalizeCourseJSON. fold (course_head parsed).
  rewrite head_finalTest, finalTest_questions. unfold questions_of.
  destruct (get_opt (get_opt parsed "finalTest") "questions"); reflexivity.
Qed.

(** The outcome of [normalizeCourseJSON] in full. *)
Lemma normalize_outcome (parsed : value) (g : Rng) :
  exists qs' g',
    map_shuffle (mapi normalizeQuestion (questions_of parsed)) g = (Ok qs', g')
    /\ Forall2 shuffled (mapi normalizeQuestion (questions_of parsed)) qs'
    /\ normalizeCourseJSON parsed g =
       match put (or_else (get_opt parsed "finalTest") (VObj [])) "questions" (arr qs') with
       | Throw e => (Throw e, g')
       | Ok ft' => (Ok (VObj (assign "finalTest" ft' (course_head parsed))), g')
       end.
Proof.
  destruct (map_shuffle_normalized (questions_of parsed) 0 g) as (qs' & g' & Hm & HF).
  exists qs', g'. repeat split; auto.
  rewrite normalize_unfold. unfold mapi. now rewrite Hm.
Qed.

Lemma put_questions (ft : value) (qs : list value) (ft' : value) :
  put ft "questions" (arr qs) = Ok ft' ->
  get_opt ft' "questions" = arr qs /\ truthy ft' = true
  /\ put ft' "questions" (arr qs) = Ok ft'.
Proof.
  destruct ft; simpl; try discriminate; intros [= <-]; simpl;
    rewrite lookup_assign_same;
    rewrite (assign_lookup_id _ _ (lookup_assign_same _ _ _)); auto.
Qed.

(** Reading back a successful outcome. *)
Lemma normalize_result (parsed : value) (g : Rng) (y : value) (g' : Rng) :
  normalizeCourseJSON parsed g = (Ok y, g') ->
  exists qs' ft',
    Forall2 shuffled (mapi normalizeQuestion (questions_of parsed)) qs'
    /\ put (or_else (get_opt parsed "finalTest") (VObj [])) "questions" (arr qs') = Ok ft'
    /\ y = VObj (assign "finalTest" ft' (course_head parsed))
    /\ questions_of y = qs'
    /\ get_opt y "finalTest" = ft'.
Proof.
  intros H. destruct (normalize_outcome parsed g) as (qs' & g1 & _ & HF & Hn).
  rewrite Hn in H.
  destruct (put _ "questions" (arr qs')) as [ft'|e] eqn:Hput; [|discriminate].
  injection H as <- <-. exists qs', ft'. repeat split; auto.
  - unfold questions_of. lookups. now destruct (put_questions _ _ Hput) as [-> _].
  - now lookups.
Qed.

End Normalizer.

(** ** Properties of [normalizeCourseJSON] *)

Section NormalizerProperties.
Import JS Frontend.

Lemma record_options (id question : value) (opts : list value) (z : Z) (e : value) :
  options_of (question_record id question opts z e) = opts.
Proof. reflexivity. Qed.

Lemma record_answer (id question : value) (opts : list value) (n : nat) (e : value) :
  answer_option (options_of (question_record id question opts (Z.of_nat n) e))
    (get_opt (question_record id question opts (Z.of_nat n) e) "correctAnswer")
  = nth_error opts n.
Proof.
  unfold answer_option. cbn.
  destruct (Z.leb_spec 0 (Z.of_nat n)); [|lia]. now rewrite Nat2Z.id.
Qed.

(** Every question of the input has its shuffled counterpart at the same
    position of the output. *)
Lemma normalized_question_at (parsed : value) (g : Rng) (y : value) (g' : Rng)
    (n : nat) (q : value) :
  normalizeCourseJSON parsed g = (Ok y, g') ->
  nth_error (questions_of parsed) n = Some q ->
  exists q', nth_error (questions_of y) n = Some q'
             /\ shuffled (normalizeQuestion q n) q'.
Proof.
  intros Hy Hq.
  destruct (normalize_result _ _ Hy) as (qs' & ft' & HF & _ & _ & -> & _).
  eapply Forall2_nth_error_l; [exact HF|].
  unfold mapi. now erewrite mapi_from_nth_error by exact Hq.
Qed.

(** The normalizer returns whenever [finalTest] is absent, falsy, an object
    or an array, and then both arrays are in place. *)
Lemma normalize_returns (parsed : value) (g : Rng) :
  (truthy (get_opt parsed "finalTest") = true ->
   exists ft, put (get_opt parsed "finalTest") "questions" (arr []) = Ok ft) ->
  exists y g', normalizeCourseJSON parsed g = (Ok y, g')
               /\ isArray (get_opt y "units") = true
               /\ isArray (get_opt (get_opt y "finalTest") "questions") = true.
Proof.
  intros Hft.
  destruct (normalize_outcome parsed g) as (qs' & g' & _ & _ & Hn).
  assert (Hput : exists ft', put (or_else (get_opt parsed "finalTest") (VObj []))
                               "questions" (arr qs') = Ok ft').
  { unfold or_else. destruct (truthy (get_opt parsed "finalTest")) eqn:E.
    - destruct (Hft eq_refl) as [ft Hp].
      destruct (get_opt parsed "finalTest"); try discriminate; simpl; eauto.
    - simpl. eauto. }
  destruct Hput as [ft' Hput]. rewrite Hput in Hn.
  eexists; eexists; split; [exact Hn|]. split.
  - cbn [get_opt]. rewrite lookup_assign_other by discriminate.
    change (isArray (get_opt (VObj (course_head parsed)) "units") = true).
    now rewrite head_units.
  - cbn [get_opt]. rewrite lookup_assign_same.
    now destruct (put_questions _ _ Hput) as [-> _].
Qed.

(** It throws, and then a TypeError, exactly when [finalTest] is a truthy
    primitive. *)
Lemma normalize_throws_exactly (parsed : value) (g : Rng) (e : exn) :
  fst (normalizeCourseJSON parsed g) = Throw e <->
  e = TypeError
  /\ truthy (get_opt parsed "finalTest") = true
  /\ put (get_opt parsed "finalTest") "questions" (arr []) = Throw TypeError.
Proof.
  destruct (normalize_outcome parsed g) as (qs' & g' & _ & _ & Hn).
  rewrite Hn. unfold or_else.
  destruct (truthy (get_opt parsed "finalTest")) eqn:Ht.
  - destruct (get_opt parsed "finalTest"); simpl; split; intros H;
      solve [ discriminate H
            | injection H as <-; auto
            | destruct H as (-> & _ & _); reflexivity
            | destruct H as (_ & _ & H); discriminate H ].
  - simpl. split; intros H; [discriminate H | destruct H as (_ & H & _); discriminate H].
Qed.

(** C1: [normalizeCourseJSON] does throw: on an input whose [finalTest] is
    a truthy primitive (here [{ finalTest: true }]) the strict-mode assignment
    [out.finalTest.questions = ...] raises a TypeError, whatever the random
    source. *)
Theorem normalize_throws_on_primitive_finalTest :
  forall g : Rng,
    fst (normalizeCourseJSON course_primitive_finalTest g) = Throw TypeError.
Proof. intros g. reflexivity. Qed.

(** C10: when [finalTest.questions] of the input is an array of length [n],
    the normalizer returns a course whose [finalTest.questions] is an array of
    length [n]: there is no cap on the number of questions. *)
Theorem normalize_preserves_question_count :
  forall (parsed : value) (g : Rng) (qs : list value) (named : props),
    get_opt (get_opt parsed "finalTest") "questions" = VArr qs named ->
    exists y g',
      normalizeCourseJSON parsed g = (Ok y, g')
      /\ isArray (get_opt (get_opt y "finalTest") "questions") = true
      /\ List.length (questions_of y) = List.length qs.
Proof.
  intros parsed g qs named Hq.
  destruct (normalize_returns parsed g) as (y & g' & Hy & _ & Harr).
  { intros _. destruct (get_opt parsed "finalTest"); try discriminate; simpl; eauto. }
  exists y, g'. repeat split; auto.
  destruct (normalize_result _ _ Hy) as (qs' & ft' & HF & _ & _ & -> & _).
  rewrite <- (Forall2_length HF). unfold mapi. rewrite mapi_from_length.
  unfold questions_of. now rewrite Hq.
Qed.

(** C3 (amended): every question of the input comes out with four options,
    a permutation of its four options before the shuffle (the first four of
    the input when it has at least four); [options[correctAnswer]] is the text
    of the option that was correct before the shuffle; and exactly one option
    carries that text provided the four options before the shuffle are
    pairwise different. *)
Theorem shuffle_keeps_correct_option :
  forall (parsed : value) (g : Rng) (y : value) (g' : Rng) (n : nat) (q : value),
    normalizeCourseJSON parsed g = (Ok y, g') ->
    nth_error (questions_of parsed) n = Some q ->
    exists q' t,
      nth_error (questions_of y) n = Some q'
      /\ (has_four_options q = true -> pre_options q = firstn 4 (options_of q))
      /\ answer_option (pre_options q) (pre_answer q) = Some t
      /\ List.length (options_of q') = 4%nat
      /\ answer_option (options_of q') (get_opt q' "correctAnswer") = Some t
      /\ Permutation (pre_options q) (options_of q')
      /\ (NoDup (pre_options q) -> exactly_one t (options_of q')).
Proof.
  intros parsed g y g' n q Hy Hq.
  destruct (normalized_question_at _ _ _ Hy Hq) as (q' & Hq' & Hsh).
  destruct (shuffled_normalized Hsh) as (opts' & k & -> & Hperm & Hk & Hans).
  assert (Hlen : List.length opts' = 4%nat).
  { rewrite <- (Permutation_length Hperm). apply pre_options_length. }
  destruct (nth_error opts' k) as [t|] eqn:Ht; [|apply nth_error_None in Ht; lia].
  exists (question_record
            (or_else (get_opt q "id") (VStr ("q" ++ nat_to_string (n + 1))))
            (or_else (get_opt q "question") (VStr ("Question " ++ nat_to_string (n + 1))))
            opts' (Z.of_nat k) (or_else (get_opt q "explanation") (VStr ""))), t.
  rewrite record_answer, record_options.
  split; [exact Hq'|]. split.
  { intros H4. destruct (pre_options_cases q) as [[_ Hpre]|[Hno _]]; congruence. }
  repeat split; auto.
  intros Hnd. exists k. split; [exact Ht|]. intros j Hj.
  assert (Hnd' : NoDup opts') by (eapply Permutation_NoDup; eauto).
  rewrite NoDup_nth_error in Hnd'. apply Hnd'; [|congruence].
  apply nth_error_Some. congruence.
Qed.

(** C4 (amended): every question of the input comes out with exactly four
    options: a permutation of its first four options when it has at least
    four, and otherwise of the four placeholders, which replace whatever
    options it had; its answer before the shuffle is the input's
    [correctAnswer] when that is an integer between 0 and 3 and 0 otherwise,
    and its [correctAnswer] after the shuffle is an integer between 0 and 3. *)
Theorem question_options_and_answer :
  forall (parsed : value) (g : Rng) (y : value) (g' : Rng) (n : nat) (q : value),
    normalizeCourseJSON parsed g = (Ok y, g') ->
    nth_error (questions_of parsed) n = Some q ->
    exists q' k,
      nth_error (questions_of y) n = Some q'
      /\ List.length (options_of q') = 4%nat
      /\ Permutation
           (if has_four_options q then firstn 4 (options_of q) else placeholders)
           (options_of q')
      /\ pre_answer q =
         (if Number_isInteger (get_opt q "correctAnswer")
             && ge_int (get_opt q "correctAnswer") 0
             && le_int (get_opt q "correctAnswer") 3
          then get_opt q "correctAnswer" else num 0)
      /\ get_opt q' "correctAnswer" = num k /\ (k < 4)%nat.
Proof.
  intros parsed g y g' n q Hy Hq.
  destruct (normalized_question_at _ _ _ Hy Hq) as (q' & Hq' & Hsh).
  destruct (shuffled_normalized Hsh) as (opts' & k & -> & Hperm & Hk & _).
  eexists; exists k. split; [exact Hq'|].
  rewrite record_options. repeat split; auto.
  - rewrite <- (Permutation_length Hperm). apply pre_options_length.
  - destruct (pre_options_cases q) as [[-> <-]|[-> <-]]; exact Hperm.
Qed.

End NormalizerProperties.

(** ** A second normalization *)

Section Renormalization.
Import JS Frontend.

Lemma filter_firstn_filter {A} (f : A -> bool) (l : list A) (n : nat) :
  filter f (firstn n (filter f l)) = firstn n (filter f l).
Proof.
  revert n. induction l as [|x l IH]; intros n; simpl.
  - now rewrite firstn_nil.
  - destruct (f x) eqn:E; [|apply IH].
    destruct n; simpl; [reflexivity|]. now rewrite E, IH.
Qed.

Lemma firstn_idem {A} (l : list A) (n : nat) : firstn n (firstn n l) = firstn n l.
Proof. rewrite firstn_firstn. now rewrite Nat.min_id. Qed.

Lemma normalizeLesson_idem (ui : nat) (l : value) (li : nat) :
  normalizeLesson ui (normalizeLesson ui l li) li = normalizeLesson ui l li.
Proof.
  unfold normalizeLesson. cbn [get_opt lookup String.eqb Ascii.eqb Bool.eqb].
  rewrite !or_else_idem. repeat f_equal.
  - now destruct (get_opt l "content").
  - destruct (isArray (get_opt l "keyPoints")); [|reflexivity].
    cbn [isArray arr elems_of]. now rewrite filter_firstn_filter, firstn_idem.
Qed.

Lemma mapi_from_idem (f : value -> nat -> value) (l : list value) (i : nat) :
  (forall x j, f (f x j) j = f x j) ->
  mapi_from i f (mapi_from i f l) = mapi_from i f l.
Proof. intros H. rewrite mapi_from_compose. now apply mapi_from_ext. Qed.

Lemma normalizeUnit_idem (u : value) (ui : nat) :
  normalizeUnit (normalizeUnit u ui) ui = normalizeUnit u ui.
Proof.
  unfold normalizeUnit. cbn [get_opt lookup String.eqb Ascii.eqb Bool.eqb].
  rewrite !or_else_idem. repeat f_equal.
  destruct (isArray (get_opt u "lessons")); [|reflexivity].
  cbn [isArray arr elems_of]. unfold mapi.
  now rewrite (@mapi_from_idem _ _ _ (normalizeLesson_idem ui)).
Qed.

Lemma reassign (k : string) (ps : props) (v d : value) :
  lookup k ps = Some v -> or_else v d = v ->
  assign k (or_else (get_opt (VObj ps) k) d) ps = ps.
Proof.
  intros Hl Hv. cbn [get_opt]. rewrite Hl, Hv. now apply assign_lookup_id.
Qed.

Lemma get_opt_lookup (ps : props) (k : string) (v : value) :
  get_opt (VObj ps) k = v -> v <> VUndef -> lookup k ps = Some v.
Proof.
  cbn [get_opt]. destruct (lookup k ps); [now intros ->|congruence].
Qed.

(** The head of a normalized course is left alone by [course_head]. *)
Lemma course_head_fixed (parsed ft : value) :
  truthy ft = true ->
  course_head (VObj (assign "finalTest" ft (course_head parsed)))
  = assign "finalTest" ft (course_head parsed).
Proof.
  intros Hft. set (ps := assign "finalTest" ft (course_head parsed)).
  assert (Ht : lookup "courseTitle" ps
               = Some (or_else (get_opt parsed "courseTitle") (VStr "Untitled Course"))).
  { unfold ps. rewrite lookup_assign_other by discriminate.
    apply get_opt_lookup; [apply head_courseTitle|].
    intros E. pose proof (or_else_truthy (get_opt parsed "courseTitle")
                            (VStr "Untitled Course") eq_refl) as T.
    now rewrite E in T. }
  assert (Hd : lookup "courseDescription" ps
               = Some (or_else (get_opt parsed "courseDescription")
                         (VStr "AI-generated course from the uploaded syllabus."))).
  { unfold ps. rewrite lookup_assign_other by discriminate.
    apply get_opt_lookup; [apply head_courseDescription|].
    intros E. pose proof (or_else_truthy (get_opt parsed "courseDescription")
                            (VStr "AI-generated course from the uploaded syllabus.")
                            eq_refl) as T.
    now rewrite E in T. }
  assert (Hu : lookup "units" ps
               = Some (arr (mapi normalizeUnit (elems_of (get_opt parsed "units"))))).
  { unfold ps. rewrite lookup_assign_other by discriminate.
    apply get_opt_lookup; [apply head_units | discriminate]. }
  assert (Hf : lookup "finalTest" ps = Some ft) by apply lookup_assign_same.
  unfold course_head. cbn [spread].
  rewrite (@reassign _ _ _ _ Ht) by apply or_else_idem.
  rewrite (@reassign _ _ _ _ Hd) by apply or_else_idem.
  cbn [get_opt]. rewrite Hu. cbn [isArray arr elems_of].
  rewrite (@assign_lookup_id _ _ _ Hu).
  rewrite !Hu. cbn [arr elems_of].
  unfold mapi in *. rewrite (@mapi_from_idem _ _ _ normalizeUnit_idem).
  rewrite (@assign_lookup_id _ _ _ Hu).
  rewrite Hf, (@or_else_of_truthy _ _ Hft).
  now apply assign_lookup_id.
Qed.

Lemma shuffled_fixed (q : value) (i : nat) (q' : value) :
  shuffled (normalizeQuestion q i) q' -> normalizeQuestion q' i = q'.
Proof.
  intros H. destruct (shuffled_normalized H) as (opts' & n & -> & Hperm & Hn & _).
  apply normalizeQuestion_record; auto.
  - now apply or_else_truthy.
  - now apply or_else_truthy.
  - rewrite <- (Permutation_length Hperm). apply pre_options_length.
  - apply or_else_idem.
Qed.

Lemma shuffled_same (q : value) (i : nat) (q' : value) :
  shuffled (normalizeQuestion q i) q' ->
  same_up_to_option_order (normalizeQuestion q i) q'.
Proof.
  intros H. destruct (shuffled_normalized H) as (opts' & n & -> & Hperm & Hn & Hans).
  unfold same_up_to_option_order.
  rewrite record_answer, record_options.
  repeat split; auto.
Qed.

Lemma shuffled_list_fixed (qs qs' : list value) (i : nat) :
  Forall2 shuffled (mapi_from i normalizeQuestion qs) qs' ->
  mapi_from i normalizeQuestion qs' = qs'.
Proof.
  revert i qs'. induction qs as [|q qs IH]; intros i qs' H; simpl in H; inversion H; subst.
  - reflexivity.
  - simpl. f_equal; [eapply shuffled_fixed; eauto | eauto].
Qed.

Lemma shuffled_list_same (l l2 : list value) (i : nat) :
  Forall2 shuffled (mapi_from i normalizeQuestion l) l2 ->
  Forall2 same_up_to_option_order (mapi_from i normalizeQuestion l) l2.
Proof.
  revert i l2. induction l as [|q l IH]; intros i l2 H; simpl in *; inversion H; subst;
    constructor; auto using shuffled_same.
Qed.

(** C2 (amended): normalizing a normalized course changes nothing but the
    order of the options of each question: [normalizeCourseJSON(y)], for
    [y = normalizeCourseJSON(x)], is [y] with [finalTest.questions] replaced
    by questions that have the same id, text and explanation, the same options
    in some order, and a [correctAnswer] designating the same option. *)
Theorem normalize_idempotent_up_to_option_order :
  forall (x : value) (g : Rng) (y : value) (g1 : Rng),
    normalizeCourseJSON x g = (Ok y, g1) ->
    forall g2 : Rng,
    exists qs2 g3,
      normalizeCourseJSON y g2 = (Ok (with_questions y qs2), g3)
      /\ Forall2 same_up_to_option_order (questions_of y) qs2.
Proof.
  intros x g y g1 Hy g2.
  destruct (@normalize_result _ _ _ _ Hy) as (qs' & ft' & HF & Hput & Hyeq & Hqs & Hft).
  destruct (@put_questions _ _ _ Hput) as (_ & Htr & Hp3).
  destruct (normalize_outcome y g2) as (qs2 & g3 & _ & HF2 & Hn2).
  pose proof (@shuffled_list_fixed _ _ _ HF) as Hfix.
  rewrite Hqs in HF2. pose proof (@shuffled_list_same _ _ _ HF2) as Hsame.
  unfold mapi in Hsame. rewrite Hfix in Hsame.
  exists qs2, g3. split; [|now rewrite Hqs].
  rewrite Hn2, Hft, (@or_else_of_truthy _ _ Htr).
  subst y. unfold with_questions. rewrite Hft.
  rewrite (@course_head_fixed _ _ Htr).
  destruct (put ft' "questions" (arr qs2)) eqn:Hput2; [reflexivity|].
  destruct ft'; simpl in *; discriminate.
Qed.

End Renormalization.

(** ** The normalizer on the samples *)

Section NormalizerSamples.
Import JS Frontend.

Lemma normalize_preserves_question_count_witness :
  get_opt (get_opt course_21 "finalTest") "questions" = VArr (repeat question_abcd 21) []
  /\ exists y g',
       normalizeCourseJSON course_21 always_zero = (Ok y, g')
       /\ isArray (get_opt (get_opt y "finalTest") "questions") = true
       /\ List.length (questions_of y) = List.length (repeat question_abcd 21).
Proof.
  split; [reflexivity|].
  apply (normalize_preserves_question_count course_21 always_zero
           (qs := repeat question_abcd 21) (named := [])).
  reflexivity.
Defined.

(** With every draw equal to 0 a second normalization rotates the options
    once more: [normalizeCourseJSON(normalizeCourseJSON(x))] and a further
    [normalizeCourseJSON(x)] differ. *)
Lemma normalize_twice_differs :
  fst (normalizeCourseJSON course_abcd always_zero) = Ok normalized_abcd
  /\ fst (twice course_abcd always_zero)
     = Ok (with_questions normalized_abcd
             [question_record (VStr "q1") (VStr "Which one?")
                [VStr "c"; VStr "d"; VStr "a"; VStr "b"] 2 (VStr "because")])
  /\ fst (twice course_abcd always_zero)
     <> fst (normalizeCourseJSON course_abcd (snd (twice course_abcd always_zero))).
Proof.
  split; [reflexivity|]. split; [reflexivity|].
  vm_compute. discriminate.
Qed.

Lemma normalize_idempotent_up_to_option_order_witness :
  normalizeCourseJSON course_abcd always_zero = (Ok normalized_abcd, always_zero)
  /\ exists qs2 g3,
       normalizeCourseJSON normalized_abcd always_zero
       = (Ok (with_questions normalized_abcd qs2), g3)
       /\ Forall2 same_up_to_option_order (questions_of normalized_abcd) qs2.
Proof.
  split; [reflexivity|].
  apply (normalize_idempotent_up_to_option_order
           course_abcd always_zero (y := normalized_abcd) (g1 := always_zero)
           eq_refl always_zero).
Defined.

(** The question [aabc] has four options, "a" is its correct option, and
    after normalization two options carry the text "a". *)
Lemma duplicated_option_text_appears_twice :
  has_four_options question_aabc = true
  /\ answer_option (pre_options question_aabc) (pre_answer question_aabc) = Some (VStr "a")
  /\ fst (normalizeCourseJSON course_aabc always_zero) = Ok (normalized_with shuffled_aabc)
  /\ nth_error (questions_of (normalized_with shuffled_aabc)) 0 = Some shuffled_aabc
  /\ ~ exactly_one (VStr "a") (options_of shuffled_aabc).
Proof.
  repeat split; try reflexivity.
  intros (j & _ & Huniq).
  pose proof (Huniq 0%nat eq_refl) as H0.
  pose proof (Huniq 3%nat eq_refl) as H3.
  congruence.
Qed.

Lemma shuffle_keeps_correct_option_witness :
  normalizeCourseJSON course_abcd always_zero = (Ok normalized_abcd, always_zero)
  /\ nth_error (questions_of course_abcd) 0 = Some question_abcd
  /\ exists q' t,
       nth_error (questions_of normalized_abcd) 0 = Some q'
       /\ (has_four_options question_abcd = true ->
           pre_options question_abcd = firstn 4 (options_of question_abcd))
       /\ answer_option (pre_options question_abcd) (pre_answer question_abcd) = Some t
       /\ List.length (options_of q') = 4%nat
       /\ answer_option (options_of q') (get_opt q' "correctAnswer") = Some t
       /\ Permutation (pre_options question_abcd) (options_of q')
       /\ (NoDup (pre_options question_abcd) -> exactly_one t (options_of q')).
Proof.
  repeat split; try reflexivity.
  apply (shuffle_keeps_correct_option
           course_abcd always_zero (y := normalized_abcd) (g' := always_zero)
           0 (q := question_abcd)); reflexivity.
Defined.

(** The question [xyz] has three options; padding them would keep "x",
    "y" and "z", but none of them is left after normalization. *)
Lemma three_options_are_discarded :
  options_of question_xyz = [VStr "x"; VStr "y"; VStr "z"]
  /\ padded_or_truncated (options_of question_xyz)
     = [VStr "x"; VStr "y"; VStr "z"; VStr "Option D"]
  /\ pre_options question_xyz <> padded_or_truncated (options_of question_xyz)
  /\ fst (normalizeCourseJSON course_xyz always_zero) = Ok (normalized_with shuffled_xyz)
  /\ nth_error (questions_of (normalized_with shuffled_xyz)) 0 = Some shuffled_xyz
  /\ ~ Permutation (padded_or_truncated (options_of question_xyz)) (options_of shuffled_xyz).
Proof.
  split; [reflexivity|]. split; [reflexivity|].
  split; [vm_compute; discriminate|].
  split; [reflexivity|]. split; [reflexivity|].
  intros H. apply (Permutation_in (VStr "x")) in H; [|now left].
  simpl in H. intuition discriminate.
Qed.

Lemma question_options_and_answer_witness :
  normalizeCourseJSON course_xyz always_zero = (Ok (normalized_with shuffled_xyz), always_zero)
  /\ nth_error (questions_of course_xyz) 0 = Some question_xyz
  /\ exists q' k,
       nth_error (questions_of (normalized_with shuffled_xyz)) 0 = Some q'
       /\ List.length (options_of q') = 4%nat
       /\ Permutation
            (if has_four_options question_xyz
             then firstn 4 (options_of question_xyz) else placeholders)
            (options_of q')
       /\ pre_answer question_xyz =
          (if Number_isInteger (get_opt question_xyz "correctAnswer")
              && ge_int (get_opt question_xyz "correctAnswer") 0
              && le_int (get_opt question_xyz "correctAnswer") 3
           then get_opt question_xyz "correctAnswer" else num 0)
       /\ get_opt q' "correctAnswer" = num k /\ (k < 4)%nat.
Proof.
  repeat split; try reflexivity.
  apply (question_options_and_answer
           course_xyz always_zero (y := normalized_with shuffled_xyz) (g' := always_zero)
           0 (q := question_xyz)); reflexivity.
Defined.

End NormalizerSamples.

(** ** The lenient JSON extractor *)

Section Extractor.
Import JS Backend.

Lemma from_open_brace_some (s t : string) :
  Regex.from_open_brace s = Some t ->
  exists pre r, s = pre ++ t /\ t = String "{" r /\ occurs "{" pre = false.
Proof.
  induction s as [|c s IH]; simpl; [discriminate|].
  destruct (Ascii.eqb c "{") eqn:E.
  - intros [= <-]. apply Ascii.eqb_eq in E. subst c.
    exists "", s. auto.
  - intros H. destruct (IH H) as (pre & r & -> & -> & Hpre).
    exists (String c pre), r. simpl. now rewrite E, Hpre.
Qed.

Lemma from_open_brace_none (s : string) :
  Regex.from_open_brace s = None -> occurs "{" s = false.
Proof.
  induction s as [|c s IH]; simpl; [reflexivity|].
  destruct (Ascii.eqb c "{"); [discriminate | exact IH].
Qed.

Lemma through_last_close_brace_none (s : string) :
  Regex.through_last_close_brace s = None -> occurs "}" s = false.
Proof.
  induction s as [|c s IH]; simpl; [reflexivity|].
  destruct (Regex.through_last_close_brace s); [discriminate|].
  destruct (Ascii.eqb c "}"); [discriminate | auto].
Qed.

Lemma through_last_close_brace_some (s t : string) :
  Regex.through_last_close_brace s = Some t ->
  exists mid post, t = mid ++ "}" /\ s = t ++ post /\ occurs "}" post = false.
Proof.
  revert t. induction s as [|c s IH]; intros t; simpl; [discriminate|].
  destruct (Regex.through_last_close_brace s) as [t'|] eqn:E.
  - intros [= <-]. destruct (IH t' eq_refl) as (mid & post & -> & -> & Hpost).
    exists (String c mid), post. auto.
  - destruct (Ascii.eqb c "}") eqn:Ec; [|discriminate].
    intros [= <-]. apply Ascii.eqb_eq in Ec. subst c.
    exists "", s. repeat split. now apply through_last_close_brace_none.
Qed.

(** The match runs from the first opening brace to the last closing one. *)
Lemma match_braces_some (s m0 : string) :
  Regex.match_braces s = Some m0 ->
  exists pre mid post,
    s = pre ++ m0 ++ post /\ m0 = "{" ++ mid ++ "}"
    /\ occurs "{" pre = false /\ occurs "}" post = false.
Proof.
  unfold Regex.match_braces.
  destruct (Regex.from_open_brace s) as [t|] eqn:Ho; [|discriminate].
  destruct (from_open_brace_some _ Ho) as (pre & r & -> & -> & Hpre).
  destruct (Regex.through_last_close_brace r) as [t|] eqn:Hc; [|discriminate].
  intros [= <-].
  destruct (through_last_close_brace_some _ Hc) as (mid & post & -> & -> & Hpost).
  exists pre, mid, post. auto.
Qed.

(** There is no match when no opening brace is followed by a closing one. *)
Lemma match_braces_none (s : string) :
  Regex.match_braces s = None ->
  occurs "{" s = false
  \/ exists pre r, s = pre ++ String "{" r /\ occurs "{" pre = false /\ occurs "}" r = false.
Proof.
  unfold Regex.match_braces.
  destruct (Regex.from_open_brace s) as [t|] eqn:Ho.
  - destruct (from_open_brace_some _ Ho) as (pre & r & -> & -> & Hpre).
    destruct (Regex.through_last_close_brace r) eqn:Hc; [discriminate|].
    intros _. right. exists pre, r. repeat split; auto.
    now apply through_last_close_brace_none.
  - intros _. left. now apply from_open_brace_none.
Qed.

(** C5 (amended): the extractor first parses the raw text strictly; on
    failure it parses the text from the first opening brace through the last
    closing brace; it raises the malformed-output error when there is no such
    text, while a failure to parse that text surfaces as the SyntaxError of
    the JSON parser.  The three sample texts behave as listed. *)
Theorem lenient_extraction :
  forall raw : string,
    safeParseJson raw =
      match Json.JSON_parse raw with
      | Some v => Ok v
      | None =>
          match Regex.match_braces raw with
          | None => Throw malformed_output_error
          | Some m0 =>
              match Json.JSON_parse m0 with
              | Some v => Ok v
              | None => Throw SyntaxError
              end
          end
      end
    /\ (forall m0, Regex.match_braces raw = Some m0 ->
        exists pre mid post,
          raw = pre ++ m0 ++ post /\ m0 = "{" ++ mid ++ "}"
          /\ occurs "{" pre = false /\ occurs "}" post = false)
    /\ (raw <> "" ->
        Frontend.parseJSONLoosely (VStr raw) =
          match safeParseJson raw with
          | Throw (Error _) => Throw (Error (VStr "AI response did not contain valid JSON."))
          | r => r
          end)
    /\ safeParseJson object_text = Ok (VObj [("a", num 1)])
    /\ safeParseJson wrapped_in_prose = Ok (VObj [("a", num 1)])
    /\ safeParseJson "not json at all" = Throw malformed_output_error.
Proof.
  intros raw. split; [reflexivity|]. split; [apply match_braces_some|].
  split; [|repeat split; reflexivity].
  intros Hne. unfold Frontend.parseJSONLoosely, safeParseJson.
  destruct raw as [|c r]; [congruence|]. cbn [truthy String.eqb negb].
  destruct (Json.JSON_parse (String c r)); [reflexivity|].
  destruct (Regex.match_braces (String c r)); [|reflexivity].
  now destruct (Json.JSON_parse s).
Qed.

Lemma lenient_extraction_witness :
  Regex.match_braces wrapped_in_prose = Some object_text
  /\ wrapped_in_prose <> ""
  /\ (exists pre mid post,
        wrapped_in_prose = pre ++ object_text ++ post /\ object_text = "{" ++ mid ++ "}"
        /\ occurs "{" pre = false /\ occurs "}" post = false)
  /\ Frontend.parseJSONLoosely (VStr wrapped_in_prose) = Ok (VObj [("a", num 1)]).
Proof.
  split; [reflexivity|]. split; [discriminate|].
  destruct (lenient_extraction wrapped_in_prose) as (_ & Hm & Hf & _).
  split; [apply Hm; reflexivity|].
  rewrite Hf by discriminate. reflexivity.
Defined.

(** A text with braces that is not JSON: the extractor raises the
    SyntaxError of [JSON.parse], not the malformed-output error. *)
Lemma unparsable_braces_raise_syntax_error :
  safeParseJson "{oops}" = Throw SyntaxError
  /\ lenient_parse_as_specified "{oops}" = Throw malformed_output_error
  /\ safeParseJson "{oops}" <> lenient_parse_as_specified "{oops}".
Proof. repeat split; try reflexivity. vm_compute. discriminate. Qed.

End Extractor.

(** ** The request handlers *)

Section Handlers.
Import JS Backend.

Lemma openaiResponses_without_key (cfg : Config) (mdl : value) (inp : Input)
    (max_tokens : nat) (json_obj : bool) (net : Net) :
  OPENAI_API_KEY cfg = "" ->
  openaiResponses cfg mdl inp max_tokens json_obj net = (Throw config_error, net).
Proof. intros H. unfold openaiResponses. now rewrite H. Qed.

Lemma openaiResponses_resolved (cfg : Config) (mdl : value) (inp : Input)
    (max_tokens : nat) (json_obj : bool) (net : Net) (d : value) :
  OPENAI_API_KEY cfg <> "" ->
  (forall rq, remote net (List.length (sent net)) rq
              = Resolved {| status := 200; json := Some d |}) ->
  openaiResponses cfg mdl inp max_tokens json_obj net
  = (Ok d,
     {| remote := remote net;
        sent := (sent net
                 ++ [{| bearer := OPENAI_API_KEY cfg; model := mdl; input := inp;
                        max_output_tokens := max_tokens; json_object := json_obj |}])%list |}).
Proof.
  intros Hk Hr. unfold openaiResponses, fetch.
  apply String.eqb_neq in Hk. rewrite Hk, Hr. reflexivity.
Qed.

Lemma interpolate_cases (v : value) :
  interpolate v = if printable v then Ok tt else Throw TypeError.
Proof. reflexivity. Qed.

(** The builders return the prompt when the values it prints convert to
    strings, and raise a TypeError otherwise. *)
Lemma buildCourseOnlyPrompt_cases (reqBody : value) (t : string) :
  buildCourseOnlyPrompt t (field reqBody "settings")
  = if course_prompt_prints reqBody
    then Ok (CourseOnlyPrompt t (field reqBody "settings"))
    else Throw TypeError.
Proof.
  unfold buildCourseOnlyPrompt, course_prompt_prints, interpolate.
  now destruct (printable _).
Qed.

Lemma buildQuizOnlyPrompt_cases (reqBody outline : value) :
  buildQuizOnlyPrompt outline (field reqBody "settings")
  = if quiz_prompt_prints reqBody
    then Ok (QuizOnlyPrompt outline (field reqBody "settings"))
    else Throw TypeError.
Proof.
  unfold buildQuizOnlyPrompt, quiz_prompt_prints, interpolate.
  now destruct (printable _).
Qed.

Lemma analysisPrompt_cases (reqBody : value) :
  analysisPrompt (field reqBody "courseTitle") (field reqBody "score") (field reqBody "wrong")
  = if analysis_prompt_prints reqBody
    then Ok (AnalysisPrompt (field reqBody "courseTitle") (field reqBody "score")
               (field reqBody "wrong"))
    else Throw TypeError.
Proof.
  unfold analysisPrompt, analysis_prompt_prints, interpolate.
  destruct (printable (or_else _ _)); [|reflexivity].
  destruct (printable (coalesce (get_opt _ "pct") _)); [|reflexivity].
  destruct (printable (coalesce (get_opt _ "correct") _)); [|reflexivity].
  now destruct (printable (coalesce (get_opt _ "total") _)).
Qed.

Lemma sourceExcerpt_throws (v : value) (e : exn) :
  sourceExcerpt v = Throw e -> e = TypeError.
Proof.
  unfold sourceExcerpt. destruct (or_else v (VStr "")); try discriminate;
    now intros [= <-].
Qed.

Lemma buildFocusedPrompt_cases (reqBody : value) :
  buildFocusedPrompt (field reqBody "originalCourse") (field reqBody "wrongAnswers")
    (field reqBody "priorAnalysis") (field reqBody "sourceText") (field reqBody "settings")
  = if focused_prompt_prints reqBody
    then match sourceExcerpt (field reqBody "sourceText") with
         | Ok excerpt =>
             Ok (FocusedPrompt (field reqBody "originalCourse")
                   (field reqBody "wrongAnswers") (field reqBody "priorAnalysis")
                   excerpt (field reqBody "settings"))
         | Throw e => Throw e
         end
    else Throw TypeError.
Proof.
  unfold buildFocusedPrompt, focused_prompt_prints, interpolate.
  destruct (printable (coalesce (get_opt _ "minimumLessonWords") _)); [|reflexivity].
  destruct (printable (or_else _ _)); [|reflexivity].
  destruct (printable (coalesce (get_opt _ "quizCountTarget") _)); [|reflexivity].
  simpl. destruct (sourceExcerpt (field reqBody "sourceText")) as [x|e] eqn:E; simpl.
  - now destruct (printable x).
  - now rewrite (sourceExcerpt_throws _ E).
Qed.

(** C8: without an API credential the Model Client fails with the
    configuration error and leaves the network untouched.  So none of the
    four operations that invoke it performs a network call; each of them,
    once its request has passed its own validation, answers 500, and the
    error is the configuration error whenever the operation gets as far as
    the Model Client, that is whenever its prompt can be built (always, for
    the OCR operation). *)
Theorem missing_credential_fails_before_any_call :
  forall cfg : Config,
    OPENAI_API_KEY cfg = "" ->
    (forall mdl inp max_tokens json_obj net,
        openaiResponses cfg mdl inp max_tokens json_obj net = (Throw config_error, net))
    /\ (forall reqBody net,
           snd (ocr_image cfg reqBody net) = net
           /\ (truthy (field reqBody "imageDataUrl") = true ->
               fst (ocr_image cfg reqBody net)
               = {| code := 500; body := BCaught config_error "OCR failed" |}))
    /\ (forall reqBody net,
           snd (generate_course cfg reqBody net) = net
           /\ (truthy (field reqBody "syllabusText") = true ->
               isString (field reqBody "syllabusText") = true ->
               code (fst (generate_course cfg reqBody net)) = 500%nat
               /\ (course_prompt_prints reqBody = true ->
                   fst (generate_course cfg reqBody net)
                   = {| code := 500;
                        body := BCaught config_error "Course generation failed" |})))
    /\ (forall reqBody net,
           snd (analyze_test cfg reqBody net) = net
           /\ (isArray (field reqBody "wrong") = true ->
               code (fst (analyze_test cfg reqBody net)) = 500%nat
               /\ (analysis_prompt_prints reqBody = true ->
                   fst (analyze_test cfg reqBody net)
                   = {| code := 500; body := BCaught config_error "Analysis failed" |})))
    /\ (forall reqBody net,
           snd (focused_course cfg reqBody net) = net
           /\ (truthy (field reqBody "originalCourse") = true ->
               nonempty_array (field reqBody "wrongAnswers") = true ->
               code (fst (focused_course cfg reqBody net)) = 500%nat
               /\ (focused_prompt_prints reqBody = true ->
                   fst (focused_course cfg reqBody net)
                   = {| code := 500;
                        body := BCaught config_error "Focused course generation failed" |}))).
Proof.
  intros cfg Hk.
  split; [intros; now apply openaiResponses_without_key|].
  split; [|split; [|split]]; intros reqBody net.
  - split.
    + unfold ocr_image, handler, mbind.
      destruct (truthy (field reqBody "imageDataUrl")); simpl; [|reflexivity].
      now rewrite openaiResponses_without_key.
    + intros Hi. unfold ocr_image, handler, mbind. rewrite Hi. simpl.
      now rewrite openaiResponses_without_key.
  - split.
    + unfold generate_course, handler, mbind, lift.
      destruct (negb (truthy (field reqBody "syllabusText")) || _); simpl; [reflexivity|].
      rewrite buildCourseOnlyPrompt_cases.
      destruct (course_prompt_prints reqBody); [|reflexivity].
      now rewrite openaiResponses_without_key.
    + intros Ht Hs. unfold generate_course, handler, mbind, lift. rewrite Ht, Hs. simpl.
      rewrite buildCourseOnlyPrompt_cases.
      destruct (course_prompt_prints reqBody).
      * rewrite openaiResponses_without_key by exact Hk. split; [reflexivity|]. reflexivity.
      * split; [reflexivity | discriminate].
  - split.
    + unfold analyze_test, handler, mbind, lift.
      destruct (isArray (field reqBody "wrong")); simpl; [|reflexivity].
      rewrite analysisPrompt_cases.
      destruct (analysis_prompt_prints reqBody); [|reflexivity].
      now rewrite openaiResponses_without_key.
    + intros Hw. unfold analyze_test, handler, mbind, lift. rewrite Hw. simpl.
      rewrite analysisPrompt_cases.
      destruct (analysis_prompt_prints reqBody).
      * rewrite openaiResponses_without_key by exact Hk. split; reflexivity.
      * split; [reflexivity | discriminate].
  - split.
    + unfold focused_course, handler, mbind, lift.
      destruct (truthy (field reqBody "originalCourse")); simpl; [|reflexivity].
      destruct (negb (isArray (field reqBody "wrongAnswers")) || _); simpl; [reflexivity|].
      destruct (buildFocusedPrompt _ _ _ _ _); [|reflexivity].
      now rewrite openaiResponses_without_key.
    + intros Ho Hw. unfold focused_course, handler, mbind, lift.
      unfold nonempty_array in Hw. apply andb_prop in Hw as [Ha Hl].
      rewrite Ho, Ha. simpl.
      destruct (Nat.eqb _ 0); [discriminate|]. simpl.
      rewrite buildFocusedPrompt_cases.
      destruct (focused_prompt_prints reqBody) eqn:Hp.
      * unfold focused_prompt_prints in Hp.
        destruct (sourceExcerpt (field reqBody "sourceText")) as [x|e];
          [|rewrite !andb_false_r in Hp; discriminate Hp].
        rewrite openaiResponses_without_key by exact Hk. split; reflexivity.
      * split; [reflexivity | discriminate].
Qed.

Lemma missing_credential_fails_before_any_call_witness :
  OPENAI_API_KEY without_key = ""
  /\ fst (generate_course without_key syllabus_request (mocked []))
     = {| code := 500; body := BCaught config_error "Course generation failed" |}
  /\ sent (snd (generate_course without_key syllabus_request (mocked []))) = [].
Proof.
  split; [reflexivity|].
  destruct (missing_credential_fails_before_any_call without_key eq_refl)
    as (_ & _ & Hg & _).
  destruct (Hg syllabus_request (mocked [])) as [Hnet Hreply].
  split; [apply Hreply; reflexivity | now rewrite Hnet].
Defined.

(** C9: when [wrongAnswers] is not a non-empty array (it is empty, absent,
    or not an array) the focused-course operation answers 400 without
    calling the model, whatever [originalCourse] is; with [originalCourse]
    present the message names [wrongAnswers].  Hence the model is called only
    when [wrongAnswers] is a non-empty array. *)
Theorem focused_course_requires_wrong_answers :
  forall (cfg : Config) (reqBody : value) (net : Net),
    nonempty_array (field reqBody "wrongAnswers") = false ->
    code (fst (focused_course cfg reqBody net)) = 400%nat
    /\ snd (focused_course cfg reqBody net) = net
    /\ (truthy (field reqBody "originalCourse") = true ->
        body (fst (focused_course cfg reqBody net))
        = BError "wrongAnswers must be a non-empty array").
Proof.
  intros cfg reqBody net Hw.
  assert (Hc : negb (isArray (field reqBody "wrongAnswers"))
               || Nat.eqb (List.length (elems_of (field reqBody "wrongAnswers"))) 0 = true).
  { unfold nonempty_array in Hw.
    destruct (isArray (field reqBody "wrongAnswers")); simpl in *; [|reflexivity].
    now destruct (Nat.eqb _ 0). }
  unfold focused_course, handler.
  destruct (truthy (field reqBody "originalCourse")); simpl.
  - rewrite Hc. simpl. auto.
  - repeat split; auto. discriminate.
Qed.

Lemma focused_course_requires_wrong_answers_witness :
  nonempty_array (field (focused_request (arr [])) "wrongAnswers") = false
  /\ code (fst (focused_course with_key (focused_request (arr [])) (mocked []))) = 400%nat
  /\ snd (focused_course with_key (focused_request (arr [])) (mocked [])) = mocked []
  /\ (truthy (field (focused_request (arr [])) "originalCourse") = true ->
      body (fst (focused_course with_key (focused_request (arr [])) (mocked [])))
      = BError "wrongAnswers must be a non-empty array").
Proof.
  split; [reflexivity|].
  apply (focused_course_requires_wrong_answers with_key (focused_request (arr []))
           (mocked []) eq_refl).
Defined.

(** With a credential, an original course, a non-empty array of wrong
    answers and a prompt that can be built, the operation does proceed to
    the model call. *)
Lemma focused_course_calls_model (cfg : Config) (reqBody : value) (net : Net) :
  OPENAI_API_KEY cfg <> "" ->
  truthy (field reqBody "originalCourse") = true ->
  nonempty_array (field reqBody "wrongAnswers") = true ->
  focused_prompt_prints reqBody = true ->
  List.length (sent (snd (focused_course cfg reqBody net))) = S (List.length (sent net)).
Proof.
  intros Hk Ho Hw Hp. unfold focused_course, handler, mbind, lift.
  unfold nonempty_array in Hw. apply andb_prop in Hw as [Ha Hl].
  rewrite Ho, Ha. simpl. destruct (Nat.eqb _ 0); [discriminate|]. simpl.
  rewrite buildFocusedPrompt_cases, Hp.
  unfold focused_prompt_prints in Hp.
  destruct (sourceExcerpt (field reqBody "sourceText")) as [x|e];
    [|rewrite !andb_false_r in Hp; discriminate Hp].
  unfold openaiResponses, fetch. apply String.eqb_neq in Hk. rewrite Hk.
  destruct (remote net _ _) as [|r]; simpl.
  - rewrite length_app. simpl. lia.
  - destruct (negb (ok r)); simpl.
    + destruct (printable (error_message r)); simpl; rewrite length_app; simpl; lia.
    + destruct (extractText _); simpl; rewrite length_app; simpl; lia.
Qed.

End Handlers.

(** ** The two-pass flow *)

Section TwoPasses.
Import JS Backend.

Lemma map_result_ok (f : value -> result value) (l : list value) :
  Forall (fun x => exists y, f x = Ok y) l -> exists ys, map_result f l = Ok ys.
Proof.
  induction 1 as [|x l [y Hy] _ [ys Hys]]; simpl.
  - eauto.
  - rewrite Hy. simpl. rewrite Hys. simpl. eauto.
Qed.

Lemma map_or_empty_ok (v : value) (f : value -> result value) :
  absent_or_array v = true ->
  Forall (fun x => exists y, f x = Ok y) (elems_of v) ->
  exists o, map_or_empty v f = Ok o.
Proof.
  unfold absent_or_array, map_or_empty, or_else. intros Hv HF.
  destruct (truthy v) eqn:Ht.
  - destruct v; try discriminate. simpl in HF.
    destruct (@map_result_ok f _ HF) as [ys Hys]. rewrite Hys. simpl. eauto.
  - simpl. eauto.
Qed.

Lemma outlineLesson_ok (l : value) :
  lesson_shaped l = true -> exists o, outlineLesson l = Ok o.
Proof.
  unfold lesson_shaped, outlineLesson, get. intros H.
  apply negb_true_iff in H. rewrite H. simpl. eauto.
Qed.

Lemma outlineUnit_ok (u : value) :
  unit_shaped u = true -> exists o, outlineUnit u = Ok o.
Proof.
  unfold unit_shaped, outlineUnit, get. intros H.
  apply andb_prop in H as [H Hl]. apply andb_prop in H as [Hn Ha].
  apply negb_true_iff in Hn. rewrite Hn. simpl.
  destruct (@map_or_empty_ok _ outlineLesson Ha) as [o Ho].
  - rewrite forallb_forall in Hl. apply Forall_forall.
    intros x Hx. apply outlineLesson_ok. now apply Hl.
  - rewrite Ho. simpl. eauto.
Qed.

(** The outline of a course-shaped object can be built. *)
Lemma outlineForQuiz_ok (course : value) :
  course_shaped course = true -> exists o, outlineForQuiz course = Ok o.
Proof.
  unfold course_shaped, outlineForQuiz, get. intros H.
  apply andb_prop in H as [H Hl]. apply andb_prop in H as [Hn Ha].
  apply negb_true_iff in Hn. rewrite Hn. simpl.
  destruct (@map_or_empty_ok _ outlineUnit Ha) as [o Ho].
  - rewrite forallb_forall in Hl. apply Forall_forall.
    intros x Hx. apply outlineUnit_ok. now apply Hl.
  - rewrite Ho. simpl. eauto.
Qed.

(** C6: when pass 1 returns a course object and pass 2 an object with a
    [finalTest], the flow answers 200 with the serialization of the course
    object on which [finalTest] has been set to the [finalTest] of pass 2:
    the units are those of pass 1, the questions those of pass 2, whatever
    their number and whatever the settings ask for (in the sample run one
    question is merged for a request of 20).  Both passes run: the two
    numbers of the settings that the prompts print convert to strings. *)
Theorem generate_course_merges :
  forall (cfg : Config) (reqBody : value) (net : Net) (syllabus : string)
         (d1 d2 : value) (t1 t2 : string) (course quiz : props) (ft : value),
    OPENAI_API_KEY cfg <> "" ->
    field reqBody "syllabusText" = VStr syllabus -> syllabus <> "" ->
    course_prompt_prints reqBody = true -> quiz_prompt_prints reqBody = true ->
    (forall rq, remote net (List.length (sent net)) rq
                = Resolved {| status := 200; json := Some d1 |}) ->
    (forall rq, remote net (S (List.length (sent net))) rq
                = Resolved {| status := 200; json := Some d2 |}) ->
    extractText d1 = Ok t1 -> safeParseJson t1 = Ok (VObj course) ->
    course_shaped (VObj course) = true ->
    extractText d2 = Ok t2 -> safeParseJson t2 = Ok (VObj quiz) ->
    get_opt (VObj quiz) "finalTest" = ft ->
    exists merged net',
      generate_course cfg reqBody net = ({| code := 200; body := BJsonTextOf merged |}, net')
      /\ merged = VObj (assign "finalTest" ft course)
      /\ get_opt merged "units" = get_opt (VObj course) "units"
      /\ get_opt merged "finalTest" = ft
      /\ Frontend.questions_of merged = elems_of (get_opt ft "questions")
      /\ List.length (sent net') = (List.length (sent net) + 2)%nat.
Proof.
  intros cfg reqBody net syllabus d1 d2 t1 t2 course quiz ft
         Hk Hs Hne Hc Hq H1 H2 Ht1 Hp1 Hshape Ht2 Hp2 Hft.
  destruct (@outlineForQuiz_ok _ Hshape) as [outline Hout].
  assert (Htr : truthy (VStr syllabus) = true).
  { simpl. apply negb_true_iff. now apply String.eqb_neq. }
  unfold generate_course, handler, mbind, lift, ret.
  rewrite Hs, Htr. cbn [negb orb isString].
  rewrite buildCourseOnlyPrompt_cases, Hc.
  rewrite openaiResponses_resolved with (d := d1); [|exact Hk|exact H1].
  rewrite Ht1, Hp1, Hout.
  rewrite buildQuizOnlyPrompt_cases, Hq.
  rewrite openaiResponses_resolved with (d := d2); [|exact Hk|].
  2:{ intros rq. cbn [remote sent]. rewrite length_app. cbn [List.length].
      rewrite Nat.add_1_r. apply H2. }
  rewrite Ht2, Hp2. cbn [get nullish put]. rewrite Hft.
  eexists; eexists. split; [reflexivity|].
  split; [reflexivity|].
  cbn [get_opt]. rewrite lookup_assign_other by discriminate.
  rewrite lookup_assign_same. repeat split.
  - unfold Frontend.questions_of. cbn [get_opt]. now rewrite lookup_assign_same.
  - cbn [sent]. rewrite !length_app. simpl. lia.
Qed.

Lemma generate_course_merges_witness :
  exists merged net',
    generate_course with_key syllabus_request (mocked [envelope pass1_text; envelope pass2_text])
    = ({| code := 200; body := BJsonTextOf merged |}, net')
    /\ merged = VObj (assign "finalTest" (VObj [("questions", arr pass2_questions)]) pass1_course)
    /\ get_opt merged "units" = get_opt (VObj pass1_course) "units"
    /\ get_opt merged "finalTest" = VObj [("questions", arr pass2_questions)]
    /\ Frontend.questions_of merged
       = elems_of (get_opt (VObj [("questions", arr pass2_questions)]) "questions")
    /\ List.length (sent net') = 2%nat.
Proof.
  apply (@generate_course_merges with_key syllabus_request
           (mocked [envelope pass1_text; envelope pass2_text]) "Week 1: sets"
           (envelope pass1_text) (envelope pass2_text) pass1_text pass2_text
           pass1_course pass2_quiz (VObj [("questions", arr pass2_questions)]));
    try reflexivity; try discriminate.
Defined.

(** The outline of a value without units is empty, when the value is not
    [null]. *)
Lemma outlineForQuiz_without_units (course : value) :
  nullish course = false -> truthy (get_opt course "units") = false ->
  outlineForQuiz course
  = Ok (VObj [("courseTitle", get_opt course "courseTitle"); ("units", arr [])]).
Proof.
  intros Hn Hu. unfold outlineForQuiz, get. rewrite Hn. cbn [bind].
  unfold map_or_empty, or_else. now rewrite Hu.
Qed.

Lemma primitive_has_no_units (v : value) :
  is_object v = false -> truthy (get_opt v "units") = false.
Proof. now destruct v. Qed.

Lemma put_on_primitive (v : value) (k : string) (x : value) :
  is_object v = false -> put v k x = Throw TypeError.
Proof. now destruct v. Qed.

Lemma put_on_object (v : value) (k : string) (x : value) :
  is_object v = true -> exists merged, put v k x = Ok merged.
Proof. destruct v; try discriminate; simpl; eauto. Qed.

(** C7 (amended): once pass 1 has answered, the flow fails when its text
    yields no object at all.  A text that the lenient extractor cannot parse
    gives 500 with the extractor's error and [null] gives 500 with a
    TypeError, both without a second call to the model; a number, a string
    or a boolean gives 500 as well, at the merge at the latest.  An object
    that bears no units is not rejected: its outline is empty, pass 2 runs,
    and the flow answers 200 with the merged object when pass 2 returns an
    object. *)
Theorem generate_course_fails_without_object :
  forall (cfg : Config) (reqBody : value) (net : Net) (syllabus : string)
         (d1 : value) (t1 : string),
    OPENAI_API_KEY cfg <> "" ->
    field reqBody "syllabusText" = VStr syllabus -> syllabus <> "" ->
    course_prompt_prints reqBody = true ->
    (forall rq, remote net (List.length (sent net)) rq
                = Resolved {| status := 200; json := Some d1 |}) ->
    extractText d1 = Ok t1 ->
    (forall e, safeParseJson t1 = Throw e ->
       fst (generate_course cfg reqBody net)
       = {| code := 500; body := BCaught e "Course generation failed" |}
       /\ List.length (sent (snd (generate_course cfg reqBody net)))
          = S (List.length (sent net)))
    /\ (safeParseJson t1 = Ok VNull ->
        fst (generate_course cfg reqBody net)
        = {| code := 500; body := BCaught TypeError "Course generation failed" |}
        /\ List.length (sent (snd (generate_course cfg reqBody net)))
           = S (List.length (sent net)))
    /\ (forall v, safeParseJson t1 = Ok v -> is_object v = false ->
        exists e,
          fst (generate_course cfg reqBody net)
          = {| code := 500; body := BCaught e "Course generation failed" |})
    /\ (forall (course d2 : value) (t2 : string) (quiz : value),
          safeParseJson t1 = Ok course -> is_object course = true ->
          truthy (get_opt course "units") = false ->
          quiz_prompt_prints reqBody = true ->
          (forall rq, remote net (S (List.length (sent net))) rq
                      = Resolved {| status := 200; json := Some d2 |}) ->
          extractText d2 = Ok t2 -> safeParseJson t2 = Ok quiz -> nullish quiz = false ->
          exists merged,
            outlineForQuiz course
            = Ok (VObj [("courseTitle", get_opt course "courseTitle"); ("units", arr [])])
            /\ put course "finalTest" (get_opt quiz "finalTest") = Ok merged
            /\ fst (generate_course cfg reqBody net)
               = {| code := 200; body := BJsonTextOf merged |}
            /\ List.length (sent (snd (generate_course cfg reqBody net)))
               = (List.length (sent net) + 2)%nat).
Proof.
  intros cfg reqBody net syllabus d1 t1 Hk Hs Hne Hc H1 Ht1.
  assert (Htr : truthy (VStr syllabus) = true).
  { simpl. apply negb_true_iff. now apply String.eqb_neq. }
  assert (Hpass1 :
      generate_course cfg reqBody net
      = handler
          (fun net =>
             match safeParseJson t1 with
             | Ok courseObj =>
                 (outline <- lift (outlineForQuiz courseObj) ;;
                  quizPrompt <- lift (buildQuizOnlyPrompt outline (field reqBody "settings")) ;;
                  d2 <- openaiResponses cfg
                          (or_else (field reqBody "model") (VStr (OPENAI_MODEL cfg)))
                          quizPrompt 5000 true ;;
                  t2 <- lift (extractText d2) ;;
                  quizObj <- lift (safeParseJson t2) ;;
                  finalTest <- lift (get quizObj "finalTest") ;;
                  merged <- lift (put courseObj "finalTest" finalTest) ;;
                  ret {| code := 200; body := BJsonTextOf merged |})
                   {| remote := remote net;
                      sent := (sent net
                               ++ [request_for cfg
                                     (or_else (field reqBody "model") (VStr (OPENAI_MODEL cfg)))
                                     (CourseOnlyPrompt (slice_units 24000 syllabus)
                                        (field reqBody "settings")) 12000 true])%list |}
             | Throw e =>
                 (Throw e,
                  {| remote := remote net;
                     sent := (sent net
                              ++ [request_for cfg
                                    (or_else (field reqBody "model") (VStr (OPENAI_MODEL cfg)))
                                    (CourseOnlyPrompt (slice_units 24000 syllabus)
                                       (field reqBody "settings")) 12000 true])%list |})
             end)
          "Course generation failed" net).
  { unfold generate_course, handler, mbind, lift, ret.
    rewrite Hs, Htr. cbn [negb orb isString str_of].
    rewrite buildCourseOnlyPrompt_cases, Hc.
    rewrite openaiResponses_resolved with (d := d1); [|exact Hk|exact H1].
    rewrite Ht1. unfold request_for. now destruct (safeParseJson t1). }
  rewrite Hpass1. clear Hpass1. unfold handler.
  split; [|split; [|split]].
  - intros e He. rewrite He. cbn [fst snd sent]. split; [reflexivity|].
    rewrite length_app. cbn [List.length]. lia.
  - intros He. rewrite He. unfold mbind, lift. cbn [outlineForQuiz get nullish bind fst snd sent].
    split; [reflexivity|]. rewrite length_app. cbn [List.length]. lia.
  - intros v He Hv. rewrite He. unfold mbind, lift, ret.
    destruct (outlineForQuiz v) as [outline|e0]; [|eexists; reflexivity].
    destruct (buildQuizOnlyPrompt outline (field reqBody "settings")) as [qp|e0];
      [|eexists; reflexivity].
    destruct (openaiResponses _ _ _ _ _ _) as [[d2|e2] net2]; [|eexists; reflexivity].
    destruct (extractText d2) as [t2|e0]; [|eexists; reflexivity].
    destruct (safeParseJson t2) as [quiz|e0]; [|eexists; reflexivity].
    destruct (get quiz "finalTest") as [ft|e0]; [|eexists; reflexivity].
    rewrite (@put_on_primitive v "finalTest" ft Hv). eexists; reflexivity.
  - intros course d2 t2 quiz He Hobj Hu Hq H2 Ht2 Hp2 Hn. rewrite He.
    assert (Hnn : nullish course = false) by (destruct course; try discriminate; reflexivity).
    destruct (@put_on_object course "finalTest" (get_opt quiz "finalTest") Hobj)
      as [merged Hm].
    exists merged. split; [exact (@outlineForQuiz_without_units course Hnn Hu)|].
    split; [exact Hm|].
    unfold mbind, lift, ret.
    rewrite (@outlineForQuiz_without_units course Hnn Hu).
    rewrite buildQuizOnlyPrompt_cases, Hq.
    rewrite openaiResponses_resolved with (d := d2); [|exact Hk|].
    2:{ intros rq. cbn [remote sent]. rewrite length_app. cbn [List.length].
        rewrite Nat.add_1_r. apply H2. }
    rewrite Ht2, Hp2. unfold get. rewrite Hn, Hm. cbn [fst snd sent].
    split; [reflexivity|]. rewrite !length_app. cbn [List.length]. lia.
Qed.

Lemma generate_course_fails_without_object_witness :
  (fst (generate_course with_key syllabus_request (mocked [envelope "not json at all"]))
   = {| code := 500; body := BCaught malformed_output_error "Course generation failed" |}
   /\ List.length (sent (snd (generate_course with_key syllabus_request
                                (mocked [envelope "not json at all"])))) = 1%nat)
  /\ (fst (generate_course with_key syllabus_request (mocked [envelope "null"]))
      = {| code := 500; body := BCaught TypeError "Course generation failed" |}
      /\ List.length (sent (snd (generate_course with_key syllabus_request
                                   (mocked [envelope "null"])))) = 1%nat)
  /\ (exists e,
        fst (generate_course with_key syllabus_request
               (mocked [envelope "5"; envelope pass2_text]))
        = {| code := 500; body := BCaught e "Course generation failed" |})
  /\ (exists merged,
        outlineForQuiz (VObj [])
        = Ok (VObj [("courseTitle", get_opt (VObj []) "courseTitle"); ("units", arr [])])
        /\ put (VObj []) "finalTest" (get_opt (VObj pass2_quiz) "finalTest") = Ok merged
        /\ fst (generate_course with_key syllabus_request
                  (mocked [envelope "{}"; envelope pass2_text]))
           = {| code := 200; body := BJsonTextOf merged |}
        /\ List.length (sent (snd (generate_course with_key syllabus_request
                                     (mocked [envelope "{}"; envelope pass2_text]))))
           = 2%nat).
Proof.
  split; [|split; [|split]].
  - destruct (@generate_course_fails_without_object with_key syllabus_request
                (mocked [envelope "not json at all"]) "Week 1: sets"
                (envelope "not json at all") "not json at all")
      as [Hfail _]; try reflexivity; try discriminate.
    exact (Hfail malformed_output_error eq_refl).
  - destruct (@generate_course_fails_without_object with_key syllabus_request
                (mocked [envelope "null"]) "Week 1: sets" (envelope "null") "null")
      as (_ & Hnull & _); try reflexivity; try discriminate.
    exact (Hnull eq_refl).
  - destruct (@generate_course_fails_without_object with_key syllabus_request
                (mocked [envelope "5"; envelope pass2_text]) "Week 1: sets"
                (envelope "5") "5")
      as (_ & _ & Hprim & _); try reflexivity; try discriminate.
    exact (Hprim (num 5) eq_refl eq_refl).
  - destruct (@generate_course_fails_without_object with_key syllabus_request
                (mocked [envelope "{}"; envelope pass2_text]) "Week 1: sets"
                (envelope "{}") "{}")
      as (_ & _ & _ & Hobj); try reflexivity; try discriminate.
    apply (Hobj (VObj []) (envelope pass2_text) pass2_text (VObj pass2_quiz));
      reflexivity.
Defined.

(** Pass 1 returns the object [{}], which bears no units: the flow goes on
    to pass 2 and answers 200. *)
Lemma course_without_units_is_accepted :
  extractText (envelope "{}") = Ok "{}"
  /\ safeParseJson "{}" = Ok (VObj [])
  /\ get_opt (VObj []) "units" = VUndef
  /\ fst (generate_course with_key syllabus_request
            (mocked [envelope "{}"; envelope pass2_text]))
     = {| code := 200; body := BJsonTextOf (VObj pass2_quiz) |}.
Proof. repeat split; reflexivity. Qed.

End TwoPasses.

(** ** The text of a response *)

Section ResponseText.
Import JS Backend.

Lemma append_empty_r (s : string) : s ++ "" = s.
Proof. induction s; simpl; congruence. Qed.

Lemma append_assoc (a b c : string) : (a ++ b) ++ c = a ++ b ++ c.
Proof. induction a; simpl; congruence. Qed.

Lemma concat_empty_app (l1 l2 : list string) :
  String.concat "" (l1 ++ l2) = String.concat "" l1 ++ String.concat "" l2.
Proof.
  induction l1 as [|x l1 IH]; [reflexivity|].
  change ((x :: l1) ++ l2)%list with (x :: (l1 ++ l2))%list.
  assert (E : forall l, String.concat "" (x :: l) = x ++ String.concat "" l).
  { intros [|y l]; simpl; [now rewrite append_empty_r | reflexivity]. }
  now rewrite !E, IH, append_assoc.
Qed.

Lemma extractText_output_of (es : list value) :
  extractText (output_of es) = Ok (String.concat "" (flat_map item_texts es)).
Proof. reflexivity. Qed.

(** [extractText] throws, and then a TypeError, exactly when there is no
    usable [output_text] and [output] is a truthy value that cannot be
    iterated (a number, [true], a plain object). *)
Theorem extractText_throws_exactly :
  forall (data : value) (e : exn),
    extractText data = Throw e <->
    e = TypeError
    /\ has_output_text data = false
    /\ truthy (get_opt data "output") = true
    /\ iterable (get_opt data "output") = false.
Proof.
  intros data e. unfold extractText. fold (has_output_text data).
  destruct (has_output_text data).
  - split; [discriminate | intros (_ & H & _); discriminate H].
  - unfold or_else.
    destruct (truthy (get_opt data "output")) eqn:Ht.
    + destruct (get_opt data "output"); simpl; split; intros H;
        solve [ discriminate H
              | injection H as <-; auto
              | destruct H as (-> & _ & _ & _); reflexivity
              | destruct H as (_ & _ & _ & H); discriminate H ].
    + simpl. split; [discriminate | intros (_ & _ & H & _); discriminate H].
Qed.

Lemma concat_empty (l : list string) : String.concat "" l = fold_right append "" l.
Proof.
  induction l as [|x l IH]; [reflexivity|].
  change (x :: l) with ([x] ++ l)%list. rewrite concat_empty_app, IH. reflexivity.
Qed.

Lemma item_texts_encode (e : entry) : item_texts (encode e) = texts_of e.
Proof.
  destruct e as [t|ts]; [reflexivity|].
  unfold item_texts. cbn [encode get_opt lookup String.eqb Ascii.eqb Bool.eqb is_str
                          isArray arr elems_of andb texts_of].
  induction ts as [|t ts IH]; [reflexivity|].
  cbn [map flat_map]. rewrite IH. reflexivity.
Qed.

(** The text of a response is the concatenation, in document order and with
    no separator, of its text blocks: those of each message in their order,
    and the text blocks that stand on their own. *)
Theorem extractText_concatenates :
  forall es : list entry,
    extractText (output_of (map encode es))
    = Ok (fold_right append "" (flat_map texts_of es)).
Proof.
  intros es. rewrite extractText_output_of, concat_empty. do 2 f_equal.
  induction es as [|e es IH]; [reflexivity|].
  cbn [map flat_map]. now rewrite item_texts_encode, IH.
Qed.

(** Entries of [output] whose type is neither "message" nor "output_text"
    (reasoning steps, tool calls) leave the extracted text unchanged. *)
Theorem extractText_ignores_other_entries :
  forall es : list value,
    extractText (output_of es) = extractText (output_of (filter contributes es)).
Proof.
  intros es. rewrite !extractText_output_of. f_equal. f_equal.
  induction es as [|x es IH]; [reflexivity|]. simpl.
  destruct (contributes x) eqn:E; simpl; [now rewrite IH|].
  rewrite <- IH. unfold contributes in E. apply orb_false_elim in E as [E1 E2].
  unfold item_texts. now rewrite E1, E2.
Qed.

End ResponseText.

(** ** The requests sent by the Model Client and the handlers *)

Section Requests.
Import JS Backend.

Lemma sends_ret {A} (P : Request -> Prop) (a : A) : sends P 0 0 (ret a).
Proof.
  intros net. exists []. simpl. rewrite List.app_nil_r. repeat split; auto; lia.
Qed.

Lemma sends_lift {A} (P : Request -> Prop) (r : result A) : sends P 0 0 (lift r).
Proof.
  intros net. exists []. simpl. rewrite List.app_nil_r. repeat split; auto; lia.
Qed.

Lemma sends_weaken {A} (P Q : Request -> Prop) (lo lo' hi hi' : nat) (m : M A) :
  sends P lo hi m -> (forall rq, P rq -> Q rq) -> (lo' <= lo)%nat -> (hi <= hi')%nat ->
  sends Q lo' hi' m.
Proof.
  intros H HPQ Hlo Hhi net. destruct (H net) as (new & Hs & Hr & HF & Hh & Hl).
  exists new. repeat split; auto.
  - eapply Forall_impl; eauto.
  - lia.
  - intros a Ha. specialize (Hl a Ha). lia.
Qed.

Lemma sends_bind {A B} (P : Request -> Prop) (lo1 hi1 lo2 hi2 : nat)
    (m : M A) (k : A -> M B) :
  sends P lo1 hi1 m -> (forall a, sends P lo2 hi2 (k a)) ->
  sends P (lo1 + lo2) (hi1 + hi2) (mbind m k).
Proof.
  intros Hm Hk net. unfold mbind.
  destruct (Hm net) as (new1 & Hs1 & Hr1 & HF1 & Hh1 & Hl1).
  destruct (m net) as [[a|e] net1]; simpl in *.
  - destruct (Hk a net1) as (new2 & Hs2 & Hr2 & HF2 & Hh2 & Hl2).
    exists (new1 ++ new2)%list. rewrite Hs2, Hs1, Hr2, Hr1, <- app_assoc, length_app.
    repeat split; auto.
    + now apply Forall_app.
    + lia.
    + intros b Hb. specialize (Hl1 a eq_refl). specialize (Hl2 b Hb). lia.
  - exists new1. repeat split; auto; [lia | discriminate].
Qed.

Lemma sends_openaiResponses (cfg : Config) (mdl : value) (inp : Input)
    (max_tokens : nat) (json_obj : bool) :
  sends (fun rq => rq = request_for cfg mdl inp max_tokens json_obj) 1 1
    (openaiResponses cfg mdl inp max_tokens json_obj).
Proof.
  intros net. unfold openaiResponses, fetch. fold (request_for cfg mdl inp max_tokens json_obj).
  destruct (OPENAI_API_KEY cfg =? "").
  - exists []. simpl. rewrite List.app_nil_r. repeat split; auto. discriminate.
  - exists [request_for cfg mdl inp max_tokens json_obj].
    destruct (remote net _ _) as [|r];
      [|destruct (negb (ok r)); [destruct (printable (error_message r))|]];
      simpl; repeat split; auto; discriminate.
Qed.

Lemma openaiResponses_sent (cfg : Config) (mdl : value) (inp : Input)
    (max_tokens : nat) (json_obj : bool) (net : Net) :
  OPENAI_API_KEY cfg <> "" ->
  sent (snd (openaiResponses cfg mdl inp max_tokens json_obj net))
  = (sent net ++ [request_for cfg mdl inp max_tokens json_obj])%list.
Proof.
  intros Hk. unfold openaiResponses, fetch. apply String.eqb_neq in Hk. rewrite Hk.
  fold (request_for cfg mdl inp max_tokens json_obj).
  destruct (remote net _ _) as [|r];
    [|destruct (negb (ok r)); [destruct (printable (error_message r))|]]; reflexivity.
Qed.

(** With a credential, one invocation of the Model Client posts exactly one
    request, whatever the remote end answers (there is no retry); the request
    carries the credential and the arguments of the invocation. *)
Theorem openaiResponses_posts_one_request :
  forall (cfg : Config) (mdl : value) (inp : Input) (max_tokens : nat) (json_obj : bool)
         (net : Net),
    OPENAI_API_KEY cfg <> "" ->
    sent (snd (openaiResponses cfg mdl inp max_tokens json_obj net))
    = (sent net ++ [request_for cfg mdl inp max_tokens json_obj])%list
    /\ bearer (request_for cfg mdl inp max_tokens json_obj) = OPENAI_API_KEY cfg.
Proof.
  intros cfg mdl inp max_tokens json_obj net Hk. split; [|reflexivity].
  now apply openaiResponses_sent.
Qed.

Lemma openaiResponses_posts_one_request_witness :
  sent (snd (openaiResponses with_key (VStr "gpt-4.1") (OcrInput VNull VNull) 4000 false
               (mocked [])))
  = [request_for with_key (VStr "gpt-4.1") (OcrInput VNull VNull) 4000 false]
  /\ bearer (request_for with_key (VStr "gpt-4.1") (OcrInput VNull VNull) 4000 false)
     = "sk-test".
Proof.
  apply (@openaiResponses_posts_one_request with_key (VStr "gpt-4.1")
           (OcrInput VNull VNull) 4000 false (mocked [])).
  discriminate.
Defined.

(** The Model Client returns a value only when the remote end answered with
    a 2xx status; the value is then the JSON body of the answer, or the empty
    object when the body is not JSON. *)
Theorem openaiResponses_returns_only_on_success :
  forall (cfg : Config) (mdl : value) (inp : Input) (max_tokens : nat) (json_obj : bool)
         (net : Net) (d : value),
    fst (openaiResponses cfg mdl inp max_tokens json_obj net) = Ok d ->
    exists r,
      remote net (List.length (sent net)) (request_for cfg mdl inp max_tokens json_obj)
      = Resolved r
      /\ (200 <= status r <= 299)%nat
      /\ d = match json r with Some v => v | None => VObj [] end.
Proof.
  intros cfg mdl inp max_tokens json_obj net d. unfold openaiResponses, fetch.
  fold (request_for cfg mdl inp max_tokens json_obj).
  destruct (OPENAI_API_KEY cfg =? ""); [discriminate|].
  destruct (remote net _ _) as [|r]; [discriminate|].
  destruct (ok r) eqn:Hok; simpl;
    [|destruct (printable (error_message r)); discriminate].
  intros [= <-]. exists r. unfold ok in Hok. apply andb_prop in Hok as [H1 H2].
  apply Nat.leb_le in H1, H2. auto.
Qed.

Lemma openaiResponses_returns_only_on_success_witness :
  exists r,
    remote (mocked [envelope "hi"]) 0
      (request_for with_key (VStr "gpt-4.1") (OcrInput VNull VNull) 4000 false)
    = Resolved r
    /\ (200 <= status r <= 299)%nat
    /\ envelope "hi" = match json r with Some v => v | None => VObj [] end.
Proof.
  apply (@openaiResponses_returns_only_on_success with_key (VStr "gpt-4.1")
           (OcrInput VNull VNull) 4000 false (mocked [envelope "hi"]) (envelope "hi")).
  reflexivity.
Defined.

End Requests.

(** ** How many requests a handler sends, and what it answers *)

Section Budgets.
Import JS Backend.

Lemma returns_200_ret (r : Reply) : code r = 200%nat -> returns_200 (ret r).
Proof. intros H net r' [= <-]. exact H. Qed.

Lemma returns_200_bind {A} (m : M A) (k : A -> M Reply) :
  (forall a, returns_200 (k a)) -> returns_200 (mbind m k).
Proof.
  intros Hk net r. unfold mbind.
  destruct (m net) as [[a|e] net1]; [apply Hk | discriminate].
Qed.

(** What [try ... catch] makes of a computation that sends between [lo] and
    [hi] requests and returns 200. *)
Lemma handler_budget (P : Request -> Prop) (lo hi : nat) (m : M Reply)
    (fallback : string) (net : Net) :
  sends P lo hi m -> returns_200 m ->
  exists new,
    sent (snd (handler m fallback net)) = (sent net ++ new)%list
    /\ Forall P new
    /\ (List.length new <= hi)%nat
    /\ (code (fst (handler m fallback net)) = 200%nat \/
        code (fst (handler m fallback net)) = 500%nat)
    /\ (code (fst (handler m fallback net)) = 200%nat -> (lo <= List.length new)%nat).
Proof.
  intros Hs Hr. destruct (Hs net) as (new & Hsent & _ & HF & Hhi & Hlo).
  specialize (Hr net). unfold handler.
  destruct (m net) as [[r|e] net1]; simpl in *; exists new; repeat split; auto.
  - intros _. now apply (Hlo r).
  - discriminate.
Qed.

End Budgets.

Ltac build_sends :=
  repeat first
    [ apply sends_ret
    | apply sends_lift
    | eapply sends_weaken;
      [ apply sends_openaiResponses
      | intros ? ->; unfold Backend.request_for;
        repeat split; try reflexivity;
        first [ left; reflexivity | right; reflexivity ]
      | apply Nat.le_refl
      | apply Nat.le_refl ]
    | eapply sends_bind; [ | intros ] ].

Ltac build_returns_200 :=
  repeat first
    [ apply returns_200_ret; reflexivity
    | apply returns_200_bind; intros ].

Section CallBudgets.
Import JS Backend.

(** The generate-course operation sends at most two requests, the course
    prompt with a ceiling of 12000 tokens and then the quiz prompt with a
    ceiling of 5000, both in JSON mode and with the credential; it answers
    200 only after both, 400 only without any, and otherwise 500. *)
Theorem generate_course_sends_two_requests :
  forall (cfg : Config) (reqBody : value) (net : Net),
    exists new,
      sent (snd (generate_course cfg reqBody net)) = (sent net ++ new)%list
      /\ Forall (fun rq => bearer rq = OPENAI_API_KEY cfg /\ json_object rq = true
                           /\ (max_output_tokens rq = 12000%nat
                               \/ max_output_tokens rq = 5000%nat)) new
      /\ (List.length new <= 2)%nat
      /\ (code (fst (generate_course cfg reqBody net)) = 200%nat -> List.length new = 2%nat)
      /\ (code (fst (generate_course cfg reqBody net)) = 400%nat -> new = [])
      /\ (code (fst (generate_course cfg reqBody net)) = 200%nat
          \/ code (fst (generate_course cfg reqBody net)) = 400%nat
          \/ code (fst (generate_course cfg reqBody net)) = 500%nat).
Proof.
  intros cfg reqBody net. unfold generate_course.
  destruct (negb (truthy (field reqBody "syllabusText")) || _).
  - exists []. simpl. rewrite List.app_nil_r. repeat split; auto; try lia; discriminate.
  - cbv zeta.
    match goal with |- context [handler ?m ?f net] =>
      destruct (@handler_budget
                  (fun rq => bearer rq = OPENAI_API_KEY cfg /\ json_object rq = true
                             /\ (max_output_tokens rq = 12000%nat
                                 \/ max_output_tokens rq = 5000%nat))
                  2 2 m f net) as (new & Hs & HF & Hhi & Hc & Hlo)
    end.
    + match goal with |- sends ?P _ _ _ =>
        eapply (@sends_weaken _ P P); [build_sends | auto | cbn; lia | cbn; lia]
      end.
    + build_returns_200.
    + exists new. repeat split; auto.
      * intros H. specialize (Hlo H). lia.
      * intros H. destruct Hc as [Hc|Hc]; rewrite Hc in H; discriminate.
      * tauto.
Qed.

(** The OCR, analyze-test and focused-course operations send at most one
    request (ceilings 4000, 900 and 15000 tokens; JSON mode only for the
    focused course); each answers 200 only after its request and 400 only
    without any. *)
Theorem single_pass_handlers_send_one_request :
  forall (cfg : Config) (reqBody : value) (net : Net),
    (exists new,
        sent (snd (ocr_image cfg reqBody net)) = (sent net ++ new)%list
        /\ Forall (fun rq => max_output_tokens rq = 4000%nat /\ json_object rq = false) new
        /\ (List.length new <= 1)%nat
        /\ (code (fst (ocr_image cfg reqBody net)) = 200%nat -> List.length new = 1%nat)
        /\ (code (fst (ocr_image cfg reqBody net)) = 400%nat -> new = []))
    /\ (exists new,
        sent (snd (analyze_test cfg reqBody net)) = (sent net ++ new)%list
        /\ Forall (fun rq => max_output_tokens rq = 900%nat /\ json_object rq = false) new
        /\ (List.length new <= 1)%nat
        /\ (code (fst (analyze_test cfg reqBody net)) = 200%nat -> List.length new = 1%nat)
        /\ (code (fst (analyze_test cfg reqBody net)) = 400%nat -> new = []))
    /\ (exists new,
        sent (snd (focused_course cfg reqBody net)) = (sent net ++ new)%list
        /\ Forall (fun rq => max_output_tokens rq = 15000%nat /\ json_object rq = true) new
        /\ (List.length new <= 1)%nat
        /\ (code (fst (focused_course cfg reqBody net)) = 200%nat -> List.length new = 1%nat)
        /\ (code (fst (focused_course cfg reqBody net)) = 400%nat -> new = [])).
Proof.
  intros cfg reqBody net.
  assert (Hsome : forall (P : Request -> Prop) (m : M Reply) (f : string),
            sends P 1 1 m -> returns_200 m ->
            exists new : list Request,
              sent (snd (handler m f net)) = (sent net ++ new)%list /\ Forall P new
              /\ (List.length new <= 1)%nat
              /\ (code (fst (handler m f net)) = 200%nat -> List.length new = 1%nat)
              /\ (code (fst (handler m f net)) = 400%nat -> new = [])).
  { intros P m f Hs Hr.
    destruct (@handler_budget P 1 1 m f net Hs Hr) as (new & H1 & HF & Hhi & Hc & Hlo).
    exists new. repeat split; auto.
    - intros H. specialize (Hlo H). lia.
    - intros H. destruct Hc as [Hc|Hc]; rewrite Hc in H; discriminate. }
  split; [|split].
  - unfold ocr_image. destruct (negb (truthy (field reqBody "imageDataUrl"))).
    + exists []. simpl. rewrite List.app_nil_r. repeat split; auto; discriminate.
    + apply Hsome; [|build_returns_200].
      match goal with |- sends ?P _ _ _ =>
        eapply (@sends_weaken _ P P); [build_sends | auto | cbn; lia | cbn; lia]
      end.
  - unfold analyze_test. destruct (negb (isArray (field reqBody "wrong"))).
    + exists []. simpl. rewrite List.app_nil_r. repeat split; auto; discriminate.
    + apply Hsome; [|build_returns_200].
      match goal with |- sends ?P _ _ _ =>
        eapply (@sends_weaken _ P P); [build_sends | auto | cbn; lia | cbn; lia]
      end.
  - unfold focused_course. destruct (negb (truthy (field reqBody "originalCourse"))).
    + exists []. simpl. rewrite List.app_nil_r. repeat split; auto; discriminate.
    + destruct (negb (isArray (field reqBody "wrongAnswers")) || _).
      * exists []. simpl. rewrite List.app_nil_r. repeat split; auto; discriminate.
      * apply Hsome; [|build_returns_200].
        match goal with |- sends ?P _ _ _ =>
        eapply (@sends_weaken _ P P); [build_sends | auto | cbn; lia | cbn; lia]
      end.
Qed.

End CallBudgets.

(** ** Validation, truncation and failures of the handlers *)

Section HandlerEdges.
Import JS Backend.

Lemma handler_code (m : M Reply) (fallback : string) (net : Net) :
  returns_200 m ->
  code (fst (handler m fallback net)) = 200%nat
  \/ code (fst (handler m fallback net)) = 500%nat.
Proof.
  intros Hr. specialize (Hr net). unfold handler.
  destruct (m net) as [[r|e] net1]; simpl in *; auto.
Qed.

Lemma nonempty_string_spec (v : value) :
  nonempty_string v = truthy v && isString v.
Proof. destruct v as [| | |[]| | |]; simpl; auto using andb_false_r; now rewrite andb_true_r. Qed.

Ltac not_400 :=
  match goal with
  | |- context [handler ?m ?f ?net] =>
      let H := fresh in
      assert (H : returns_200 m) by
        (repeat first [ apply returns_200_ret; reflexivity
                      | apply returns_200_bind; intros ]);
      destruct (@handler_code m f net H) as [-> | ->];
      let HH := fresh in intros HH; discriminate HH
  end.

(** Each operation answers 400 exactly when its request is invalid: no
    image; a syllabus text that is not a non-empty string; a [wrong] that is
    not an array; no original course or a [wrongAnswers] that is not a
    non-empty array. *)
Theorem requests_rejected_exactly_when_invalid :
  forall (cfg : Config) (reqBody : value) (net : Net),
    (code (fst (ocr_image cfg reqBody net)) = 400%nat
     <-> truthy (field reqBody "imageDataUrl") = false)
    /\ (code (fst (generate_course cfg reqBody net)) = 400%nat
        <-> nonempty_string (field reqBody "syllabusText") = false)
    /\ (code (fst (analyze_test cfg reqBody net)) = 400%nat
        <-> isArray (field reqBody "wrong") = false)
    /\ (code (fst (focused_course cfg reqBody net)) = 400%nat
        <-> truthy (field reqBody "originalCourse") = false
            \/ nonempty_array (field reqBody "wrongAnswers") = false).
Proof.
  intros cfg reqBody net. repeat split.
  - unfold ocr_image. destruct (truthy (field reqBody "imageDataUrl")); simpl.
    + not_400.
    + auto.
  - unfold ocr_image. destruct (truthy (field reqBody "imageDataUrl")); simpl.
    + discriminate.
    + auto.
  - unfold generate_course. rewrite nonempty_string_spec.
    destruct (truthy (field reqBody "syllabusText"));
      destruct (isString (field reqBody "syllabusText")); simpl; auto.
    cbv zeta. not_400.
  - unfold generate_course. rewrite nonempty_string_spec.
    destruct (truthy (field reqBody "syllabusText"));
      destruct (isString (field reqBody "syllabusText")); simpl; auto; discriminate.
  - unfold analyze_test. destruct (isArray (field reqBody "wrong")); simpl.
    + not_400.
    + auto.
  - unfold analyze_test. destruct (isArray (field reqBody "wrong")); simpl.
    + discriminate.
    + auto.
  - unfold focused_course, nonempty_array.
    destruct (truthy (field reqBody "originalCourse")); simpl; auto.
    destruct (isArray (field reqBody "wrongAnswers")); simpl; auto.
    destruct (Nat.eqb _ 0); simpl; auto.
    not_400.
  - unfold focused_course, nonempty_array.
    destruct (truthy (field reqBody "originalCourse")); simpl; auto.
    destruct (isArray (field reqBody "wrongAnswers")); simpl; auto.
    destruct (Nat.eqb _ 0); simpl; auto.
    intros [H|H]; discriminate H.
Qed.

Lemma slice_from_all (s : string) (n k : nat) :
  (units_from k s <= n)%nat -> slice_from n k s = s.
Proof.
  revert n k. induction s as [|c r IH]; intros n k; [reflexivity|].
  cbn [units_from slice_from]. destruct k as [|k']; intros H.
  - destruct (Nat.leb_spec (lead_units c) n) as [Hl|Hl]; [|lia].
    f_equal. apply IH. lia.
  - f_equal. now apply IH.
Qed.

Lemma lead_units_bmp (c : ascii) : (nat_of_ascii c <? 240)%nat = true -> lead_units c = 1%nat.
Proof.
  intros H. unfold lead_units. apply Nat.ltb_lt in H.
  destruct (Nat.leb_spec 240 (nat_of_ascii c)); [lia | reflexivity].
Qed.

Lemma slice_from_prefix (s : string) (n k : nat) :
  astral_free s = true -> String.prefix (slice_from n k s) s = true.
Proof.
  revert n k. induction s as [|c r IH]; intros n k; [reflexivity|].
  cbn [astral_free slice_from]. intros H. apply andb_prop in H as [Hc Hr].
  destruct k as [|k'].
  - rewrite (lead_units_bmp _ Hc).
    destruct (Nat.leb_spec 1 n) as [Hn|Hn].
    + cbn [String.prefix]. destruct (ascii_dec c c); [now apply IH | congruence].
    + replace n with 0%nat by lia. reflexivity.
  - cbn [String.prefix]. destruct (ascii_dec c c); [now apply IH | congruence].
Qed.

Lemma slice_from_units (s : string) (n k : nat) :
  astral_free s = true ->
  units_from k (slice_from n k s) = Nat.min n (units_from k s).
Proof.
  revert n k. induction s as [|c r IH]; intros n k.
  - intros _. cbn [slice_from units_from]. now rewrite Nat.min_0_r.
  - cbn [astral_free slice_from]. intros H. apply andb_prop in H as [Hc Hr].
    destruct k as [|k'].
    + cbn [units_from]. rewrite (lead_units_bmp _ Hc).
      destruct (Nat.leb_spec 1 n) as [Hn|Hn].
      * cbn [units_from]. rewrite (lead_units_bmp _ Hc), IH by exact Hr. lia.
      * replace n with 0%nat by lia. reflexivity.
    + cbn [units_from]. now apply IH.
Qed.

Lemma copies_e_acute (n : nat) :
  astral_free (copies n e_acute) = true /\ utf16_length (copies n e_acute) = n.
Proof.
  unfold utf16_length. induction n as [|n [IH1 IH2]]; [split; reflexivity|].
  change (copies (S n) e_acute)
    with (String (ascii_of_nat 195) (String (ascii_of_nat 169) (copies n e_acute))).
  split.
  - cbn [astral_free]. now rewrite IH1.
  - cbn [units_from]. change (trail_bytes (ascii_of_nat 195)) with 1%nat.
    cbn [units_from]. now rewrite IH2.
Qed.

Lemma snd_handler (m : M Reply) (fallback : string) (net : Net) :
  snd (handler m fallback net) = snd (m net).
Proof. unfold handler. now destruct (m net) as [[r|e] net1]. Qed.

Lemma snd_mbind_pure {A B} (m : M A) (k : A -> M B) (net : Net) :
  (forall a net', snd (k a net') = net') -> snd (mbind m k net) = snd (m net).
Proof.
  intros H. unfold mbind. destruct (m net) as [[a|e] net1]; [apply H | reflexivity].
Qed.

Lemma mbind_lift_ok {A B} (a : A) (k : A -> M B) (net : Net) :
  mbind (lift (Ok a)) k net = k a net.
Proof. reflexivity. Qed.

Lemma first_request {A} (cfg : Config) (mdl : value) (inp : Input) (max_tokens : nat)
    (json_obj : bool) (k : value -> M A) (hi : nat) (net : Net) :
  OPENAI_API_KEY cfg <> "" ->
  (forall a, sends (fun _ => True) 0 hi (k a)) ->
  exists rest,
    sent (snd (mbind (openaiResponses cfg mdl inp max_tokens json_obj) k net))
    = (sent net ++ request_for cfg mdl inp max_tokens json_obj :: rest)%list.
Proof.
  intros Hk Hs.
  pose proof (@openaiResponses_sent cfg mdl inp max_tokens json_obj net Hk) as H1.
  unfold mbind.
  destruct (openaiResponses cfg mdl inp max_tokens json_obj net) as [[a|e] net1];
    simpl in *.
  - destruct (Hs a net1) as (new & Hn & _). exists new.
    rewrite Hn, H1, <- app_assoc. reflexivity.
  - exists []. exact H1.
Qed.

(** The first request of the generate-course operation embeds the first
    24000 UTF-16 code units of the syllabus text: the whole text when it is
    not longer, and otherwise, for a text within the Basic Multilingual
    Plane, the prefix of that length. *)
Theorem generate_course_truncates_syllabus :
  forall (cfg : Config) (reqBody : value) (net : Net) (syllabus : string),
    OPENAI_API_KEY cfg <> "" ->
    field reqBody "syllabusText" = VStr syllabus -> syllabus <> "" ->
    course_prompt_prints reqBody = true ->
    exists rq rest t,
      new_requests net (snd (generate_course cfg reqBody net)) = rq :: rest
      /\ syllabus_of rq = Some t
      /\ ((utf16_length syllabus <= 24000)%nat -> t = syllabus)
      /\ (astral_free syllabus = true ->
          String.prefix t syllabus = true
          /\ utf16_length t = Nat.min 24000 (utf16_length syllabus)).
Proof.
  intros cfg reqBody net syllabus Hk Hs Hne Hc.
  assert (Htr : truthy (VStr syllabus) = true).
  { simpl. apply negb_true_iff. now apply String.eqb_neq. }
  unfold generate_course. rewrite snd_handler, Hs, Htr.
  cbn [negb orb isString str_of]. cbv zeta.
  rewrite buildCourseOnlyPrompt_cases, Hc, mbind_lift_ok.
  match goal with |- context [mbind (openaiResponses ?c ?m ?i ?t ?j) ?k net] =>
    destruct (@first_request _ c m i t j k 1 net Hk) as [rest Hrest]
  end.
  { intros a.
    match goal with |- sends ?P _ _ _ =>
      eapply (@sends_weaken _ P P); [build_sends | auto | cbn; lia | cbn; lia]
    end. }
  eexists; exists rest; eexists. unfold new_requests. rewrite Hrest.
  rewrite skipn_app, Nat.sub_diag, skipn_all. cbn [skipn app].
  split; [reflexivity|]. split; [reflexivity|].
  unfold slice_units, utf16_length. split.
  - apply slice_from_all.
  - intros Ha. split; [now apply slice_from_prefix | now apply slice_from_units].
Qed.

Lemma generate_course_truncates_syllabus_witness :
  utf16_length long_syllabus = S 24000
  /\ exists rq rest t,
      new_requests (mocked []) (snd (generate_course with_key long_request (mocked [])))
      = rq :: rest
      /\ syllabus_of rq = Some t
      /\ String.prefix t long_syllabus = true
      /\ utf16_length t = 24000%nat.
Proof.
  destruct (copies_e_acute (S 24000)) as [Hfree Hlen].
  split; [exact Hlen|].
  destruct (@generate_course_truncates_syllabus with_key long_request (mocked [])
              long_syllabus)
    as (rq & rest & t & H1 & H2 & _ & H3);
    [discriminate | reflexivity | discriminate | reflexivity |].
  destruct (H3 Hfree) as [Hp Hu].
  exists rq, rest, t. split; [exact H1|]. split; [exact H2|]. split; [exact Hp|].
  unfold long_syllabus in Hu. rewrite Hlen in Hu. rewrite Hu.
  apply Nat.min_l, Nat.le_succ_diag_r.
Defined.

(** There is no partial success: when pass 1 has produced a course and the
    remote end fails on pass 2, the operation answers 500 after its two
    requests and the course of pass 1 is not returned.  The answer carries
    the error of the failed call: the rejection of [fetch], or the error
    made of the message of the remote end. *)
Theorem generate_course_no_partial_success :
  forall (cfg : Config) (reqBody : value) (net : Net) (syllabus : string)
         (d1 : value) (t1 : string) (course outline : value) (o2 : FetchOutcome),
    OPENAI_API_KEY cfg <> "" ->
    field reqBody "syllabusText" = VStr syllabus -> syllabus <> "" ->
    course_prompt_prints reqBody = true -> quiz_prompt_prints reqBody = true ->
    (forall rq, remote net (List.length (sent net)) rq
                = Resolved {| status := 200; json := Some d1 |}) ->
    extractText d1 = Ok t1 -> safeParseJson t1 = Ok course ->
    outlineForQuiz course = Ok outline ->
    (forall rq, remote net (S (List.length (sent net))) rq = o2) ->
    List.length (sent (snd (generate_course cfg reqBody net)))
    = (List.length (sent net) + 2)%nat
    /\ (o2 = Rejected ->
        fst (generate_course cfg reqBody net)
        = {| code := 500; body := BCaught TypeError "Course generation failed" |})
    /\ (forall r, o2 = Resolved r -> ok r = false ->
        fst (generate_course cfg reqBody net)
        = {| code := 500;
             body := BCaught (if printable (error_message r)
                              then Error (error_message r) else TypeError)
                       "Course generation failed" |}).
Proof.
  intros cfg reqBody net syllabus d1 t1 course outline o2
         Hk Hs Hne Hc Hq H1 Ht1 Hp1 Hout H2.
  assert (Htr : truthy (VStr syllabus) = true).
  { simpl. apply negb_true_iff. now apply String.eqb_neq. }
  assert (Hgen :
    generate_course cfg reqBody net
    = handler
        (fun net1 =>
           (d2 <- openaiResponses cfg
                    (or_else (field reqBody "model") (VStr (OPENAI_MODEL cfg)))
                    (QuizOnlyPrompt outline (field reqBody "settings")) 5000 true ;;
            t2 <- lift (extractText d2) ;;
            quizObj <- lift (safeParseJson t2) ;;
            finalTest <- lift (get quizObj "finalTest") ;;
            merged <- lift (put course "finalTest" finalTest) ;;
            ret {| code := 200; body := BJsonTextOf merged |})
             {| remote := remote net;
                sent := (sent net
                         ++ [request_for cfg
                               (or_else (field reqBody "model") (VStr (OPENAI_MODEL cfg)))
                               (CourseOnlyPrompt (slice_units 24000 syllabus)
                                  (field reqBody "settings")) 12000 true])%list |})
        "Course generation failed" net).
  { unfold generate_course, handler, mbind, lift, ret.
    rewrite Hs, Htr. cbn [negb orb isString str_of].
    rewrite buildCourseOnlyPrompt_cases, Hc.
    rewrite openaiResponses_resolved with (d := d1); [|exact Hk|exact H1].
    rewrite Ht1, Hp1, Hout, buildQuizOnlyPrompt_cases, Hq. reflexivity. }
  rewrite Hgen. clear Hgen. split.
  - rewrite snd_handler. cbv beta. rewrite snd_mbind_pure.
    + rewrite openaiResponses_sent by exact Hk. cbn [sent].
      rewrite !length_app. cbn [List.length]. lia.
    + intros d2 net2. repeat (rewrite snd_mbind_pure; [reflexivity | intros]).
      reflexivity.
  - unfold handler, mbind, openaiResponses, fetch.
    apply String.eqb_neq in Hk. rewrite Hk.
    cbn [remote sent]. rewrite length_app. cbn [List.length]. rewrite Nat.add_1_r, H2.
    split.
    + intros ->. reflexivity.
    + intros r -> Hok. rewrite Hok. cbn [negb].
      now destruct (printable (error_message r)).
Qed.

Lemma generate_course_no_partial_success_witness :
  fst (generate_course with_key syllabus_request (mocked [envelope pass1_text]))
  = {| code := 500; body := BCaught TypeError "Course generation failed" |}
  /\ List.length (sent (snd (generate_course with_key syllabus_request
                               (mocked [envelope pass1_text])))) = 2%nat.
Proof.
  destruct (@generate_course_no_partial_success with_key syllabus_request
              (mocked [envelope pass1_text]) "Week 1: sets" (envelope pass1_text)
              pass1_text (VObj pass1_course)
              (VObj [ ("courseTitle", VStr "Sets");
                      ("units",
                        arr [VObj [ ("id", VStr "u1"); ("title", VStr "Unit 1");
                                    ("lessons",
                                      arr [VObj [("id", VStr "u1l1");
                                                 ("title", VStr "Basics")]]) ]]) ])
              Rejected)
    as (Hlen & Hrej & _); try reflexivity; try discriminate.
  split; [exact (Hrej eq_refl) | exact Hlen].
Defined.

(** The focused-course operation hands the text of the model to the client
    as it is: for a valid request whose prompt can be built and a 200 answer
    of the remote end, it answers 200 with the extracted text whether or not
    that text is JSON. *)
Theorem focused_course_returns_text_unparsed :
  forall (cfg : Config) (reqBody : value) (net : Net) (d : value) (t : string),
    OPENAI_API_KEY cfg <> "" ->
    truthy (field reqBody "originalCourse") = true ->
    nonempty_array (field reqBody "wrongAnswers") = true ->
    focused_prompt_prints reqBody = true ->
    (forall rq, remote net (List.length (sent net)) rq
                = Resolved {| status := 200; json := Some d |}) ->
    extractText d = Ok t ->
    fst (focused_course cfg reqBody net) = {| code := 200; body := BJsonText t |}.
Proof.
  intros cfg reqBody net d t Hk Ho Hw Hp Hr Ht.
  unfold focused_course, handler, mbind, lift, ret.
  unfold nonempty_array in Hw. apply andb_prop in Hw as [Ha Hl].
  rewrite Ho, Ha. cbn [negb orb].
  destruct (Nat.eqb _ 0); [discriminate|].
  rewrite buildFocusedPrompt_cases, Hp.
  unfold focused_prompt_prints in Hp.
  destruct (sourceExcerpt (field reqBody "sourceText")) as [x|e];
    [|rewrite !andb_false_r in Hp; discriminate Hp].
  rewrite openaiResponses_resolved with (d := d); [|exact Hk|exact Hr].
  now rewrite Ht.
Qed.

Lemma focused_course_returns_text_unparsed_witness :
  safeParseJson "not json at all" = Throw malformed_output_error
  /\ fst (focused_course with_key (focused_request (arr [VNull]))
            (mocked [envelope "not json at all"]))
     = {| code := 200; body := BJsonText "not json at all" |}.
Proof.
  split; [reflexivity|].
  apply (@focused_course_returns_text_unparsed with_key (focused_request (arr [VNull]))
           (mocked [envelope "not json at all"])
           (envelope "not json at all") "not json at all");
    try reflexivity; discriminate.
Defined.

(** A request whose [settings.minimumLessonWords] does not convert to a
    string (an object with an own [toString], an array holding one) fails
    while the course prompt is built: the operation answers 500 with a
    TypeError and no request is sent, with or without a credential. *)
Theorem unprintable_settings_fail_before_the_call :
  forall (cfg : Config) (reqBody : value) (net : Net) (syllabus : string),
    field reqBody "syllabusText" = VStr syllabus -> syllabus <> "" ->
    course_prompt_prints reqBody = false ->
    generate_course cfg reqBody net
    = ({| code := 500; body := BCaught TypeError "Course generation failed" |}, net).
Proof.
  intros cfg reqBody net syllabus Hs Hne Hc.
  assert (Htr : truthy (VStr syllabus) = true).
  { simpl. apply negb_true_iff. now apply String.eqb_neq. }
  unfold generate_course, handler, mbind, lift.
  rewrite Hs, Htr. cbn [negb orb isString str_of].
  now rewrite buildCourseOnlyPrompt_cases, Hc.
Qed.

Lemma unprintable_settings_fail_before_the_call_witness :
  course_prompt_prints unprintable_request = false
  /\ generate_course with_key unprintable_request (mocked [envelope pass1_text])
     = ({| code := 500; body := BCaught TypeError "Course generation failed" |},
        mocked [envelope pass1_text]).
Proof.
  split; [reflexivity|].
  apply (@unprintable_settings_fail_before_the_call with_key unprintable_request
           (mocked [envelope pass1_text]) "Week 1: sets");
    [reflexivity | discriminate | reflexivity].
Defined.

End HandlerEdges.

(** ** Recovery of an object wrapped in prose, and the outline *)

Section RecoveryAndOutline.
Import JS Backend.

Lemma from_open_brace_app (pre r : string) :
  occurs "{" pre = false ->
  Regex.from_open_brace (pre ++ String "{" r) = Some (String "{" r).
Proof.
  induction pre as [|c pre IH]; simpl; [reflexivity|].
  intros H. apply orb_false_elim in H as [Hc Hp]. now rewrite Hc, IH.
Qed.

Lemma through_last_close_brace_absent (s : string) :
  occurs "}" s = false -> Regex.through_last_close_brace s = None.
Proof.
  induction s as [|c s IH]; simpl; [reflexivity|].
  intros H. apply orb_false_elim in H as [Hc Hp]. now rewrite IH, Hc.
Qed.

Lemma through_last_close_brace_app (mid post : string) :
  occurs "}" post = false ->
  Regex.through_last_close_brace (mid ++ String "}" post) = Some (mid ++ "}").
Proof.
  intros H. induction mid as [|c mid IH]; simpl.
  - now rewrite through_last_close_brace_absent.
  - now rewrite IH.
Qed.

Lemma match_braces_wrapped (pre mid post : string) :
  occurs "{" pre = false -> occurs "}" post = false ->
  Regex.match_braces (pre ++ ("{" ++ mid ++ "}") ++ post) = Some ("{" ++ mid ++ "}").
Proof.
  intros Hpre Hpost. unfold Regex.match_braces.
  change (("{" ++ mid ++ "}") ++ post) with (String "{" ((mid ++ "}") ++ post)).
  rewrite from_open_brace_app by exact Hpre.
  rewrite append_assoc. change ("}" ++ post) with (String "}" post).
  now rewrite through_last_close_brace_app.
Qed.

(** A JSON object wrapped in prose is recovered by both extractors, provided
    the prose before it has no opening brace, the prose after it no closing
    brace, and the whole is not itself JSON. *)
Theorem wrapped_object_is_recovered :
  forall (pre mid post : string) (v : value),
    occurs "{" pre = false -> occurs "}" post = false ->
    Json.JSON_parse (pre ++ ("{" ++ mid ++ "}") ++ post) = None ->
    Json.JSON_parse ("{" ++ mid ++ "}") = Some v ->
    safeParseJson (pre ++ ("{" ++ mid ++ "}") ++ post) = Ok v
    /\ Frontend.parseJSONLoosely (VStr (pre ++ ("{" ++ mid ++ "}") ++ post)) = Ok v.
Proof.
  intros pre mid post v Hpre Hpost Hwhole Hobj.
  assert (Hs : safeParseJson (pre ++ ("{" ++ mid ++ "}") ++ post) = Ok v).
  { unfold safeParseJson. now rewrite Hwhole, match_braces_wrapped, Hobj. }
  split; [exact Hs|].
  unfold Frontend.parseJSONLoosely.
  rewrite Hwhole, match_braces_wrapped, Hobj by assumption.
  destruct pre; reflexivity.
Qed.

Lemma wrapped_object_is_recovered_witness :
  safeParseJson ("Sure: " ++ ("{" ++ quoted "'a':1" ++ "}") ++ " Bye") = Ok (VObj [("a", num 1)])
  /\ Frontend.parseJSONLoosely (VStr ("Sure: " ++ ("{" ++ quoted "'a':1" ++ "}") ++ " Bye"))
     = Ok (VObj [("a", num 1)]).
Proof.
  apply (@wrapped_object_is_recovered "Sure: " (quoted "'a':1") " Bye"
           (VObj [("a", num 1)])); reflexivity.
Defined.

(** [parseJSONLoosely] raises "Empty AI response" exactly on what is not a
    non-empty string. *)
Theorem parseJSONLoosely_rejects_non_text :
  forall raw : value,
    Frontend.parseJSONLoosely raw = Throw (Error (VStr "Empty AI response"))
    <-> nonempty_string raw = false.
Proof.
  intros raw. unfold Frontend.parseJSONLoosely.
  destruct raw as [| | | | s | |]; simpl; try (split; [reflexivity | reflexivity]).
  destruct (s =? ""); simpl; [split; reflexivity|].
  destruct (Json.JSON_parse s); [split; discriminate|].
  destruct (Regex.match_braces s) as [m0|]; [|split; discriminate].
  destruct (Json.JSON_parse m0); split; discriminate.
Qed.

Lemma map_result_cases (f : value -> result value) (shaped : value -> bool)
    (l : list value) :
  (forall x, shaped x = true -> exists y, f x = Ok y) ->
  (forall x, shaped x = false -> f x = Throw TypeError) ->
  (forallb shaped l = true -> exists ys, map_result f l = Ok ys)
  /\ (forallb shaped l = false -> map_result f l = Throw TypeError).
Proof.
  intros Hok Hko. induction l as [|x l [IH1 IH2]]; simpl.
  - split; [eauto | discriminate].
  - destruct (shaped x) eqn:Hx; simpl.
    + destruct (Hok x Hx) as [y ->]. simpl. split; intros H.
      * destruct (IH1 H) as [ys ->]. simpl. eauto.
      * now rewrite (IH2 H).
    + rewrite (Hko x Hx). simpl. split; [discriminate | reflexivity].
Qed.

Lemma map_or_empty_cases (v : value) (f : value -> result value)
    (shaped : value -> bool) :
  (forall x, shaped x = true -> exists y, f x = Ok y) ->
  (forall x, shaped x = false -> f x = Throw TypeError) ->
  absent_or_array v && forallb shaped (elems_of v) = false ->
  map_or_empty v f = Throw TypeError.
Proof.
  intros Hok Hko. unfold absent_or_array, map_or_empty, or_else.
  destruct (truthy v) eqn:Ht.
  - destruct v; simpl; try reflexivity.
    intros H. destruct (@map_result_cases f shaped elems Hok Hko) as [_ H2].
    now rewrite (H2 H).
  - destruct v; simpl; try discriminate.
Qed.

Lemma outlineLesson_throws (l : value) :
  lesson_shaped l = false -> outlineLesson l = Throw TypeError.
Proof.
  unfold lesson_shaped, outlineLesson, get. intros H.
  apply negb_false_iff in H. now rewrite H.
Qed.

Lemma outlineUnit_throws (u : value) :
  unit_shaped u = false -> outlineUnit u = Throw TypeError.
Proof.
  unfold unit_shaped, outlineUnit, get. intros H.
  destruct (nullish u); [reflexivity|]. simpl in *.
  now rewrite (@map_or_empty_cases _ outlineLesson lesson_shaped
                 outlineLesson_ok outlineLesson_throws H).
Qed.

(** Building the outline fails, with a TypeError, exactly when the parsed
    course is not course-shaped: it is [null], or its units are something else
    than an array, or a unit is [null], or the lessons of a unit are something
    else than an array, or a lesson is [null]. *)
Theorem outlineForQuiz_throws_exactly :
  forall (course : value) (e : exn),
    outlineForQuiz course = Throw e <-> e = TypeError /\ course_shaped course = false.
Proof.
  intros course e. destruct (course_shaped course) eqn:Hs.
  - destruct (@outlineForQuiz_ok course Hs) as [o ->].
    split; [discriminate | intros [_ H]; discriminate H].
  - assert (H : outlineForQuiz course = Throw TypeError).
    { unfold course_shaped in Hs. unfold outlineForQuiz, get.
      destruct (nullish course); [reflexivity|]. simpl in *.
      now rewrite (@map_or_empty_cases _ outlineUnit unit_shaped
                     outlineUnit_ok outlineUnit_throws Hs). }
    rewrite H. split; [intros [= <-]; auto | intros [-> _]; reflexivity].
Qed.

Lemma map_result_Forall2 (f : value -> result value) (l ys : list value) :
  map_result f l = Ok ys -> Forall2 (fun x y => f x = Ok y) l ys.
Proof.
  revert ys. induction l as [|x l IH]; simpl; intros ys.
  - intros [= <-]. constructor.
  - destruct (f x) as [y|] eqn:Hy; [|discriminate]. simpl.
    destruct (map_result f l) as [ys'|]; [|discriminate]. simpl.
    intros [= <-]. constructor; auto.
Qed.

Lemma map_or_empty_Forall2 (v : value) (f : value -> result value) (o : value) :
  map_or_empty v f = Ok o ->
  exists ys, o = arr ys /\ Forall2 (fun x y => f x = Ok y) (elems_of v) ys.
Proof.
  unfold map_or_empty, or_else. destruct (truthy v) eqn:Ht.
  - destruct v; try discriminate. simpl.
    destruct (map_result f elems) as [ys|] eqn:Hm; [|discriminate]. simpl.
    intros [= <-]. exists ys. split; [reflexivity | now apply map_result_Forall2].
  - simpl. intros [= <-]. exists []. split; [reflexivity|].
    destruct v; try discriminate; constructor.
Qed.

(** The outline sent to pass 2 keeps, unit by unit and lesson by lesson, the
    ids and titles of the course and nothing else: no description, no lesson
    content, no key points. *)
Theorem outlineForQuiz_keeps_ids_and_titles :
  forall course o : value,
    outlineForQuiz course = Ok o ->
    keys_of o = ["courseTitle"; "units"]
    /\ get_opt o "courseTitle" = get_opt course "courseTitle"
    /\ Forall2
         (fun u ou =>
            keys_of ou = ["id"; "title"; "lessons"]
            /\ get_opt ou "id" = get_opt u "id"
            /\ get_opt ou "title" = get_opt u "title"
            /\ Forall2
                 (fun l ol =>
                    keys_of ol = ["id"; "title"]
                    /\ get_opt ol "id" = get_opt l "id"
                    /\ get_opt ol "title" = get_opt l "title")
                 (elems_of (get_opt u "lessons")) (elems_of (get_opt ou "lessons")))
         (elems_of (get_opt course "units")) (elems_of (get_opt o "units")).
Proof.
  intros course o. unfold outlineForQuiz, get.
  destruct (nullish course); [discriminate|]. simpl.
  destruct (map_or_empty (get_opt course "units") outlineUnit) as [us|] eqn:Hu;
    [|discriminate].
  simpl. intros [= <-].
  destruct (@map_or_empty_Forall2 _ _ _ Hu) as (ys & -> & HF).
  repeat split. cbn [get_opt lookup String.eqb Ascii.eqb Bool.eqb arr elems_of].
  eapply Forall2_impl; [|exact HF].
  intros u ou. unfold outlineUnit, get.
  destruct (nullish u); [discriminate|]. simpl.
  destruct (map_or_empty (get_opt u "lessons") outlineLesson) as [ls|] eqn:Hl;
    [|discriminate].
  simpl. intros [= <-].
  destruct (@map_or_empty_Forall2 _ _ _ Hl) as (zs & -> & HFl).
  repeat split. cbn [get_opt lookup String.eqb Ascii.eqb Bool.eqb arr elems_of].
  eapply Forall2_impl; [|exact HFl].
  intros l ol. unfold outlineLesson, get.
  destruct (nullish l); [discriminate|]. simpl.
  intros [= <-]. repeat split.
Qed.

Lemma outlineForQuiz_keeps_ids_and_titles_witness :
  exists o,
    outlineForQuiz (VObj pass1_course) = Ok o
    /\ keys_of o = ["courseTitle"; "units"]
    /\ get_opt o "courseTitle" = VStr "Sets".
Proof.
  eexists. split; [reflexivity|].
  destruct (@outlineForQuiz_keeps_ids_and_titles (VObj pass1_course) _ eq_refl)
    as (Hk & Ht & _).
  split; [exact Hk | exact Ht].
Defined.

End RecoveryAndOutline.

(** ** More on the shuffle and the normalizer *)

Section NormalizerDetails.
Import JS Frontend.

(** For every random source, [shuffleArray] returns a permutation of its
    argument, of the same length. *)
Theorem shuffleArray_permutes :
  forall (A : Type) (a : list A) (g : Rng),
    Permutation a (fst (shuffleArray a g))
    /\ List.length (fst (shuffleArray a g)) = List.length a.
Proof.
  intros A a g. pose proof (shuffleArray_Permutation a g) as H.
  split; [exact H | symmetry; now apply Permutation_length].
Qed.

Lemma shuffle_loop_draws {A} (i : nat) (a : list A) (g : Rng) (n : nat) :
  snd (shuffle_loop i a g) n = g (n + i)%nat.
Proof.
  revert a g. induction i as [|i IH]; intros a g; simpl.
  - now rewrite Nat.add_0_r.
  - rewrite IH. f_equal. lia.
Qed.

(** [shuffleArray] calls [Math.random] once per element but the first: after
    it, the random source stands [length - 1] draws further (and where it was
    for an empty array). *)
Theorem shuffleArray_draws :
  forall (A : Type) (a : list A) (g : Rng) (n : nat),
    snd (shuffleArray a g) n = g (n + (List.length a - 1))%nat.
Proof. intros A a g n. apply shuffle_loop_draws. Qed.

Lemma map_shuffle_draws (qs : list value) (i : nat) (g : Rng) (n : nat) :
  snd (map_shuffle (mapi_from i normalizeQuestion qs) g) n
  = g (n + 3 * List.length qs)%nat.
Proof.
  revert i g. induction qs as [|q qs IH]; intros i g; simpl.
  - now rewrite Nat.add_0_r.
  - rewrite shuffleQuestionOptions_normalized.
    assert (Hd : forall n,
               snd (shuffleArray (mapi (mark (pre_answer q)) (pre_options q)) g) n
               = g (n + (List.length (mapi (mark (pre_answer q)) (pre_options q)) - 1))%nat)
      by (intros; apply shuffle_loop_draws).
    destruct (shuffleArray (mapi (mark (pre_answer q)) (pre_options q)) g) as [sh g1].
    simpl in Hd. specialize (IH (S i) g1).
    destruct (map_shuffle (mapi_from (S i) normalizeQuestion qs) g1) as [[l|e] g2];
      simpl in *; rewrite IH, Hd; unfold mapi; rewrite mapi_from_length, pre_options_length;
      f_equal; lia.
Qed.

(** [normalizeCourseJSON] draws exactly three random numbers per question of
    the input, whether it returns or throws. *)
Theorem normalize_draws_three_per_question :
  forall (parsed : value) (g : Rng) (n : nat),
    snd (normalizeCourseJSON parsed g) n
    = g (n + 3 * List.length (questions_of parsed))%nat.
Proof.
  intros parsed g n. rewrite normalize_unfold.
  pose proof (map_shuffle_draws (questions_of parsed) 0 g n) as H. unfold mapi.
  destruct (map_shuffle (mapi_from 0 normalizeQuestion (questions_of parsed)) g)
    as [[qs|e] g1]; simpl in *; [|exact H].
  destruct (put _ "questions" (arr qs)); exact H.
Qed.

Lemma Forall_mapi_from {A B} (P : B -> Prop) (f : A -> nat -> B) (l : list A) (i : nat) :
  (forall x j, P (f x j)) -> Forall P (mapi_from i f l).
Proof. intros H. revert i. induction l; intros i; simpl; constructor; auto. Qed.

Lemma Forall_firstn {A} (P : A -> Prop) (n : nat) (l : list A) :
  Forall P l -> Forall P (firstn n l).
Proof.
  intros H. revert n. induction H; intros [|n]; simpl; constructor; auto.
Qed.

Lemma Forall_filter_true {A} (f : A -> bool) (l : list A) :
  Forall (fun x => f x = true) (filter f l).
Proof.
  induction l as [|x l IH]; simpl; [constructor|].
  destruct (f x) eqn:E; [constructor|]; auto.
Qed.

(** The units of a normalized course: as many as in the input; each with a
    truthy id and title and an array of lessons; each lesson with a truthy id
    and title, a string as content, and at most ten key points, all truthy. *)
Theorem normalized_units_are_well_formed :
  forall (parsed : value) (g : Rng) (y : value) (g' : Rng),
    normalizeCourseJSON parsed g = (Ok y, g') ->
    exists us,
      get_opt y "units" = arr us
      /\ List.length us = List.length (elems_of (get_opt parsed "units"))
      /\ Forall
           (fun u =>
              truthy (get_opt u "id") = true
              /\ truthy (get_opt u "title") = true
              /\ isArray (get_opt u "lessons") = true
              /\ Forall
                   (fun l =>
                      truthy (get_opt l "id") = true
                      /\ truthy (get_opt l "title") = true
                      /\ isString (get_opt l "content") = true
                      /\ isArray (get_opt l "keyPoints") = true
                      /\ (List.length (elems_of (get_opt l "keyPoints")) <= 10)%nat
                      /\ Forall (fun p => truthy p = true) (elems_of (get_opt l "keyPoints")))
                   (elems_of (get_opt u "lessons")))
           us.
Proof.
  intros parsed g y g' Hy.
  destruct (@normalize_result _ _ _ _ Hy) as (qs' & ft' & _ & _ & -> & _ & _).
  exists (mapi normalizeUnit (elems_of (get_opt parsed "units"))).
  split.
  { cbn [get_opt]. rewrite lookup_assign_other by discriminate.
    change (get_opt (VObj (course_head parsed)) "units"
            = arr (mapi normalizeUnit (elems_of (get_opt parsed "units")))).
    apply head_units. }
  split; [apply mapi_from_length|].
  apply Forall_mapi_from. intros u ui.
  unfold normalizeUnit. cbn [get_opt lookup String.eqb Ascii.eqb Bool.eqb].
  split; [now apply or_else_truthy|]. split; [now apply or_else_truthy|].
  split; [now destruct (isArray (get_opt u "lessons"))|].
  destruct (isArray (get_opt u "lessons")); [|constructor].
  cbn [arr elems_of]. apply Forall_mapi_from. intros l li.
  unfold normalizeLesson. cbn [get_opt lookup String.eqb Ascii.eqb Bool.eqb].
  split; [now apply or_else_truthy|]. split; [now apply or_else_truthy|].
  split; [now destruct (get_opt l "content")|].
  split; [now destruct (isArray (get_opt l "keyPoints"))|].
  destruct (isArray (get_opt l "keyPoints")); cbn [arr elems_of].
  - split; [apply firstn_le_length|]. apply Forall_firstn, Forall_filter_true.
  - split; [simpl; lia | constructor].
Qed.

Lemma normalized_units_are_well_formed_witness :
  exists y us,
    fst (normalizeCourseJSON course_with_lessons always_zero) = Ok y
    /\ get_opt y "units" = arr us
    /\ List.length us = 2%nat
    /\ map (fun u => List.length (elems_of (get_opt u "lessons"))) us = [2; 0]%nat
    /\ Forall
         (fun u =>
            truthy (get_opt u "id") = true
            /\ truthy (get_opt u "title") = true
            /\ isArray (get_opt u "lessons") = true
            /\ Forall
                 (fun l =>
                    truthy (get_opt l "id") = true
                    /\ truthy (get_opt l "title") = true
                    /\ isString (get_opt l "content") = true
                    /\ isArray (get_opt l "keyPoints") = true
                    /\ (List.length (elems_of (get_opt l "keyPoints")) <= 10)%nat
                    /\ Forall (fun p => truthy p = true) (elems_of (get_opt l "keyPoints")))
                 (elems_of (get_opt u "lessons")))
         us.
Proof.
  destruct (@normalized_units_are_well_formed course_with_lessons always_zero _
              always_zero eq_refl) as (us & H1 & H2 & H3).
  eexists; exists us. split; [reflexivity|]. split; [exact H1|].
  split; [exact H2|]. split; [|exact H3].
  injection H1 as <-. reflexivity.
Defined.

(** Fields of the input object that the normalizer does not know are kept
    as they are. *)
Theorem normalize_keeps_other_fields :
  forall (ps : props) (g : Rng) (y : value) (g' : Rng) (k : string),
    normalizeCourseJSON (VObj ps) g = (Ok y, g') ->
    k <> "courseTitle" -> k <> "courseDescription" -> k <> "units" -> k <> "finalTest" ->
    get_opt y k = get_opt (VObj ps) k.
Proof.
  intros ps g y g' k Hy H1 H2 H3 H4.
  destruct (@normalize_result _ _ _ _ Hy) as (qs' & ft' & _ & _ & -> & _ & _).
  unfold course_head. cbn [get_opt spread].
  now rewrite !lookup_assign_other by congruence.
Qed.

Lemma normalize_keeps_other_fields_witness :
  exists y,
    fst (normalizeCourseJSON (VObj [("sourceText", VStr "raw")]) always_zero) = Ok y
    /\ get_opt y "sourceText" = VStr "raw".
Proof.
  eexists. split; [reflexivity|].
  apply (@normalize_keeps_other_fields [("sourceText", VStr "raw")] always_zero _
           always_zero "sourceText" eq_refl); discriminate.
Defined.

End NormalizerDetails.

(** ** Positional identifiers *)

Section PositionalIds.
Import JS Frontend.

Lemma nat_to_string_inj (n m : nat) : nat_to_string n = nat_to_string m -> n = m.
Proof.
  unfold nat_to_string. intros H.
  apply DecimalNat.Unsigned.to_uint_inj.
  assert (E : Some (Nat.to_uint n) = Some (Nat.to_uint m)).
  { rewrite <- !NilEmpty.usu. now rewrite H. }
  now injection E.
Qed.

Lemma default_ids_from (l : list value) (i : nat) :
  Forall (fun u => truthy (get_opt u "id") = false) l ->
  map (fun u => get_opt u "id") (mapi_from i normalizeUnit l)
  = map (fun j => VStr ("u" ++ nat_to_string (j + 1))) (seq i (List.length l)).
Proof.
  intros H. revert i. induction H as [|u l Hu _ IH]; intros i; simpl; [reflexivity|].
  rewrite IH. f_equal. unfold or_else. now rewrite Hu.
Qed.

(** When no unit of the input carries a usable id, the units of the
    normalized course get the ids u1, u2, ... in order, which are pairwise
    different. *)
Theorem default_unit_ids_are_distinct :
  forall (parsed : value) (g : Rng) (y : value) (g' : Rng),
    normalizeCourseJSON parsed g = (Ok y, g') ->
    Forall (fun u => truthy (get_opt u "id") = false) (elems_of (get_opt parsed "units")) ->
    map (fun u => get_opt u "id") (elems_of (get_opt y "units"))
    = map (fun j => VStr ("u" ++ nat_to_string (j + 1)))
        (seq 0 (List.length (elems_of (get_opt parsed "units"))))
    /\ NoDup (map (fun u => get_opt u "id") (elems_of (get_opt y "units"))).
Proof.
  intros parsed g y g' Hy Hids.
  destruct (@normalize_result _ _ _ _ Hy) as (qs' & ft' & _ & _ & -> & _ & _).
  assert (Hu : get_opt (VObj (assign "finalTest" ft' (course_head parsed))) "units"
               = arr (mapi normalizeUnit (elems_of (get_opt parsed "units")))).
  { cbn [get_opt]. rewrite lookup_assign_other by discriminate. apply head_units. }
  rewrite Hu. cbn [arr elems_of]. unfold mapi.
  rewrite (default_ids_from 0 Hids). split; [reflexivity|].
  apply Finite.Injective_map_NoDup; [|apply seq_NoDup].
  intros a b [= H]. apply nat_to_string_inj in H. lia.
Qed.

Lemma default_unit_ids_are_distinct_witness :
  exists y,
    fst (normalizeCourseJSON (VObj [("units", arr [VNull; VObj []; num 7])]) always_zero)
    = Ok y
    /\ map (fun u => get_opt u "id") (elems_of (get_opt y "units"))
       = [VStr "u1"; VStr "u2"; VStr "u3"]
    /\ NoDup (map (fun u => get_opt u "id") (elems_of (get_opt y "units"))).
Proof.
  eexists. split; [reflexivity|].
  apply (@default_unit_ids_are_distinct (VObj [("units", arr [VNull; VObj []; num 7])])
           always_zero _ always_zero eq_refl).
  repeat constructor.
Defined.

End PositionalIds.

(** ** Passwords *)

Section Passwords.
Import Text.

Lemma test_has (class : N -> bool) (s : text) : test class s = true <-> has class s.
Proof. unfold test, has. apply existsb_exists. Qed.

(** The last class of [validatePassword] is ASCII punctuation. *)
Lemma special_is_punctuation (c : N) : special c = punctuation c.
Proof.
  destruct (N.ltb_spec c 128) as [Hlt|Hge].
  - assert (Hall : forallb (fun n => Bool.eqb (special n) (punctuation n))
                     (map N.of_nat (seq 0 128)) = true) by (vm_compute; reflexivity).
    rewrite forallb_forall in Hall.
    apply Bool.eqb_prop, Hall, in_map_iff.
    exists (N.to_nat c). split; [apply N2Nat.id|]. apply in_seq. lia.
  - assert (Hs : special c = false).
    { unfold special, special_chars. simpl.
      repeat match goal with
             | |- context [(c =? ?k)%N] =>
                 destruct (N.eqb_spec c k); [lia|]
             end.
      reflexivity. }
    rewrite Hs. unfold punctuation, in_range.
    repeat match goal with
           | |- context [(c <=? ?k)%N] => destruct (N.leb_spec c k); [lia|]
           end.
    now rewrite !andb_false_r.
Qed.

(** [validatePassword] accepts a password exactly when it has at least
    eight code units, an uppercase and a lowercase ASCII letter, an ASCII
    digit and an ASCII punctuation mark; the message is empty exactly for an
    accepted password. *)
Theorem validatePassword_accepts_exactly :
  forall pw : text,
    (ok (validatePassword pw) = true <->
     (8 <= List.length pw)%nat /\ has upper pw /\ has lower pw /\ has digit pw
     /\ has punctuation pw)
    /\ (message (validatePassword pw) = "" <-> ok (validatePassword pw) = true).
Proof.
  intros pw.
  assert (Hsp : test special pw = test punctuation pw).
  { unfold test. induction pw as [|c pw IH]; simpl; [reflexivity|].
    now rewrite special_is_punctuation, IH. }
  rewrite <- !test_has, <- Hsp.
  unfold validatePassword, password_errors. cbn [ok message].
  destruct (Nat.ltb_spec (List.length pw) 8) as [Hlen|Hlen];
    destruct (test upper pw); destruct (test lower pw); destruct (test digit pw);
    destruct (test special pw); cbn;
    (split; split; intros H; try discriminate H; try reflexivity;
     try (repeat split; auto; lia); try (destruct H as (H8 & Hu & Hl & Hd & Hp);
                                         try discriminate; lia)).
Qed.

End Passwords.

(** ** Normalized text *)

Section NormalizedText.
Import Text.

Lemma crlf_to_lf_In (s : text) (x : N) :
  (In x (crlf_to_lf s) -> In x s)
  /\ (forall c, In x (crlf_to_lf (c :: s)) -> In x (c :: s)).
Proof.
  induction s as [|d r [IH1 IH2]].
  - split; [tauto | intros c; simpl; tauto].
  - assert (H1 : In x (crlf_to_lf (d :: r)) -> In x (d :: r)) by apply IH2.
    split; [exact H1|]. intros c.
    change (crlf_to_lf (c :: d :: r))
      with (if (c =? 13)%N && (d =? 10)%N then 10%N :: crlf_to_lf r
            else c :: crlf_to_lf (d :: r)).
    destruct ((c =? 13)%N && (d =? 10)%N) eqn:E.
    + apply andb_prop in E as [_ Ed]. apply N.eqb_eq in Ed. subst d.
      intros [<-|H]; [right; now left | right; right; auto].
    + intros [<-|H]; [now left | right; auto].
Qed.

Lemma collapse_newlines_In (s : text) (k : nat) (x : N) :
  In x (collapse_newlines k s) -> In x s.
Proof.
  revert k. induction s as [|c r IH]; intros k; simpl; [tauto|].
  destruct (c =? 10)%N; [destruct (k <? 2)%nat|]; simpl; intros H;
    try (destruct H as [H|H]; [now left|]); right; eapply IH; eauto.
Qed.

Lemma collapse_blanks_In (s : text) (b : bool) (x : N) :
  In x (collapse_blanks b s) -> In x s \/ x = 32%N.
Proof.
  revert b. induction s as [|c r IH]; intros b; [simpl; tauto|].
  cbn [collapse_blanks]. destruct (blank c).
  - destruct b.
    + intros H. destruct (IH _ H); [left; now right | now right].
    + destruct r as [|d r'].
      * intros [<-|[]]. left. now left.
      * destruct (blank d).
        -- intros [<-|H]; [now right|]. destruct (IH _ H); [left; now right | now right].
        -- intros [<-|H]; [left; now left|].
           destruct (IH _ H); [left; now right | now right].
  - intros [<-|H]; [left; now left|]. destruct (IH _ H); [left; now right | now right].
Qed.

Lemma trim_start_suffix (s : text) : exists p, s = (p ++ trim_start s)%list.
Proof.
  induction s as [|c r [p IH]]; simpl; [now exists []|].
  destruct (is_white c).
  - exists (c :: p). simpl. now rewrite <- IH.
  - now exists [].
Qed.

Lemma trim_end_prefix (s : text) : exists q, s = (trim_end s ++ q)%list.
Proof.
  induction s as [|c r [q IH]]; simpl; [now exists []|].
  destruct (trim_end r) as [|y t] eqn:E.
  - destruct (is_white c).
    + exists (c :: r). reflexivity.
    + exists q. simpl. now rewrite IH at 1.
  - exists q. simpl. now rewrite IH at 1.
Qed.

Lemma trim_infix (s : text) : exists p q, s = (p ++ trim s ++ q)%list.
Proof.
  unfold trim. destruct (trim_start_suffix s) as [p Hp].
  destruct (trim_end_prefix (trim_start s)) as [q Hq].
  exists p, q. now rewrite <- Hq.
Qed.

Lemma occurs_in_trim (t s : text) : occurs_in t (trim s) -> occurs_in t s.
Proof.
  intros (a & b & H). destruct (trim_infix s) as (p & q & Hs).
  exists (p ++ a)%list, (b ++ q)%list. rewrite Hs at 1. rewrite H.
  now rewrite <- !app_assoc.
Qed.

(** The result of [normalizeText] holds no NUL character. *)
Theorem normalizeText_has_no_nul :
  forall s : text, ~ In 0%N (normalizeText s).
Proof.
  intros s H. unfold normalizeText in H.
  assert (H1 : In 0%N (collapse_blanks false
                         (collapse_newlines 0 (crlf_to_lf (remove_nul s))))).
  { destruct (trim_infix (collapse_blanks false
                            (collapse_newlines 0 (crlf_to_lf (remove_nul s)))))
      as (p & q & E).
    rewrite E. apply in_or_app. right. apply in_or_app. now left. }
  apply collapse_blanks_In in H1 as [H1|H1]; [|discriminate].
  apply collapse_newlines_In in H1. apply crlf_to_lf_In in H1.
  unfold remove_nul in H1. apply filter_In in H1 as [_ H1]. discriminate.
Qed.

Lemma trim_start_head (s : text) (c : N) (r : text) :
  trim_start s = c :: r -> is_white c = false.
Proof.
  induction s as [|x s IH]; simpl; [discriminate|].
  destruct (is_white x) eqn:E; [exact IH|]. now intros [= <- _].
Qed.

Lemma trim_end_head (s : text) (c : N) (r : text) :
  trim_end s = c :: r -> exists r0, s = c :: r0.
Proof.
  destruct s as [|x s]; simpl; [discriminate|].
  destruct (trim_end s); [destruct (is_white x); [discriminate|]|];
    intros [= <- _]; eauto.
Qed.

Lemma trim_end_last (s r : text) (c : N) :
  trim_end s = (r ++ [c])%list -> is_white c = false.
Proof.
  revert r. induction s as [|x s IH]; intros r; simpl.
  - destruct r; discriminate.
  - destruct (trim_end s) as [|y t] eqn:E.
    + destruct (is_white x) eqn:Ex; [destruct r; discriminate|].
      destruct r as [|z [|? ?]]; try discriminate. now intros [= <-].
    + destruct r as [|z r]; [discriminate|]. simpl. intros [= _ H].
      now apply (IH r).
Qed.

(** The result of [normalizeText] neither starts nor ends with white space
    or a line terminator. *)
Theorem normalizeText_is_trimmed :
  forall s : text,
    (forall c r, normalizeText s = c :: r -> is_white c = false)
    /\ (forall r c, normalizeText s = (r ++ [c])%list -> is_white c = false).
Proof.
  intros s. unfold normalizeText, trim. split.
  - intros c r H. destruct (trim_end_head _ H) as [r0 H0].
    now apply trim_start_head in H0.
  - intros r c H. now apply trim_end_last in H.
Qed.

Lemma lf_runs_ok_antitone (s : text) (k k' : nat) :
  (k' <= k)%nat -> lf_runs_ok k s = true -> lf_runs_ok k' s = true.
Proof.
  revert k k'. induction s as [|c r IH]; intros k k' Hk; simpl; [auto|].
  destruct (c =? 10)%N; [|auto].
  intros H. apply andb_prop in H as [H1 H2]. apply andb_true_intro. split.
  - apply Nat.ltb_lt in H1. apply Nat.ltb_lt. lia.
  - apply (IH (S k)); [lia | exact H2].
Qed.

Lemma collapse_newlines_ok (s : text) (k : nat) :
  lf_runs_ok (Nat.min k 2) (collapse_newlines k s) = true.
Proof.
  revert k. induction s as [|c r IH]; intros k; simpl; [reflexivity|].
  destruct (c =? 10)%N eqn:Ec.
  - destruct (Nat.ltb_spec k 2) as [Hk|Hk].
    + simpl. rewrite Ec. replace (Nat.min k 2) with k by lia.
      specialize (IH (S k)). replace (Nat.min (S k) 2) with (S k) in IH by lia.
      rewrite IH, andb_true_r. apply Nat.ltb_lt. lia.
    + specialize (IH (S k)). replace (Nat.min (S k) 2) with (Nat.min k 2) in IH by lia.
      exact IH.
  - simpl. rewrite Ec. apply (IH 0%nat).
Qed.

Lemma blank_not_lf (c : N) : blank c = true -> (c =? 10)%N = false.
Proof.
  unfold blank. intros H. apply orb_prop in H as [H|H]; apply N.eqb_eq in H; now subst.
Qed.

Lemma collapse_blanks_lf (s : text) :
  (forall k, lf_runs_ok k s = true -> lf_runs_ok k (collapse_blanks false s) = true)
  /\ (forall k, lf_runs_ok k s = true -> lf_runs_ok 0 (collapse_blanks true s) = true).
Proof.
  induction s as [|c r [IH1 IH2]]; [split; reflexivity|].
  cbn [collapse_blanks lf_runs_ok]. destruct (blank c) eqn:Eb.
  - rewrite (blank_not_lf _ Eb). split; intros k H.
    + destruct r as [|d r']; [simpl; now rewrite (blank_not_lf _ Eb)|].
      destruct (blank d); cbn [lf_runs_ok]; [|rewrite (blank_not_lf _ Eb)]; eauto.
    + eauto.
  - split; intros k H; cbn [lf_runs_ok]; destruct (c =? 10)%N; eauto.
    + apply andb_prop in H as [H1 H2]. rewrite H1. simpl. eauto.
    + apply andb_prop in H as [H1 H2]. simpl. apply IH1.
      apply (lf_runs_ok_antitone r (k := S k)); [lia | exact H2].
Qed.

Lemma lf_runs_ok_no_triple (s : text) (k : nat) :
  lf_runs_ok k s = true -> ~ occurs_in [10; 10; 10]%N s.
Proof.
  intros H (a & b & E). subst s. revert k H.
  induction a as [|x a IH]; intros k; simpl.
  - destruct k as [|[|[|k]]]; cbn; try discriminate;
      rewrite ?andb_false_r; discriminate.
  - destruct (x =? 10)%N; [|apply IH].
    intros H. apply andb_prop in H as [_ H]. now apply IH in H.
Qed.

(** The result of [normalizeText] never has three line feeds in a row
    (so never more than one empty line). *)
Theorem normalizeText_has_no_three_line_feeds :
  forall s : text, ~ occurs_in [10; 10; 10]%N (normalizeText s).
Proof.
  intros s H. unfold normalizeText in H. apply occurs_in_trim in H.
  revert H. apply (@lf_runs_ok_no_triple _ 0).
  apply collapse_blanks_lf. apply (collapse_newlines_ok _ 0).
Qed.

Lemma blanks_ok_weaken (s : text) : blanks_ok true s = true -> blanks_ok false s = true.
Proof.
  destruct s as [|c r]; simpl; [auto|]. intros H. apply andb_prop in H as [_ H]. exact H.
Qed.

Lemma collapse_blanks_ok (s : text) :
  blanks_ok true (collapse_blanks true s) = true
  /\ blanks_ok false (collapse_blanks false s) = true
  /\ (match s with c :: _ => blank c = false | [] => True end ->
      blanks_ok true (collapse_blanks false s) = true).
Proof.
  induction s as [|c r (IH1 & IH2 & IH3)]; [repeat split|].
  cbn [collapse_blanks]. destruct (blank c) eqn:Eb.
  - split; [exact IH1|]. split; [|discriminate].
    destruct r as [|d r']; [reflexivity|].
    destruct (blank d) eqn:Ed; cbn [blanks_ok andb negb].
    + exact IH1.
    + rewrite Eb. apply IH3. reflexivity.
  - assert (H : forall prev, blanks_ok prev (c :: collapse_blanks false r) = true).
    { intros prev. cbn [blanks_ok]. rewrite Eb, andb_false_r. exact IH2. }
    repeat split; auto.
Qed.

Lemma blanks_ok_no_pair (s : text) (prev : bool) (x y : N) :
  blanks_ok prev s = true -> occurs_in [x; y] s -> blank x && blank y = false.
Proof.
  intros H (a & b & E). subst s. revert prev H.
  induction a as [|z a IH]; intros prev; simpl.
  - intros H. apply andb_prop in H as [_ H]. apply andb_prop in H as [H _].
    now apply negb_true_iff in H.
  - intros H. apply andb_prop in H as [_ H]. now apply IH in H.
Qed.

(** In the result of [normalizeText] no two neighbours are both a space or
    a tab. *)
Theorem normalizeText_has_no_two_blanks :
  forall (s : text) (x y : N),
    occurs_in [x; y] (normalizeText s) -> blank x && blank y = false.
Proof.
  intros s x y H. unfold normalizeText in H. apply occurs_in_trim in H.
  revert H. apply (@blanks_ok_no_pair _ false). apply collapse_blanks_ok.
Qed.

Lemma normalizeText_has_no_two_blanks_witness :
  occurs_in [97; 32]%N (normalizeText spaced_text)
  /\ blank 97 && blank 32 = false.
Proof.
  assert (H : occurs_in [97; 32]%N (normalizeText spaced_text)).
  { exists [], [98%N]. reflexivity. }
  split; [exact H|].
  exact (@normalizeText_has_no_two_blanks spaced_text 97%N 32%N H).
Defined.

End NormalizedText.
